(** * Inventory & billing: invoice ledger and schema manager

    A shallow embedding of the two application variants

    - [inventory_billing_app1.py]: the reconciling ledger ([create_invoice]
      with collections and dues, [add_inventory_movement]) and the schema
      manager ([table_has_column], [init_db_schema], [migrate_db]);
    - [inventory_billing_app.py]: the earlier ledger whose [create_invoice]
      takes one collection amount and performs no reconciliation.

    Python [float] and SQLite [REAL] are both IEEE 754 binary64; they are
    modelled by Rocq's primitive floats, which compute with the same
    format and rounding.  The SQLite file is modelled by a record of
    tables; a [with get_conn() as conn:] block is a transaction over it. *)

From Stdlib Require Import Floats ZArith List String Ascii Bool Lia DecimalString.
Import ListNotations.

Local Open Scope list_scope.
Local Open Scope string_scope.

(* Decimal literals such as 0.005 denote the nearest binary64 value, as in
   Python. *)
Set Warnings "-inexact-float".

(** ** Python values *)

(** [sum(xs)]: the items are added from left to right onto the start
    value [0].  (CPython 3.12 and later carry a compensation term along,
    which changes the result only where this sum rounds; the sums
    evaluated below are exact.) *)
Definition py_sum (xs : list float) : float :=
  fold_left PrimFloat.add xs 0%float.

(** [float(d.get(k, 0))]: an absent key reads as zero. *)
Definition get_float (v : option float) : float :=
  match v with
  | Some x => x
  | None => 0%float
  end.

(** [float(d.get(k) or 0)]: an absent key and a zero of either sign (both
    falsy) read as [0.0]; every other float, [nan] included, is truthy. *)
Definition get_float_or0 (v : option float) : float :=
  match v with
  | Some x => if PrimFloat.is_zero x then 0%float else x
  | None => 0%float
  end.

(** [float(x or 0)] for a float argument. *)
Definition float_or0 (x : float) : float :=
  if PrimFloat.is_zero x then 0%float else x.

(** Truth value of [d.get(k)] for a string-valued key: an absent key and
    the empty string are falsy. *)
Definition truthy_str (v : option string) : bool :=
  match v with
  | Some s => negb (String.eqb s "")
  | None => false
  end.

(** Truth value of [d.get(k)] for a boolean key. *)
Definition truthy_bool (v : option bool) : bool :=
  match v with
  | Some b => b
  | None => false
  end.

(** [d.get(k, "")] *)
Definition get_str (v : option string) : string :=
  match v with
  | Some s => s
  | None => ""
  end.

(** Python's [x != 0] on floats. *)
Definition float_ne0 (x : float) : bool := negb (PrimFloat.eqb x 0%float).

(** *** Strings *)

(** ASCII whitespace as [str.strip] sees it: tab to carriage return, the
    separators 0x1c to 0x1f, and space. *)
Definition is_space (c : ascii) : bool :=
  let n := nat_of_ascii c in
  ((9 <=? n)%nat && (n <=? 13)%nat) || ((28 <=? n)%nat && (n <=? 32)%nat).

Fixpoint lstrip (s : string) : string :=
  match s with
  | EmptyString => EmptyString
  | String c s' => if is_space c then lstrip s' else s
  end.

Fixpoint rstrip (s : string) : string :=
  match s with
  | EmptyString => EmptyString
  | String c s' =>
      match rstrip s' with
      | EmptyString => if is_space c then EmptyString else String c EmptyString
      | t => String c t
      end
  end.

(** [s.strip()] *)
Definition strip (s : string) : string := rstrip (lstrip s).

(** [str(n)] / [f"{n}"] for an integer. *)
Definition str_of_Z (n : Z) : string := NilZero.string_of_int (Z.to_int n).

Fixpoint zeros (n : nat) : string :=
  match n with
  | O => EmptyString
  | S n' => String "0" (zeros n')
  end.

(** [f"{n:0{w}d}"] for a non-negative integer, from its digits. *)
Definition zero_pad (w : nat) (digits : string) : string :=
  zeros (w - String.length digits) ++ digits.

(** *** [f"{x:.2f}"]

    The exact binary value is rounded to two decimals, ties to even, as
    the correctly rounded conversion of CPython does. *)
Definition round_half_even_div (n d : Z) : Z :=
  let q := (n / d)%Z in
  let r := (n mod d)%Z in
  match (2 * r ?= d)%Z with
  | Lt => q
  | Gt => (q + 1)%Z
  | Eq => if Z.even q then q else (q + 1)%Z
  end.

(** Hundredths of [m * 2^e], rounded. *)
Definition hundredths (m : positive) (e : Z) : Z :=
  if (0 <=? e)%Z then (Zpos m * 2 ^ e * 100)%Z
  else round_half_even_div (Zpos m * 100) (2 ^ (- e)).

Definition format_2f (x : float) : string :=
  match Prim2SF x with
  | S754_nan => "nan"
  | S754_infinity s => if s then "-inf" else "inf"
  | S754_zero s => if s then "-0.00" else "0.00"
  | S754_finite s m e =>
      let n := hundredths m e in
      (if s then "-" else "") ++ str_of_Z (n / 100) ++ "."
        ++ zero_pad 2 (str_of_Z (n mod 100))
  end.

(** *** Dates *)

Record date := mk_date { year : Z; month : Z; day : Z }.

(** [date.isoformat()] *)
Definition isoformat (d : date) : string :=
  zero_pad 4 (str_of_Z (year d)) ++ "-" ++ zero_pad 2 (str_of_Z (month d))
    ++ "-" ++ zero_pad 2 (str_of_Z (day d)).

(** ** The database

    One record per table of [init_db_schema].  A [REAL] column holds a
    float; SQLite stores a NaN as [NULL], so [nan] stands for [NULL] in
    such a column and a [REAL NOT NULL] column refuses it.  Generated
    ([AS (...) STORED]) columns are computed when the row is inserted. *)

Record item_row := mk_item_row
  { it_item : string;
    it_rate : float }.

Record movement_row := mk_movement_row
  { mv_id : Z;
    mv_date : string;
    mv_item : string;
    mv_opening_balance : float;
    mv_stock_in : float;
    mv_stock_out : float;
    mv_stock_returning_today : float;
    mv_closing_balance : float;
    mv_stock_remaining : float }.

Record invoice_row := mk_invoice_row
  { inv_id : Z;
    inv_date : string;
    inv_person_name : string;
    inv_total_amount : float;
    inv_collection_amount : float;
    inv_due_amount : float;
    inv_notes : string }.

Record invoice_line_row := mk_invoice_line_row
  { il_id : Z;
    il_invoice_id : Z;
    il_line_no : Z;
    il_item : string;
    il_unit_price : float;
    il_qty : float;
    il_units : string;
    il_highlight : Z;
    il_amount : float }.

Record invoice_collection_row := mk_invoice_collection_row
  { ic_id : Z;
    ic_invoice_id : Z;
    ic_method : string;
    ic_amount : float }.

Record invoice_due_row := mk_invoice_due_row
  { idue_id : Z;
    idue_invoice_id : Z;
    idue_shop_no : string;
    idue_amount : float }.

Record collection_row := mk_collection_row
  { col_id : Z;
    col_date : string;
    col_amount : float;
    col_note : string }.

(** A table with an [INTEGER PRIMARY KEY AUTOINCREMENT]: its rows in
    insertion order and the largest id handed out so far (SQLite keeps it
    in [sqlite_sequence]). *)
Record table (R : Type) := mk_table
  { rows : list R;
    last_id : Z }.

Arguments mk_table {R} _ _.
Arguments rows {R} _.
Arguments last_id {R} _.

Record db := mk_db
  { items : list item_row;
    inventory_movements : table movement_row;
    invoices : table invoice_row;
    invoice_lines : table invoice_line_row;
    invoice_collections : table invoice_collection_row;
    invoice_dues : table invoice_due_row;
    collections : table collection_row }.

Definition empty_table {R : Type} : table R := mk_table [] 0.

Definition empty_db : db :=
  mk_db [] empty_table empty_table empty_table empty_table empty_table
    empty_table.

(** Appends the row built from the next id; returns that id
    ([cur.lastrowid]). *)
Definition tbl_insert {R : Type} (mk : Z -> R) (t : table R) : Z * table R :=
  let id := (last_id t + 1)%Z in
  (id, mk_table (rows t ++ [mk id])%list id).

Definition set_inventory_movements (t : table movement_row) (d : db) : db :=
  mk_db (items d) t (invoices d) (invoice_lines d) (invoice_collections d)
    (invoice_dues d) (collections d).

Definition set_invoices (t : table invoice_row) (d : db) : db :=
  mk_db (items d) (inventory_movements d) t (invoice_lines d)
    (invoice_collections d) (invoice_dues d) (collections d).

Definition set_invoice_lines (t : table invoice_line_row) (d : db) : db :=
  mk_db (items d) (inventory_movements d) (invoices d) t
    (invoice_collections d) (invoice_dues d) (collections d).

Definition set_invoice_collections (t : table invoice_collection_row)
  (d : db) : db :=
  mk_db (items d) (inventory_movements d) (invoices d) (invoice_lines d) t
    (invoice_dues d) (collections d).

Definition set_invoice_dues (t : table invoice_due_row) (d : db) : db :=
  mk_db (items d) (inventory_movements d) (invoices d) (invoice_lines d)
    (invoice_collections d) t (collections d).

Definition set_collections (t : table collection_row) (d : db) : db :=
  mk_db (items d) (inventory_movements d) (invoices d) (invoice_lines d)
    (invoice_collections d) (invoice_dues d) t.

(** *** Statements and transactions *)

(** [sqlite3.IntegrityError], with SQLite's message. *)
Inductive exn :=
| IntegrityError (msg : string).

(** A statement run on the connection: it raises, or yields a value and
    the database after it. *)
Definition stmt (A : Type) : Type := db -> exn + (A * db).

Definition ret {A : Type} (a : A) : stmt A := fun d => inr (a, d).

Definition bind {A B : Type} (m : stmt A) (k : A -> stmt B) : stmt B :=
  fun d =>
    match m d with
    | inl e => inl e
    | inr (a, d') => k a d'
    end.

Definition raise {A : Type} (e : exn) : stmt A := fun _ => inl e.

Declare Scope stmt_scope.
Delimit Scope stmt_scope with stmt.
Notation "x <- m ;; k" := (bind m (fun x => k))
  (at level 100, m at next level, right associativity) : stmt_scope.
Notation "m ;; k" := (bind m (fun _ => k))
  (at level 100, right associativity) : stmt_scope.

(** [for x in xs: body(x)] *)
Fixpoint for_each {A : Type} (body : A -> stmt unit) (xs : list A)
  : stmt unit :=
  match xs with
  | [] => ret tt
  | x :: xs' => (body x ;; for_each body xs')%stmt
  end.

(** [enumerate(xs, start)] *)
Fixpoint enumerate {A : Type} (start : Z) (xs : list A) : list (Z * A) :=
  match xs with
  | [] => []
  | x :: xs' => (start, x) :: enumerate (start + 1) xs'
  end.

(** [with get_conn() as conn: body; conn.commit()]: the body's writes are
    committed when it ends, and rolled back when it raises (the exception
    then leaves the block). *)
Definition with_conn {A : Type} (body : stmt A) (d : db) : db * (exn + A) :=
  match body d with
  | inl e => (d, inl e)
  | inr (a, d') => (d', inr a)
  end.

Definition not_null (column : string) (x : float) : stmt unit :=
  if PrimFloat.is_nan x
  then raise (IntegrityError ("NOT NULL constraint failed: " ++ column))
  else ret tt.

(** [REFERENCES items(item)] under [PRAGMA foreign_keys=ON]. *)
Definition item_exists (name : string) (d : db) : bool :=
  existsb (fun r => String.eqb (it_item r) name) (items d).

Definition references_item (name : string) : stmt unit :=
  fun d =>
    if item_exists name d then inr (tt, d)
    else inl (IntegrityError "FOREIGN KEY constraint failed").

(** [INSERT INTO invoices(date, person_name, total_amount,
    collection_amount, due_amount, notes)]; yields [cur.lastrowid]. *)
Definition insert_invoice (date_ person : string) (total coll due : float)
  (notes : string) : stmt Z :=
  (not_null "invoices.total_amount" total ;;
   not_null "invoices.collection_amount" coll ;;
   not_null "invoices.due_amount" due ;;
   fun d =>
     let '(id, t) :=
       tbl_insert (fun id => mk_invoice_row id date_ person total coll due notes)
         (invoices d) in
     inr (id, set_invoices t d))%stmt.

(** [INSERT INTO invoice_lines(invoice_id, line_no, item, unit_price, qty,
    units, highlight)]; [amount] is generated as [unit_price * qty]. *)
Definition insert_invoice_line (invoice_id line_no : Z) (item : string)
  (unit_price qty : float) (units : string) (highlight : Z) : stmt unit :=
  (not_null "invoice_lines.unit_price" unit_price ;;
   not_null "invoice_lines.qty" qty ;;
   references_item item ;;
   fun d =>
     let '(_, t) :=
       tbl_insert
         (fun id =>
            mk_invoice_line_row id invoice_id line_no item unit_price qty units
              highlight (unit_price * qty)%float)
         (invoice_lines d) in
     inr (tt, set_invoice_lines t d))%stmt.

(** [INSERT INTO invoice_collections(invoice_id, method, amount)], with
    [CHECK(method IN ('Cash','UPI'))]. *)
Definition insert_invoice_collection (invoice_id : Z) (method : string)
  (amount : float) : stmt unit :=
  (not_null "invoice_collections.amount" amount ;;
   (if String.eqb method "Cash" || String.eqb method "UPI" then ret tt
    else raise (IntegrityError "CHECK constraint failed: method IN ('Cash','UPI')")) ;;
   fun d =>
     let '(_, t) :=
       tbl_insert (fun id => mk_invoice_collection_row id invoice_id method amount)
         (invoice_collections d) in
     inr (tt, set_invoice_collections t d))%stmt.

(** [INSERT INTO invoice_dues(invoice_id, shop_no, amount)] *)
Definition insert_invoice_due (invoice_id : Z) (shop_no : string)
  (amount : float) : stmt unit :=
  (not_null "invoice_dues.amount" amount ;;
   fun d =>
     let '(_, t) :=
       tbl_insert (fun id => mk_invoice_due_row id invoice_id shop_no amount)
         (invoice_dues d) in
     inr (tt, set_invoice_dues t d))%stmt.

(** [INSERT INTO collections(date, amount, note)] *)
Definition insert_collection (date_ : string) (amount : float) (note : string)
  : stmt unit :=
  (not_null "collections.amount" amount ;;
   fun d =>
     let '(_, t) :=
       tbl_insert (fun id => mk_collection_row id date_ amount note)
         (collections d) in
     inr (tt, set_collections t d))%stmt.

(** [INSERT INTO inventory_movements(date, item, opening_balance, stock_in,
    stock_out, stock_returning_today)]; the two generated columns are
    [closing_balance AS (opening_balance + stock_in - stock_out +
    stock_returning_today)] and [stock_remaining AS (closing_balance)]. *)
Definition insert_inventory_movement (date_ item : string)
  (opening_balance stock_in stock_out stock_returning_today : float)
  : stmt unit :=
  (references_item item ;;
   fun d =>
     let closing_balance :=
       (opening_balance + stock_in - stock_out + stock_returning_today)%float in
     let '(_, t) :=
       tbl_insert
         (fun id =>
            mk_movement_row id date_ item opening_balance stock_in stock_out
              stock_returning_today closing_balance closing_balance)
         (inventory_movements d) in
     inr (tt, set_inventory_movements t d))%stmt.

(** ** Inputs

    The ledger receives lists of dicts.  A key the code reads with
    [.get] may be absent ([None]); [shop_no], which the code subscripts
    without a guard, is required.  Prices, quantities and amounts are
    floats, names are strings. *)

Record line := mk_line
  { l_item : option string;
    l_unit_price : option float;
    l_qty : option float;
    l_units : option string;
    l_highlight : option bool }.

Record collection_entry := mk_collection_entry
  { c_method : option string;
    c_amount : option float }.

Record due_entry := mk_due_entry
  { d_shop_no : string;
    d_amount : option float }.

Record movement_entry := mk_movement_entry
  { m_item : option string;
    m_opening_balance : option float;
    m_stock_in : option float;
    m_stock_out : option float;
    m_stock_returning_today : option float }.

(** ** The reconciling ledger ([inventory_billing_app1.py]) *)

Module Ledger.

(** [sum((float(l.get("unit_price", 0)) * float(l.get("qty", 0))) for l in lines)] *)
Definition lines_total (lines : list line) : float :=
  py_sum (map (fun l => (get_float (l_unit_price l) * get_float (l_qty l))%float) lines).

(** [sum(float(c.get("amount", 0)) for c in collections)] *)
Definition collections_total (colls : list collection_entry) : float :=
  py_sum (map (fun c => get_float (c_amount c)) colls).

(** [sum(float(d.get("amount", 0)) for d in dues)] *)
Definition dues_total (dues : list due_entry) : float :=
  py_sum (map (fun d => get_float (d_amount d)) dues).

(** [ok = abs(total - (coll_total + due_total)) < 0.005] *)
Definition reconciles (total coll_total due_total : float) : bool :=
  (PrimFloat.abs (total - (coll_total + due_total)) <? 0.005)%float.

(** The message of the refusal. *)
Definition mismatch_message (total coll_total due_total : float) : string :=
  "Total (" ++ format_2f total ++ ") must equal Collections ("
    ++ format_2f coll_total ++ ") + Dues (" ++ format_2f due_total ++ ").".

(** ["Cash" if c.get("method") not in ("Cash","UPI") else c["method"]] *)
Definition coerce_method (m : option string) : string :=
  match m with
  | Some s => if String.eqb s "Cash" || String.eqb s "UPI" then s else "Cash"
  | None => "Cash"
  end.

(** Body of [for i, line in enumerate(lines, start=1)]. *)
Definition store_line (inv : Z) (il : Z * line) : stmt unit :=
  let '(i, l) := il in
  if negb (truthy_str (l_item l)) then ret tt
  else
    insert_invoice_line inv i (get_str (l_item l))
      (get_float_or0 (l_unit_price l)) (get_float_or0 (l_qty l))
      (get_str (l_units l)) (if truthy_bool (l_highlight l) then 1 else 0)%Z.

(** Body of [for c in collections]. *)
Definition store_collection (inv : Z) (c : collection_entry) : stmt unit :=
  if (get_float (c_amount c) <=? 0)%float then ret tt
  else
    insert_invoice_collection inv (coerce_method (c_method c))
      (get_float (c_amount c)).

(** Body of [for d in dues]. *)
Definition store_due (inv : Z) (du : due_entry) : stmt unit :=
  if (get_float (d_amount du) <=? 0)%float then ret tt
  else insert_invoice_due inv (strip (d_shop_no du)) (get_float (d_amount du)).

(** The writes of [create_invoice], inside [with get_conn() as conn]. *)
Definition create_invoice_body (date_ : date) (person_name : string)
  (lines : list line) (colls : list collection_entry) (dues : list due_entry)
  (notes : string) (total coll_total due_total : float) : stmt Z :=
  (inv <- insert_invoice (isoformat date_) (strip person_name) total
            coll_total due_total notes ;;
   for_each (store_line inv) (enumerate 1 lines) ;;
   for_each (store_collection inv) colls ;;
   for_each (store_due inv) dues ;;
   (if float_ne0 coll_total
    then insert_collection (isoformat date_) coll_total
           ("Invoice #" ++ str_of_Z inv ++ " - " ++ person_name)
    else ret tt) ;;
   ret inv)%stmt.

(** [create_invoice(date, person_name, lines, collections, dues, notes)]:
    the database after the call, and either the exception that left it or
    the returned triple [(ok, message, invoice_id)]. *)
Definition create_invoice (date_ : date) (person_name : string)
  (lines : list line) (colls : list collection_entry) (dues : list due_entry)
  (notes : string) (d : db) : db * (exn + (bool * string * Z)) :=
  let total := lines_total lines in
  let coll_total := collections_total colls in
  let due_total := dues_total dues in
  if negb (reconciles total coll_total due_total)
  then (d, inr (false, mismatch_message total coll_total due_total, (-1)%Z))
  else
    match
      with_conn
        (create_invoice_body date_ person_name lines colls dues notes total
           coll_total due_total) d
    with
    | (d', inl e) => (d', inl e)
    | (d', inr inv) => (d', inr (true, "Invoice #" ++ str_of_Z inv ++ " saved.", inv))
    end.

(** Body of [for r in rows] in [add_inventory_movement]. *)
Definition store_movement (date_ : date) (r : movement_entry) : stmt unit :=
  if negb (truthy_str (m_item r)) then ret tt
  else
    insert_inventory_movement (isoformat date_) (get_str (m_item r))
      (get_float_or0 (m_opening_balance r)) (get_float_or0 (m_stock_in r))
      (get_float_or0 (m_stock_out r))
      (get_float_or0 (m_stock_returning_today r)).

(** [add_inventory_movement(date, rows)] *)
Definition add_inventory_movement (date_ : date) (rows_ : list movement_entry)
  (d : db) : db * (exn + unit) :=
  with_conn (for_each (store_movement date_) rows_) d.

End Ledger.

(** ** The earlier ledger ([inventory_billing_app.py]) *)

Module PlainLedger.

(** Body of [for i, line in enumerate(lines, start=1)]; this variant's
    [INSERT] names no [highlight], which then takes its default. *)
Definition store_line (inv : Z) (il : Z * line) : stmt unit :=
  let '(i, l) := il in
  if negb (truthy_str (l_item l)) then ret tt
  else
    insert_invoice_line inv i (get_str (l_item l))
      (get_float_or0 (l_unit_price l)) (get_float_or0 (l_qty l))
      (get_str (l_units l)) 0%Z.

(** [due = total - float(collection_amount or 0)] *)
Definition due_of (total collection_amount : float) : float :=
  (total - float_or0 collection_amount)%float.

(** [create_invoice(date, person_name, lines, collection_amount, notes)]:
    the database after the call, and either the exception that left it or
    the returned invoice id. *)
Definition create_invoice (date_ : date) (person_name : string)
  (lines : list line) (collection_amount : float) (notes : string) (d : db)
  : db * (exn + Z) :=
  let total := Ledger.lines_total lines in
  let due := due_of total collection_amount in
  with_conn
    (inv <- insert_invoice (isoformat date_) (strip person_name) total
              collection_amount due notes ;;
     for_each (store_line inv) (enumerate 1 lines) ;;
     (if negb (PrimFloat.is_zero collection_amount) && float_ne0 collection_amount
      then insert_collection (isoformat date_) collection_amount
             ("Invoice #" ++ str_of_Z inv ++ " - " ++ person_name)
      else ret tt) ;;
     ret inv)%stmt
    d.

End PlainLedger.

(** ** The schema manager ([inventory_billing_app1.py])

    Here the database file is seen through its catalog: the tables with
    their column definitions, and their rows as lists of cells in column
    order. *)

Module Schema.

Inductive cell :=
| CNull
| CInt (n : Z)
| CReal (x : float)
| CText (s : string).

Record column := mk_column
  { col_name : string;
    col_decl : string;
    col_generated : bool }.

Record sql_table := mk_sql_table
  { t_name : string;
    t_columns : list column;
    t_rows : list (list cell) }.

Definition catalog := list sql_table.

(** SQLite compares identifiers without regard to ASCII case. *)
Definition lower_ascii (c : ascii) : ascii :=
  let n := nat_of_ascii c in
  if ((65 <=? n)%nat && (n <=? 90)%nat) then ascii_of_nat (n + 32) else c.

Fixpoint lower (s : string) : string :=
  match s with
  | EmptyString => EmptyString
  | String c s' => String (lower_ascii c) (lower s')
  end.

Definition same_name (a b : string) : bool := String.eqb (lower a) (lower b).

Fixpoint find_table (name : string) (c : catalog) : option sql_table :=
  match c with
  | [] => None
  | t :: c' => if same_name (t_name t) name then Some t else find_table name c'
  end.

(** [CREATE TABLE IF NOT EXISTS name(columns)] *)
Definition create_table_if_not_exists (name : string) (cols : list column)
  (c : catalog) : catalog :=
  match find_table name c with
  | Some _ => c
  | None => (c ++ [mk_sql_table name cols []])%list
  end.

(** [PRAGMA table_info(table)]: one row per ordinary column (generated
    columns are not listed); no row for a table that does not exist. *)
Definition table_info (table : string) (c : catalog) : list column :=
  match find_table table c with
  | Some t => filter (fun k => negb (col_generated k)) (t_columns t)
  | None => []
  end.

(** [cols = [r[1] for r in cur.fetchall()]; return column in cols] *)
Definition table_has_column (c : catalog) (table column_ : string) : bool :=
  existsb (fun k => String.eqb (col_name k) column_) (table_info table c).

Inductive ddl_error :=
| NoSuchTable (name : string)
| DuplicateColumnName (name : string).

Fixpoint alter_first (name : string) (f : sql_table -> sql_table) (c : catalog)
  : catalog :=
  match c with
  | [] => []
  | t :: c' =>
      if same_name (t_name t) name then f t :: c'
      else t :: alter_first name f c'
  end.

(** [ALTER TABLE table ADD COLUMN k ... NOT NULL DEFAULT dflt]: the
    column goes last, and every row already there reads the default in
    it. *)
Definition add_column (k : column) (dflt : cell) (t : sql_table) : sql_table :=
  mk_sql_table (t_name t) (t_columns t ++ [k])%list
    (map (fun r => r ++ [dflt])%list (t_rows t)).

Definition alter_table_add_column (table : string) (k : column) (dflt : cell)
  (c : catalog) : ddl_error + catalog :=
  match find_table table c with
  | None => inl (NoSuchTable table)
  | Some t =>
      if existsb (fun k' => same_name (col_name k') (col_name k)) (t_columns t)
      then inl (DuplicateColumnName (col_name k))
      else inr (alter_first table (add_column k dflt) c)
  end.

Definition plain (name decl : string) : column := mk_column name decl false.
Definition generated (name decl : string) : column := mk_column name decl true.

Definition items_columns : list column :=
  [ plain "item" "TEXT PRIMARY KEY";
    plain "rate" "REAL NOT NULL" ].

Definition inventory_movements_columns : list column :=
  [ plain "id" "INTEGER PRIMARY KEY AUTOINCREMENT";
    plain "date" "DATE NOT NULL";
    plain "item" "TEXT NOT NULL REFERENCES items(item) ON UPDATE CASCADE ON DELETE RESTRICT";
    plain "opening_balance" "REAL DEFAULT 0";
    plain "stock_in" "REAL DEFAULT 0";
    plain "stock_out" "REAL DEFAULT 0";
    plain "stock_returning_today" "REAL DEFAULT 0";
    generated "closing_balance"
      "AS (opening_balance + stock_in - stock_out + stock_returning_today) STORED";
    generated "stock_remaining" "AS (closing_balance) STORED" ].

Definition invoices_columns : list column :=
  [ plain "id" "INTEGER PRIMARY KEY AUTOINCREMENT";
    plain "date" "DATE NOT NULL";
    plain "person_name" "TEXT NOT NULL";
    plain "total_amount" "REAL NOT NULL DEFAULT 0";
    plain "collection_amount" "REAL NOT NULL DEFAULT 0";
    plain "due_amount" "REAL NOT NULL DEFAULT 0";
    plain "notes" "TEXT" ].

Definition highlight_column : column :=
  plain "highlight" "INTEGER NOT NULL DEFAULT 0".

Definition invoice_lines_columns : list column :=
  [ plain "id" "INTEGER PRIMARY KEY AUTOINCREMENT";
    plain "invoice_id" "INTEGER NOT NULL REFERENCES invoices(id) ON DELETE CASCADE";
    plain "line_no" "INTEGER NOT NULL";
    plain "item" "TEXT NOT NULL REFERENCES items(item)";
    plain "unit_price" "REAL NOT NULL";
    plain "qty" "REAL NOT NULL";
    plain "units" "TEXT";
    highlight_column;
    generated "amount" "AS (unit_price * qty) STORED" ].

Definition invoice_collections_columns : list column :=
  [ plain "id" "INTEGER PRIMARY KEY AUTOINCREMENT";
    plain "invoice_id" "INTEGER NOT NULL REFERENCES invoices(id) ON DELETE CASCADE";
    plain "method" "TEXT NOT NULL CHECK(method IN ('Cash','UPI'))";
    plain "amount" "REAL NOT NULL" ].

Definition invoice_dues_columns : list column :=
  [ plain "id" "INTEGER PRIMARY KEY AUTOINCREMENT";
    plain "invoice_id" "INTEGER NOT NULL REFERENCES invoices(id) ON DELETE CASCADE";
    plain "shop_no" "TEXT NOT NULL";
    plain "amount" "REAL NOT NULL" ].

Definition collections_columns : list column :=
  [ plain "id" "INTEGER PRIMARY KEY AUTOINCREMENT";
    plain "date" "DATE NOT NULL";
    plain "amount" "REAL NOT NULL";
    plain "note" "TEXT" ].

(** [init_db_schema()]: "Create base tables (idempotent)." *)
Definition init_db_schema (c : catalog) : catalog :=
  let c := create_table_if_not_exists "items" items_columns c in
  let c := create_table_if_not_exists "inventory_movements"
             inventory_movements_columns c in
  let c := create_table_if_not_exists "invoices" invoices_columns c in
  let c := create_table_if_not_exists "invoice_lines" invoice_lines_columns c in
  let c := create_table_if_not_exists "invoice_collections"
             invoice_collections_columns c in
  let c := create_table_if_not_exists "invoice_dues" invoice_dues_columns c in
  create_table_if_not_exists "collections" collections_columns c.

(** [migrate_db()]: "Add new columns/tables to old databases." *)
Definition migrate_db (c : catalog) : ddl_error + catalog :=
  match
    if negb (table_has_column c "invoice_lines" "highlight")
    then alter_table_add_column "invoice_lines" highlight_column (CInt 0) c
    else inr c
  with
  | inl e => inl e
  | inr c =>
      let c := create_table_if_not_exists "invoice_collections"
                 invoice_collections_columns c in
      inr (create_table_if_not_exists "invoice_dues" invoice_dues_columns c)
  end.

(** The schema part of [init_all()]: [init_db_schema(); migrate_db()]. *)
Definition ensure_schema (c : catalog) : ddl_error + catalog :=
  migrate_db (init_db_schema c).

(** [n] start-ups in a row, stopping at the first error. *)
Fixpoint ensure_schema_times (n : nat) (c : catalog) : ddl_error + catalog :=
  match n with
  | O => inr c
  | S n' =>
      match ensure_schema c with
      | inl e => inl e
      | inr c' => ensure_schema_times n' c'
      end
  end.

(** The tables as the earlier application created them: no [highlight],
    no [invoice_collections], no [invoice_dues]. *)
Definition old_invoice_lines_columns : list column :=
  [ plain "id" "INTEGER PRIMARY KEY AUTOINCREMENT";
    plain "invoice_id" "INTEGER NOT NULL REFERENCES invoices(id) ON DELETE CASCADE";
    plain "line_no" "INTEGER NOT NULL";
    plain "item" "TEXT NOT NULL REFERENCES items(item)";
    plain "unit_price" "REAL NOT NULL";
    plain "qty" "REAL NOT NULL";
    plain "units" "TEXT";
    generated "amount" "AS (unit_price * qty) STORED" ].

End Schema.

(** ** What a call is expected to leave in the tables *)

(** Rows built by a list of makers, each taking the next id. *)
Definition tbl_insert_all {R : Type} (mks : list (Z -> R)) (t : table R)
  : table R :=
  fold_left (fun t mk => snd (tbl_insert mk t)) mks t.

(** The rows the makers build when the ids start at [start]. *)
Definition number_from {R : Type} (start : Z) (mks : list (Z -> R)) : list R :=
  map (fun im => snd im (fst im)) (enumerate start mks).

(** The columns a statement supplies, without the generated id. *)
Definition line_fields (r : invoice_line_row) :=
  (il_invoice_id r, il_line_no r, il_item r, il_unit_price r, il_qty r,
   il_units r, il_highlight r).

Definition collection_fields (r : invoice_collection_row) :=
  (ic_invoice_id r, ic_method r, ic_amount r).

Definition due_fields (r : invoice_due_row) :=
  (idue_invoice_id r, idue_shop_no r, idue_amount r).

(** [x > 0] *)
Definition positive (x : float) : bool := (0 <? x)%float.

(** Every line that is stored names an item of the master table. *)
Definition lines_reference_items (lines : list line) (d : db) : Prop :=
  Forall
    (fun l => truthy_str (l_item l) = true ->
              item_exists (get_str (l_item l)) d = true)
    lines.

(** The rows each loop body of [create_invoice] and
    [add_inventory_movement] appends for one entry, awaiting their ids. *)
Module LedgerPlan.

Definition line_plan (inv : Z) (il : Z * line) : list (Z -> invoice_line_row) :=
  if truthy_str (l_item (snd il))
  then
    [fun id =>
       mk_invoice_line_row id inv (fst il) (get_str (l_item (snd il)))
         (get_float_or0 (l_unit_price (snd il)))
         (get_float_or0 (l_qty (snd il))) (get_str (l_units (snd il)))
         (if truthy_bool (l_highlight (snd il)) then 1 else 0)%Z
         (get_float_or0 (l_unit_price (snd il))
          * get_float_or0 (l_qty (snd il)))%float]
  else [].

Definition collection_plan (inv : Z) (c : collection_entry)
  : list (Z -> invoice_collection_row) :=
  if (get_float (c_amount c) <=? 0)%float then []
  else
    [fun id =>
       mk_invoice_collection_row id inv (Ledger.coerce_method (c_method c))
         (get_float (c_amount c))].

Definition due_plan (inv : Z) (du : due_entry) : list (Z -> invoice_due_row) :=
  if (get_float (d_amount du) <=? 0)%float then []
  else
    [fun id =>
       mk_invoice_due_row id inv (strip (d_shop_no du)) (get_float (d_amount du))].

Definition legacy_plan (date_ : date) (person_name : string) (inv : Z)
  (coll_total : float) : list (Z -> collection_row) :=
  if float_ne0 coll_total
  then
    [fun id =>
       mk_collection_row id (isoformat date_) coll_total
         ("Invoice #" ++ str_of_Z inv ++ " - " ++ person_name)]
  else [].

(** The database a successful [Ledger.create_invoice] leaves. *)
Definition saved_db (date_ : date) (person_name : string) (lines : list line)
  (colls : list collection_entry) (dues : list due_entry) (notes : string)
  (d : db) : db :=
  let total := Ledger.lines_total lines in
  let coll_total := Ledger.collections_total colls in
  let due_total := Ledger.dues_total dues in
  let inv := (last_id (invoices d) + 1)%Z in
  mk_db (items d) (inventory_movements d)
    (tbl_insert_all
       [fun id =>
          mk_invoice_row id (isoformat date_) (strip person_name) total
            coll_total due_total notes]
       (invoices d))
    (tbl_insert_all (flat_map (line_plan inv) (enumerate 1 lines))
       (invoice_lines d))
    (tbl_insert_all (flat_map (collection_plan inv) colls)
       (invoice_collections d))
    (tbl_insert_all (flat_map (due_plan inv) dues) (invoice_dues d))
    (tbl_insert_all (legacy_plan date_ person_name inv coll_total)
       (collections d)).

Definition movement_plan (date_ : date) (r : movement_entry)
  : list (Z -> movement_row) :=
  if truthy_str (m_item r)
  then
    [fun id =>
       let ob := get_float_or0 (m_opening_balance r) in
       let si := get_float_or0 (m_stock_in r) in
       let so := get_float_or0 (m_stock_out r) in
       let sr := get_float_or0 (m_stock_returning_today r) in
       mk_movement_row id (isoformat date_) (get_str (m_item r)) ob si so sr
         (ob + si - so + sr)%float (ob + si - so + sr)%float]
  else [].

(** The same for [PlainLedger.create_invoice]. *)
Definition plain_line_plan (inv : Z) (il : Z * line)
  : list (Z -> invoice_line_row) :=
  if truthy_str (l_item (snd il))
  then
    [fun id =>
       mk_invoice_line_row id inv (fst il) (get_str (l_item (snd il)))
         (get_float_or0 (l_unit_price (snd il)))
         (get_float_or0 (l_qty (snd il))) (get_str (l_units (snd il))) 0%Z
         (get_float_or0 (l_unit_price (snd il))
          * get_float_or0 (l_qty (snd il)))%float]
  else [].

Definition plain_legacy_plan (date_ : date) (person_name : string) (inv : Z)
  (collection_amount : float) : list (Z -> collection_row) :=
  if negb (PrimFloat.is_zero collection_amount) && float_ne0 collection_amount
  then
    [fun id =>
       mk_collection_row id (isoformat date_) collection_amount
         ("Invoice #" ++ str_of_Z inv ++ " - " ++ person_name)]
  else [].

Definition plain_saved_db (date_ : date) (person_name : string)
  (lines : list line) (collection_amount : float) (notes : string) (d : db)
  : db :=
  let total := Ledger.lines_total lines in
  let inv := (last_id (invoices d) + 1)%Z in
  mk_db (items d) (inventory_movements d)
    (tbl_insert_all
       [fun id =>
          mk_invoice_row id (isoformat date_) (strip person_name) total
            collection_amount (PlainLedger.due_of total collection_amount) notes]
       (invoices d))
    (tbl_insert_all (flat_map (plain_line_plan inv) (enumerate 1 lines))
       (invoice_lines d))
    (invoice_collections d) (invoice_dues d)
    (tbl_insert_all (plain_legacy_plan date_ person_name inv collection_amount)
       (collections d)).

End LedgerPlan.

(** *** When a loop body can store its rows

    A row is refused by a [NOT NULL] column given a NaN and by the
    foreign key given an unknown item. *)

Definition line_storable (il : Z * line) (d : db) : bool :=
  negb (truthy_str (l_item (snd il)))
  || (negb (PrimFloat.is_nan (get_float_or0 (l_unit_price (snd il))))
      && negb (PrimFloat.is_nan (get_float_or0 (l_qty (snd il))))
      && item_exists (get_str (l_item (snd il))) d).

Definition collection_storable (c : collection_entry) (d : db) : bool :=
  (get_float (c_amount c) <=? 0)%float
  || negb (PrimFloat.is_nan (get_float (c_amount c))).

Definition due_storable (du : due_entry) (d : db) : bool :=
  (get_float (d_amount du) <=? 0)%float
  || negb (PrimFloat.is_nan (get_float (d_amount du))).

Definition movement_storable (r : movement_entry) (d : db) : bool :=
  negb (truthy_str (m_item r)) || item_exists (get_str (m_item r)) d.

(** The entry as [create_invoice] treats it: its method coerced. *)
Definition with_coerced_method (c : collection_entry) : collection_entry :=
  mk_collection_entry (Some (Ledger.coerce_method (c_method c))) (c_amount c).

(** The columns [add_inventory_movement] supplies. *)
Definition movement_fields (r : movement_row) :=
  (mv_date r, mv_item r, mv_opening_balance r, mv_stock_in r, mv_stock_out r,
   mv_stock_returning_today r).

(** The invariant of a stored movement: both derived columns follow the
    formula of the schema; [==] confirms it wherever the balance is a
    number. *)
Definition movement_balanced (r : movement_row) : Prop :=
  let formula :=
    (mv_opening_balance r + mv_stock_in r - mv_stock_out r
     + mv_stock_returning_today r)%float in
  mv_closing_balance r = formula
  /\ mv_stock_remaining r = mv_closing_balance r
  /\ (PrimFloat.is_nan (mv_closing_balance r) = false ->
      (mv_closing_balance r =? formula)%float = true
      /\ (mv_stock_remaining r =? mv_closing_balance r)%float = true).

(** *** Schema evolution *)

Module SchemaSpec.

Import Schema.

(** No two columns of the table bear the same name (as SQLite compares
    names). *)
Fixpoint distinct_names (names : list string) : bool :=
  match names with
  | [] => true
  | n :: rest => negb (existsb (same_name n) rest) && distinct_names rest
  end.

Definition distinct_columns (t : sql_table) : bool :=
  distinct_names (map col_name (t_columns t)).

(** What one start-up may do to a table that was there before it: leave
    it as it is or, if it is [invoice_lines] and [table_has_column] did
    not find [highlight], give it that column, every row reading [0]. *)
Definition kept_or_highlighted (c : catalog) (t t' : sql_table) : Prop :=
  t' = t
  \/ (table_has_column c "invoice_lines" "highlight" = false
      /\ same_name (t_name t) "invoice_lines" = true
      /\ t' = add_column highlight_column (CInt 0) t).

(** Nothing of [t] is dropped, renamed or rewritten in [t']: same name,
    the old columns first and unchanged, the same number of rows, each
    old row a prefix of the new one. *)
Definition preserved (t t' : sql_table) : Prop :=
  t_name t' = t_name t
  /\ (exists more, t_columns t' = (t_columns t ++ more)%list)
  /\ Forall2 (fun r r' => exists cells, r' = (r ++ cells)%list)
       (t_rows t) (t_rows t').

(** A table of that name exists. *)
Definition has_table (c : catalog) (name : string) : bool :=
  match find_table name c with
  | Some _ => true
  | None => false
  end.

(** The tables [init_db_schema] creates when they are missing. *)
Definition base_tables : list (string * list column) :=
  [ ("items", items_columns);
    ("inventory_movements", inventory_movements_columns);
    ("invoices", invoices_columns);
    ("invoice_lines", invoice_lines_columns);
    ("invoice_collections", invoice_collections_columns);
    ("invoice_dues", invoice_dues_columns);
    ("collections", collections_columns) ].

(** A run of [CREATE TABLE IF NOT EXISTS] statements. *)
Definition create_all (specs : list (string * list column)) (c : catalog)
  : catalog :=
  fold_left (fun c s => create_table_if_not_exists (fst s) (snd s) c) specs c.

(** Tables created for want of one of that name. *)
Definition created_from (specs : list (string * list column)) (c : catalog)
  (t : sql_table) : Prop :=
  exists s, In s specs /\ t = mk_sql_table (fst s) (snd s) []
            /\ has_table c (fst s) = false.

(** A database file left by the earlier application, with one invoice
    line in it. *)
Definition old_catalog : catalog :=
  [ mk_sql_table "items" items_columns [[CText "A"; CReal 10%float]];
    mk_sql_table "inventory_movements" inventory_movements_columns [];
    mk_sql_table "invoices" invoices_columns
      [[CInt 1; CText "2025-09-28"; CText "Bob"; CReal 20%float;
        CReal 20%float; CReal 0%float; CText ""]];
    mk_sql_table "invoice_lines" old_invoice_lines_columns
      [[CInt 1; CInt 1; CInt 1; CText "A"; CReal 10%float; CReal 2%float;
        CText "UNITS"; CReal 20%float]];
    mk_sql_table "collections" collections_columns
      [[CInt 1; CText "2025-09-28"; CReal 20%float; CText "Invoice #1 - Bob"]] ].

End SchemaSpec.

(** [init_db()] of the earlier application ([inventory_billing_app.py]):
    five tables, [invoice_lines] without [highlight]. *)
Definition plain_init_db (c : Schema.catalog) : Schema.catalog :=
  let c := Schema.create_table_if_not_exists "items" Schema.items_columns c in
  let c := Schema.create_table_if_not_exists "inventory_movements"
             Schema.inventory_movements_columns c in
  let c := Schema.create_table_if_not_exists "invoices"
             Schema.invoices_columns c in
  let c := Schema.create_table_if_not_exists "invoice_lines"
             Schema.old_invoice_lines_columns c in
  Schema.create_table_if_not_exists "collections" Schema.collections_columns c.

(** ** Sample data *)

Definition sample_date : date := mk_date 2025 9 28.

(** A database whose master table knows the item ["A"]. *)
Definition sample_db : db :=
  mk_db [mk_item_row "A" 10%float] empty_table empty_table empty_table
    empty_table empty_table empty_table.

Definition sample_line (item : string) (unit_price qty : float) : line :=
  mk_line (Some item) (Some unit_price) (Some qty) (Some "UNITS") (Some false).

Definition paid (method : string) (amount : float) : collection_entry :=
  mk_collection_entry (Some method) (Some amount).

Definition owed (shop_no : string) (amount : float) : due_entry :=
  mk_due_entry shop_no (Some amount).

(** ** Master data ([upsert_item], [ensure_seed_items]) *)

Definition set_items (l : list item_row) (d : db) : db :=
  mk_db l (inventory_movements d) (invoices d) (invoice_lines d)
    (invoice_collections d) (invoice_dues d) (collections d).

(** [ON CONFLICT(item) DO UPDATE SET rate=excluded.rate]: the row of that
    name takes the new rate where it stands; without one, a row is
    added. *)
Fixpoint upsert_row (name : string) (rate : float) (l : list item_row)
  : list item_row :=
  match l with
  | [] => [mk_item_row name rate]
  | r :: rest =>
      if String.eqb (it_item r) name then mk_item_row (it_item r) rate :: rest
      else r :: upsert_row name rate rest
  end.

(** [INSERT INTO items(item, rate) VALUES(?, ?) ON CONFLICT(item) DO
    UPDATE SET rate=excluded.rate], [rate] being [REAL NOT NULL]. *)
Definition insert_or_update_item (name : string) (rate : float) : stmt unit :=
  (not_null "items.rate" rate ;;
   fun d => inr (tt, set_items (upsert_row name rate (items d)) d))%stmt.

(** [upsert_item(item, rate)] *)
Definition upsert_item (item : string) (rate : float) (d : db)
  : db * (exn + unit) :=
  with_conn (insert_or_update_item (strip item) rate) d.

(** The loop over the rows of the imported sheet, in [ensure_seed_items]
    and behind "Import Now":
    [for _, r in items.iterrows(): conn.execute(..., (str(r["item"]).strip(),
    float(r["rate"])))]. *)
Definition import_rows (sheet : list (string * float)) : stmt unit :=
  for_each (fun r => insert_or_update_item (strip (fst r)) (snd r)) sheet.

(** What [ensure_seed_items] tells the user. *)
Inductive seed_notice :=
| SeedLoaded (n : nat)
| SeedNoItems
| SeedQuiet.

(** [ensure_seed_items()].  Whether the workbook exists and the rows
    [load_items_from_xlsm] reads from it are inputs. *)
Definition ensure_seed_items (xlsm_exists : bool) (sheet : list (string * float))
  (d : db) : db * (exn + seed_notice) :=
  with_conn
    (fun d =>
       let n := List.length (items d) in
       if (n =? 0)%nat && xlsm_exists then
         if negb (List.length sheet =? 0)%nat then
           (import_rows sheet ;; ret (SeedLoaded (List.length sheet)))%stmt d
         else ret SeedQuiet d
       else if (n =? 0)%nat then ret SeedNoItems d
       else ret SeedQuiet d)
    d.

(** "Import Now", once the workbook is found and has rows:
    [with get_conn() as conn: for ...: conn.execute(...); conn.commit()]. *)
Definition import_now (sheet : list (string * float)) (d : db)
  : db * (exn + unit) :=
  with_conn (import_rows sheet) d.

(** The rate the sheet lists last for a name, names taken trimmed. *)
Definition last_rate (name : string) (sheet : list (string * float))
  : option float :=
  fold_left
    (fun acc r => if String.eqb (strip (fst r)) name then Some (snd r) else acc)
    sheet None.

(** The rate the master table holds for a name, as [rate_map] and the
    foreign keys see it. *)
Definition rate_of (name : string) (d : db) : option float :=
  option_map it_rate (find (fun r => String.eqb (it_item r) name) (items d)).

(** [item TEXT PRIMARY KEY] *)
Definition items_unique (d : db) : Prop := NoDup (map it_item (items d)).

(** ** Administration: deleting an invoice *)

Definition delete_where {R : Type} (gone : R -> bool) (t : table R) : table R :=
  mk_table (filter (fun r => negb (gone r)) (rows t)) (last_id t).

(** [DELETE FROM invoices WHERE id = ?], with the [ON DELETE CASCADE] of
    [invoice_lines], [invoice_collections] and [invoice_dues]. *)
Definition delete_from_invoices (id : Z) : stmt unit :=
  fun d =>
    inr (tt,
         mk_db (items d) (inventory_movements d)
           (delete_where (fun r => Z.eqb (inv_id r) id) (invoices d))
           (delete_where (fun r => Z.eqb (il_invoice_id r) id) (invoice_lines d))
           (delete_where (fun r => Z.eqb (ic_invoice_id r) id)
              (invoice_collections d))
           (delete_where (fun r => Z.eqb (idue_invoice_id r) id) (invoice_dues d))
           (collections d)).

(** "Delete Invoice": [with get_conn() as conn: conn.execute("DELETE FROM
    invoices WHERE id = ?;", (int(del_id),)); conn.commit()]. *)
Definition delete_invoice (id : Z) (d : db) : db * (exn + unit) :=
  with_conn (delete_from_invoices id) d.

(** ** The Save-Invoice handler of the Billing page

    The three grids reach the handler as rows whose cells may be empty
    ([None]). *)

Record due_cells := mk_due_cells
  { dc_shop_no : option string;
    dc_amount : option float }.

Module Billing.

(** [lines]: a grid row is kept when its trimmed item is non-empty and
    its quantity is not zero. *)
Definition prepare_lines (edited : list line) : list line :=
  flat_map
    (fun r =>
       let it := strip (get_str (l_item r)) in
       let qty := get_float_or0 (l_qty r) in
       if negb (truthy_str (Some it)) || PrimFloat.eqb qty 0 then []
       else
         [mk_line (Some it) (Some (get_float_or0 (l_unit_price r))) (Some qty)
            (Some (get_str (l_units r))) (Some (truthy_bool (l_highlight r)))])
    edited.

(** [colls]: a grid row is kept when its amount is positive. *)
Definition prepare_collections (coll_df : list collection_entry)
  : list collection_entry :=
  flat_map
    (fun r =>
       let amt := get_float_or0 (c_amount r) in
       if (amt <=? 0)%float then []
       else
         [mk_collection_entry (Some (Ledger.coerce_method (c_method r)))
            (Some amt)])
    coll_df.

(** [dues]: a grid row is kept when its amount is positive and its
    trimmed shop is non-empty. *)
Definition prepare_dues (dues_df : list due_cells) : list due_entry :=
  flat_map
    (fun r =>
       let amt := get_float_or0 (dc_amount r) in
       let shop := strip (get_str (dc_shop_no r)) in
       if (amt <=? 0)%float || negb (truthy_str (Some shop)) then []
       else [mk_due_entry shop (Some amt)])
    dues_df.

(** [not row.get("unit_price") or float(row["unit_price"]) == 0.0]: the
    cell is empty or zero. *)
Definition price_unset (v : option float) : bool :=
  match v with
  | Some x => PrimFloat.eqb x 0
  | None => true
  end.

(** One row of [autofill_prices]; [rate_map] is read off the master
    table, whose items are distinct. *)
Definition autofill_price (d : db) (row : line) : line :=
  let it := strip (get_str (l_item row)) in
  if truthy_str (Some it) && price_unset (l_unit_price row)
  then
    match rate_of it d with
    | Some rate =>
        mk_line (l_item row) (Some rate) (l_qty row) (l_units row)
          (l_highlight row)
    | None => row
    end
  else row.

(** [autofill_prices(df)] *)
Definition autofill_prices (d : db) (df : list line) : list line :=
  map (autofill_price d) df.

(** What the handler shows. *)
Inductive shown :=
| ShowError (msg : string)
| ShowSuccess (msg : string) (invoice_id : Z).

(** [if st.button("Save Invoice"): ...] *)
Definition save_invoice (bill_date : date) (person_name notes : string)
  (edited : list line) (coll_df : list collection_entry)
  (dues_df : list due_cells) (d : db) : db * (exn + shown) :=
  if negb (truthy_str (Some (strip person_name)))
  then (d, inr (ShowError "Person Name is required."))
  else
    match
      Ledger.create_invoice bill_date person_name (prepare_lines edited)
        (prepare_collections coll_df) (prepare_dues dues_df) notes d
    with
    | (d', inl e) => (d', inl e)
    | (d', inr (ok, msg, inv)) =>
        if negb ok then (d', inr (ShowError msg))
        else (d', inr (ShowSuccess msg inv))
    end.

End Billing.

(** ** The Save-Movements handler of the Inventory page *)

Module Inventory.

(** The dict the handler builds from a grid row: the item trimmed, the
    four quantities through [float(... or 0)]. *)
Definition movement_of_row (r : movement_entry) : movement_entry :=
  mk_movement_entry (Some (strip (get_str (m_item r))))
    (Some (get_float_or0 (m_opening_balance r)))
    (Some (get_float_or0 (m_stock_in r)))
    (Some (get_float_or0 (m_stock_out r)))
    (Some (get_float_or0 (m_stock_returning_today r))).

(** [rows]: a grid row is kept when its trimmed item is non-empty. *)
Definition prepare_movements (inv_edit : list movement_entry)
  : list movement_entry :=
  flat_map
    (fun r =>
       let it := strip (get_str (m_item r)) in
       if negb (truthy_str (Some it)) then [] else [movement_of_row r])
    inv_edit.

(** What the handler shows. *)
Inductive shown :=
| ShowError (msg : string)
| ShowSuccess (msg : string).

(** [if st.button("Save Movements"): ...] *)
Definition save_movements (date_val : date) (inv_edit : list movement_entry)
  (d : db) : db * (exn + shown) :=
  let rows_ := prepare_movements inv_edit in
  if (List.length rows_ =? 0)%nat
  then (d, inr (ShowError "Add at least one item row."))
  else
    match Ledger.add_inventory_movement date_val rows_ d with
    | (d', inl e) => (d', inl e)
    | (d', inr _) =>
        (d', inr (ShowSuccess
                    ("Saved " ++ str_of_Z (Z.of_nat (List.length rows_))
                     ++ " movement rows for " ++ isoformat date_val ++ ".")))
    end.

(** The grid rows the handler keeps. *)
Definition kept_rows (inv_edit : list movement_entry) : list movement_entry :=
  filter (fun r => truthy_str (Some (strip (get_str (m_item r))))) inv_edit.

End Inventory.

(** ** The database's declared constraints, as invariants *)

(** Ids are distinct and none exceeds the last one handed out. *)
Definition ids_in_sequence {R : Type} (id : R -> Z) (t : table R) : Prop :=
  NoDup (map id (rows t)) /\ Forall (fun r => (id r <= last_id t)%Z) (rows t).

(** Every child row belongs to an invoice of the table. *)
Definition children_have_invoice (d : db) : Prop :=
  let invoice_ids := map inv_id (rows (invoices d)) in
  Forall (fun r => In (il_invoice_id r) invoice_ids) (rows (invoice_lines d))
  /\ Forall (fun r => In (ic_invoice_id r) invoice_ids)
       (rows (invoice_collections d))
  /\ Forall (fun r => In (idue_invoice_id r) invoice_ids) (rows (invoice_dues d)).

(** Collections are positive amounts in cash or UPI, dues positive
    amounts. *)
Definition amounts_positive (d : db) : Prop :=
  Forall
    (fun r => positive (ic_amount r) = true
              /\ (ic_method r = "Cash" \/ ic_method r = "UPI"))
    (rows (invoice_collections d))
  /\ Forall (fun r => positive (idue_amount r) = true) (rows (invoice_dues d)).

(** Every table hands out its ids in sequence. *)
Definition ids_consistent (d : db) : Prop :=
  ids_in_sequence inv_id (invoices d)
  /\ ids_in_sequence il_id (invoice_lines d)
  /\ ids_in_sequence ic_id (invoice_collections d)
  /\ ids_in_sequence idue_id (invoice_dues d)
  /\ ids_in_sequence col_id (collections d)
  /\ ids_in_sequence mv_id (inventory_movements d).

(** ** What the statements come to *)

(** The error of a row that names a missing parent row. *)
Definition foreign_key_failed : exn :=
  IntegrityError "FOREIGN KEY constraint failed".

(** The line can be stored as far as its item goes. *)
Definition names_known_item (il : Z * line) (d : db) : bool :=
  negb (truthy_str (l_item (snd il)))
  || item_exists (get_str (l_item (snd il))) d.

(** The items table after the rows of a sheet were upserted in turn. *)
Definition upsert_rows (sheet : list (string * float)) (l : list item_row)
  : list item_row :=
  fold_left (fun l r => upsert_row (strip (fst r)) (snd r) l) sheet l.

(** ** The helpers on small inputs *)

Example format_2f_ties_to_even :
  (format_2f 0.125, format_2f 0.375, format_2f 2.675, format_2f 1.005)
  = ("0.12", "0.38", "2.67", "1.00").
Proof. vm_compute. reflexivity. Qed.

Example format_2f_signs :
  (format_2f (-0.001), format_2f (-12.5), format_2f 0, format_2f 1234567.891)
  = ("-0.00", "-12.50", "0.00", "1234567.89").
Proof. vm_compute. reflexivity. Qed.

Example strip_both_ends : strip "  Bob Ray   " = "Bob Ray".
Proof. reflexivity. Qed.

Example isoformat_pads : isoformat (mk_date 987 1 5) = "0987-01-05".
Proof. reflexivity. Qed.

Example or0_reads_zeroes_as_zero :
  (get_float_or0 None, get_float_or0 (Some (-0)%float),
   get_float_or0 (Some 2.5%float))
  = (0%float, 0%float, 2.5%float).
Proof. reflexivity. Qed.

Example enumerate_from_one :
  enumerate 1 ["a"; "b"; "c"] = [(1%Z, "a"); (2%Z, "b"); (3%Z, "c")].
Proof. reflexivity. Qed.

(** The scenario of a saved invoice: one line of 2 at 10, paid in cash. *)
Example create_invoice_scenario :
  Ledger.create_invoice sample_date " Bob " [sample_line "A" 10 2]
    [paid "Cash" 20] [] "" sample_db
  = (mk_db [mk_item_row "A" 10%float] empty_table
       (mk_table
          [mk_invoice_row 1 "2025-09-28" "Bob" 20%float 20%float 0%float ""] 1)
       (mk_table
          [mk_invoice_line_row 1 1 1 "A" 10%float 2%float "UNITS" 0 20%float] 1)
       (mk_table [mk_invoice_collection_row 1 1 "Cash" 20%float] 1)
       empty_table
       (mk_table
          [mk_collection_row 1 "2025-09-28" 20%float "Invoice #1 -  Bob "] 1),
     inr (true, "Invoice #1 saved.", 1%Z)).
Proof. vm_compute. reflexivity. Qed.

(** ** Facts about binary64 arithmetic *)

Section FloatFacts.

Local Open Scope float_scope.

Lemma SFcompare_refl (x : spec_float) :
  x <> S754_nan -> SFcompare x x = Some Eq.
Proof.
  destruct x as [s | s | | s m e]; simpl; intros H; try congruence.
  - destruct s; reflexivity.
  - rewrite Z.compare_refl, Pos.compare_cont_refl. destruct s; reflexivity.
Qed.

Lemma SFcompare_antisym (x y : spec_float) :
  SFcompare y x =
  match SFcompare x y with
  | Some c => Some (CompOpp c)
  | None => None
  end.
Proof.
  destruct x as [s1 | s1 | | s1 m1 e1], y as [s2 | s2 | | s2 m2 e2]; simpl;
    try reflexivity;
    try (destruct s1; reflexivity); try (destruct s2; reflexivity);
    try (destruct s1, s2; reflexivity).
  destruct s1, s2; try reflexivity;
    rewrite (Z.compare_antisym e1 e2); destruct (e1 ?= e2)%Z eqn:E; simpl;
    try reflexivity;
    rewrite (Pos.compare_cont_antisym m1 m2 Eq); simpl; try reflexivity.
Qed.

Lemma is_nan_Prim2SF (x : float) :
  PrimFloat.is_nan x = true <-> Prim2SF x = S754_nan.
Proof.
  unfold PrimFloat.is_nan. rewrite FloatAxioms.eqb_spec. unfold SFeqb. split.
  - intros H. destruct (Prim2SF x) eqn:E; try reflexivity;
      rewrite SFcompare_refl in H by congruence; discriminate.
  - intros ->. reflexivity.
Qed.

Lemma not_nan_Prim2SF (x : float) :
  PrimFloat.is_nan x = false <-> Prim2SF x <> S754_nan.
Proof.
  rewrite <- is_nan_Prim2SF. destruct (PrimFloat.is_nan x); split; congruence.
Qed.

Lemma add_not_nan (x y : float) :
  PrimFloat.is_nan (x + y) = false ->
  PrimFloat.is_nan x = false /\ PrimFloat.is_nan y = false.
Proof.
  rewrite !not_nan_Prim2SF, add_spec. unfold SF64add.
  destruct (Prim2SF x), (Prim2SF y); simpl; intros H; split;
    solve [discriminate | congruence].
Qed.

Lemma sub_not_nan (x y : float) :
  PrimFloat.is_nan (x - y) = false ->
  PrimFloat.is_nan x = false /\ PrimFloat.is_nan y = false.
Proof.
  rewrite !not_nan_Prim2SF, sub_spec. unfold SF64sub.
  destruct (Prim2SF x), (Prim2SF y); simpl; intros H; split;
    solve [discriminate | congruence].
Qed.

Lemma mul_not_nan (x y : float) :
  PrimFloat.is_nan (x * y) = false ->
  PrimFloat.is_nan x = false /\ PrimFloat.is_nan y = false.
Proof.
  rewrite !not_nan_Prim2SF, mul_spec. unfold SF64mul.
  destruct (Prim2SF x), (Prim2SF y); simpl; intros H; split;
    solve [discriminate | congruence].
Qed.

Lemma ltb_abs_not_nan (x y : float) :
  (PrimFloat.abs x <? y) = true -> PrimFloat.is_nan x = false.
Proof.
  rewrite FloatAxioms.ltb_spec, abs_spec, not_nan_Prim2SF. unfold SFltb.
  destruct (Prim2SF x); simpl; intros H; solve [discriminate | congruence].
Qed.

(** [x >= y] excludes [y < x]... and so does an unordered pair. *)
Lemma leb_not_ltb (x y : float) : (x <=? y) = true -> (y <? x) = false.
Proof.
  rewrite FloatAxioms.leb_spec, FloatAxioms.ltb_spec. unfold SFleb, SFltb.
  rewrite (SFcompare_antisym (Prim2SF x) (Prim2SF y)).
  destruct (SFcompare (Prim2SF x) (Prim2SF y)) as [[]|]; simpl; congruence.
Qed.

(** On numbers, [not (x <= 0)] is [0 < x]. *)
Lemma not_leb_zero_positive (x : float) :
  PrimFloat.is_nan x = false -> negb (x <=? 0) = positive x.
Proof.
  unfold positive.
  rewrite not_nan_Prim2SF, FloatAxioms.leb_spec, FloatAxioms.ltb_spec.
  unfold SFleb, SFltb. rewrite (SFcompare_antisym (Prim2SF x) (Prim2SF 0)).
  change (Prim2SF 0) with (S754_zero false).
  destruct (Prim2SF x) as [s | s | | s m e]; simpl; intros H;
    try congruence; destruct s; reflexivity.
Qed.

Lemma eqb_refl_not_nan (x : float) :
  PrimFloat.is_nan x = false -> (x =? x) = true.
Proof.
  unfold PrimFloat.is_nan. destruct (x =? x); simpl; congruence.
Qed.

Lemma get_float_or0_not_nan (v : option float) :
  PrimFloat.is_nan (get_float v) = false ->
  PrimFloat.is_nan (get_float_or0 v) = false.
Proof.
  destruct v as [x|]; simpl; intros H; [|reflexivity].
  destruct (PrimFloat.is_zero x); [reflexivity | assumption].
Qed.

Lemma fold_add_not_nan (xs : list float) (acc : float) :
  PrimFloat.is_nan (fold_left PrimFloat.add xs acc) = false ->
  PrimFloat.is_nan acc = false /\
  Forall (fun x => PrimFloat.is_nan x = false) xs.
Proof.
  revert acc. induction xs as [|x xs IH]; simpl; intros acc H.
  - split; [assumption | constructor].
  - destruct (IH _ H) as [Hacc Hxs].
    destruct (add_not_nan _ _ Hacc) as [Ha Hx].
    split; [assumption | constructor; assumption].
Qed.

Lemma py_sum_not_nan (xs : list float) :
  PrimFloat.is_nan (py_sum xs) = false ->
  Forall (fun x => PrimFloat.is_nan x = false) xs.
Proof. intros H. apply (fold_add_not_nan xs 0 H). Qed.

End FloatFacts.

(** ** Facts about tables and loops *)

Lemma enumerate_app {A : Type} (xs ys : list A) (start : Z) :
  enumerate start (xs ++ ys)%list
  = (enumerate start xs ++ enumerate (start + Z.of_nat (List.length xs)) ys)%list.
Proof.
  revert start. induction xs as [|x xs IH]; intros start; simpl.
  - f_equal. lia.
  - rewrite IH. do 3 f_equal. lia.
Qed.

Lemma tbl_insert_all_app {R : Type} (xs ys : list (Z -> R)) (t : table R) :
  tbl_insert_all (xs ++ ys)%list t = tbl_insert_all ys (tbl_insert_all xs t).
Proof. unfold tbl_insert_all. apply fold_left_app. Qed.

Lemma tbl_insert_all_spec {R : Type} (mks : list (Z -> R)) (t : table R) :
  rows (tbl_insert_all mks t) = (rows t ++ number_from (last_id t + 1) mks)%list
  /\ last_id (tbl_insert_all mks t) = (last_id t + Z.of_nat (List.length mks))%Z.
Proof.
  revert t. induction mks as [|mk mks IH]; intros t; simpl.
  - split; [symmetry; apply app_nil_r | lia].
  - destruct (IH (snd (tbl_insert mk t))) as [Hr Hl].
    unfold tbl_insert_all in *. simpl in *. rewrite Hr, Hl. split.
    + rewrite <- app_assoc. reflexivity.
    + lia.
Qed.

Lemma tbl_insert_all_rows {R : Type} (mks : list (Z -> R)) (t : table R) :
  rows (tbl_insert_all mks t) = (rows t ++ number_from (last_id t + 1) mks)%list.
Proof. apply tbl_insert_all_spec. Qed.

Lemma forallb_eq {A : Type} (f g : A -> bool) (xs : list A) :
  (forall x, f x = g x) -> forallb f xs = forallb g xs.
Proof.
  intros H. induction xs as [|x xs IH]; simpl; [reflexivity|].
  rewrite H, IH. reflexivity.
Qed.

(** A loop whose body appends the rows it plans to one table. *)
Section Loops.

Context {R A : Type}.
Variable get : db -> table R.
Variable set : table R -> db -> db.
Variable body : A -> stmt unit.
Variable plan : A -> list (Z -> R).
Variable storable : A -> db -> bool.

Hypothesis set_get : forall d, set (get d) d = d.
Hypothesis get_set : forall t d, get (set t d) = t.
Hypothesis set_set : forall t t' d, set t (set t' d) = set t d.
Hypothesis storable_set : forall x t d, storable x (set t d) = storable x d.

Hypothesis body_stores :
  forall x d,
    storable x d = true ->
    body x d = inr (tt, set (tbl_insert_all (plan x) (get d)) d).
Hypothesis body_raises :
  forall x d, storable x d = false -> exists e, body x d = inl e.

Lemma for_each_stores (xs : list A) (d : db) :
  forallb (fun x => storable x d) xs = true ->
  for_each body xs d
  = inr (tt, set (tbl_insert_all (flat_map plan xs) (get d)) d).
Proof.
  revert d. induction xs as [|x xs IH]; intros d H; simpl in *.
  - unfold ret. rewrite set_get. reflexivity.
  - apply andb_true_iff in H. destruct H as [Hx Hxs].
    unfold bind. rewrite (body_stores _ _ Hx). rewrite IH.
    + rewrite get_set, set_set, tbl_insert_all_app. reflexivity.
    + rewrite <- Hxs. apply forallb_eq. intros y. apply storable_set.
Qed.

Lemma for_each_stored (xs : list A) (d d' : db) (u : unit) :
  for_each body xs d = inr (u, d') ->
  forallb (fun x => storable x d) xs = true
  /\ d' = set (tbl_insert_all (flat_map plan xs) (get d)) d.
Proof.
  revert d. induction xs as [|x xs IH]; intros d H; simpl in *.
  - unfold ret in H. inversion H; subst. rewrite set_get. auto.
  - unfold bind in H. destruct (storable x d) eqn:Hx.
    + rewrite (body_stores _ _ Hx) in H. apply IH in H. destruct H as [Hxs ->]. split.
      * simpl. rewrite <- Hxs. apply forallb_eq.
        intros y. symmetry. apply storable_set.
      * rewrite get_set, set_set, tbl_insert_all_app. reflexivity.
    + destruct (body_raises _ _ Hx) as [e He]. rewrite He in H. discriminate.
Qed.

End Loops.

(** *** The setters behave as record fields do *)

Lemma set_invoice_lines_get (d : db) : set_invoice_lines (invoice_lines d) d = d.
Proof. destruct d; reflexivity. Qed.

Lemma set_invoice_collections_get (d : db) :
  set_invoice_collections (invoice_collections d) d = d.
Proof. destruct d; reflexivity. Qed.

Lemma set_invoice_dues_get (d : db) : set_invoice_dues (invoice_dues d) d = d.
Proof. destruct d; reflexivity. Qed.

Lemma set_inventory_movements_get (d : db) :
  set_inventory_movements (inventory_movements d) d = d.
Proof. destruct d; reflexivity. Qed.

Lemma coerce_method_in_enum (m : option string) :
  String.eqb (Ledger.coerce_method m) "Cash"
  || String.eqb (Ledger.coerce_method m) "UPI" = true.
Proof.
  destruct m as [s|]; simpl; [|reflexivity].
  destruct (String.eqb s "Cash" || String.eqb s "UPI") eqn:E; [exact E | reflexivity].
Qed.

Ltac run_stmt :=
  unfold bind, ret, raise, not_null, references_item; simpl.

Lemma store_line_stores (inv : Z) (il : Z * line) (d : db) :
  line_storable il d = true ->
  Ledger.store_line inv il d
  = inr (tt, set_invoice_lines
               (tbl_insert_all (LedgerPlan.line_plan inv il) (invoice_lines d)) d).
Proof.
  unfold line_storable, Ledger.store_line, LedgerPlan.line_plan.
  destruct il as [i l]; simpl.
  destruct (truthy_str (l_item l)); simpl; intros H.
  - apply andb_true_iff in H. destruct H as [H Hitem].
    apply andb_true_iff in H. destruct H as [Hup Hq].
    apply negb_true_iff in Hup, Hq.
    unfold insert_invoice_line. run_stmt.
    rewrite Hup; simpl. rewrite Hq; simpl. rewrite Hitem. reflexivity.
  - run_stmt. rewrite set_invoice_lines_get. reflexivity.
Qed.

Lemma store_line_raises (inv : Z) (il : Z * line) (d : db) :
  line_storable il d = false -> exists e, Ledger.store_line inv il d = inl e.
Proof.
  unfold line_storable, Ledger.store_line.
  destruct il as [i l]; simpl.
  destruct (truthy_str (l_item l)); simpl; intros H; [|discriminate].
  unfold insert_invoice_line. run_stmt.
  destruct (PrimFloat.is_nan (get_float_or0 (l_unit_price l))); simpl in *;
    [eexists; reflexivity|].
  destruct (PrimFloat.is_nan (get_float_or0 (l_qty l))); simpl in *;
    [eexists; reflexivity|].
  rewrite H. eexists; reflexivity.
Qed.

Lemma plain_store_line_stores (inv : Z) (il : Z * line) (d : db) :
  line_storable il d = true ->
  PlainLedger.store_line inv il d
  = inr (tt, set_invoice_lines
               (tbl_insert_all (LedgerPlan.plain_line_plan inv il)
                  (invoice_lines d)) d).
Proof.
  unfold line_storable, PlainLedger.store_line, LedgerPlan.plain_line_plan.
  destruct il as [i l]; simpl.
  destruct (truthy_str (l_item l)); simpl; intros H.
  - apply andb_true_iff in H. destruct H as [H Hitem].
    apply andb_true_iff in H. destruct H as [Hup Hq].
    apply negb_true_iff in Hup, Hq.
    unfold insert_invoice_line. run_stmt.
    rewrite Hup; simpl. rewrite Hq; simpl. rewrite Hitem. reflexivity.
  - run_stmt. rewrite set_invoice_lines_get. reflexivity.
Qed.

Lemma plain_store_line_raises (inv : Z) (il : Z * line) (d : db) :
  line_storable il d = false ->
  exists e, PlainLedger.store_line inv il d = inl e.
Proof.
  unfold line_storable, PlainLedger.store_line.
  destruct il as [i l]; simpl.
  destruct (truthy_str (l_item l)); simpl; intros H; [|discriminate].
  unfold insert_invoice_line. run_stmt.
  destruct (PrimFloat.is_nan (get_float_or0 (l_unit_price l))); simpl in *;
    [eexists; reflexivity|].
  destruct (PrimFloat.is_nan (get_float_or0 (l_qty l))); simpl in *;
    [eexists; reflexivity|].
  rewrite H. eexists; reflexivity.
Qed.

Lemma store_collection_stores (inv : Z) (c : collection_entry) (d : db) :
  collection_storable c d = true ->
  Ledger.store_collection inv c d
  = inr (tt, set_invoice_collections
               (tbl_insert_all (LedgerPlan.collection_plan inv c)
                  (invoice_collections d)) d).
Proof.
  unfold collection_storable, Ledger.store_collection, LedgerPlan.collection_plan.
  destruct (get_float (c_amount c) <=? 0)%float; simpl; intros H.
  - run_stmt. rewrite set_invoice_collections_get. reflexivity.
  - apply negb_true_iff in H.
    unfold insert_invoice_collection. run_stmt.
    rewrite H; simpl. rewrite coerce_method_in_enum. reflexivity.
Qed.

Lemma store_collection_raises (inv : Z) (c : collection_entry) (d : db) :
  collection_storable c d = false ->
  exists e, Ledger.store_collection inv c d = inl e.
Proof.
  unfold collection_storable, Ledger.store_collection.
  destruct (get_float (c_amount c) <=? 0)%float; simpl; intros H; [discriminate|].
  apply negb_false_iff in H.
  unfold insert_invoice_collection. run_stmt. rewrite H. eexists; reflexivity.
Qed.

Lemma store_due_stores (inv : Z) (du : due_entry) (d : db) :
  due_storable du d = true ->
  Ledger.store_due inv du d
  = inr (tt, set_invoice_dues
               (tbl_insert_all (LedgerPlan.due_plan inv du) (invoice_dues d)) d).
Proof.
  unfold due_storable, Ledger.store_due, LedgerPlan.due_plan.
  destruct (get_float (d_amount du) <=? 0)%float; simpl; intros H.
  - run_stmt. rewrite set_invoice_dues_get. reflexivity.
  - apply negb_true_iff in H.
    unfold insert_invoice_due. run_stmt. rewrite H. reflexivity.
Qed.

Lemma store_due_raises (inv : Z) (du : due_entry) (d : db) :
  due_storable du d = false -> exists e, Ledger.store_due inv du d = inl e.
Proof.
  unfold due_storable, Ledger.store_due.
  destruct (get_float (d_amount du) <=? 0)%float; simpl; intros H; [discriminate|].
  apply negb_false_iff in H.
  unfold insert_invoice_due. run_stmt. rewrite H. eexists; reflexivity.
Qed.

Lemma store_movement_stores (date_ : date) (r : movement_entry) (d : db) :
  movement_storable r d = true ->
  Ledger.store_movement date_ r d
  = inr (tt, set_inventory_movements
               (tbl_insert_all (LedgerPlan.movement_plan date_ r)
                  (inventory_movements d)) d).
Proof.
  unfold movement_storable, Ledger.store_movement, LedgerPlan.movement_plan.
  destruct (truthy_str (m_item r)); simpl; intros H.
  - unfold insert_inventory_movement. run_stmt. rewrite H. reflexivity.
  - run_stmt. rewrite set_inventory_movements_get. reflexivity.
Qed.

Lemma store_movement_raises (date_ : date) (r : movement_entry) (d : db) :
  movement_storable r d = false ->
  exists e, Ledger.store_movement date_ r d = inl e.
Proof.
  unfold movement_storable, Ledger.store_movement.
  destruct (truthy_str (m_item r)); simpl; intros H; [|discriminate].
  unfold insert_inventory_movement. run_stmt. rewrite H. eexists; reflexivity.
Qed.

(** *** The three loops of [create_invoice] *)

Lemma lines_loop_stores (inv : Z) (ils : list (Z * line)) (d : db) :
  forallb (fun il => line_storable il d) ils = true ->
  for_each (Ledger.store_line inv) ils d
  = inr (tt, set_invoice_lines
               (tbl_insert_all (flat_map (LedgerPlan.line_plan inv) ils)
                  (invoice_lines d)) d).
Proof.
  apply (for_each_stores invoice_lines set_invoice_lines (Ledger.store_line inv)
           (LedgerPlan.line_plan inv) line_storable);
    try (intros; destruct d0; reflexivity); try reflexivity.
  intros; apply store_line_stores; assumption.
Qed.

Lemma lines_loop_stored (inv : Z) (ils : list (Z * line)) (d d' : db) (u : unit) :
  for_each (Ledger.store_line inv) ils d = inr (u, d') ->
  forallb (fun il => line_storable il d) ils = true
  /\ d' = set_invoice_lines
            (tbl_insert_all (flat_map (LedgerPlan.line_plan inv) ils)
               (invoice_lines d)) d.
Proof.
  apply (for_each_stored invoice_lines set_invoice_lines (Ledger.store_line inv)
           (LedgerPlan.line_plan inv) line_storable);
    try (intros; destruct d0; reflexivity); try reflexivity.
  - intros; apply store_line_stores; assumption.
  - intros; apply store_line_raises; assumption.
Qed.

Lemma plain_lines_loop_stores (inv : Z) (ils : list (Z * line)) (d : db) :
  forallb (fun il => line_storable il d) ils = true ->
  for_each (PlainLedger.store_line inv) ils d
  = inr (tt, set_invoice_lines
               (tbl_insert_all (flat_map (LedgerPlan.plain_line_plan inv) ils)
                  (invoice_lines d)) d).
Proof.
  apply (for_each_stores invoice_lines set_invoice_lines
           (PlainLedger.store_line inv) (LedgerPlan.plain_line_plan inv)
           line_storable);
    try (intros; destruct d0; reflexivity); try reflexivity.
  intros; apply plain_store_line_stores; assumption.
Qed.

Lemma plain_lines_loop_stored (inv : Z) (ils : list (Z * line)) (d d' : db)
  (u : unit) :
  for_each (PlainLedger.store_line inv) ils d = inr (u, d') ->
  forallb (fun il => line_storable il d) ils = true
  /\ d' = set_invoice_lines
            (tbl_insert_all (flat_map (LedgerPlan.plain_line_plan inv) ils)
               (invoice_lines d)) d.
Proof.
  apply (for_each_stored invoice_lines set_invoice_lines
           (PlainLedger.store_line inv) (LedgerPlan.plain_line_plan inv)
           line_storable);
    try (intros; destruct d0; reflexivity); try reflexivity.
  - intros; apply plain_store_line_stores; assumption.
  - intros; apply plain_store_line_raises; assumption.
Qed.

Lemma collections_loop_stores (inv : Z) (colls : list collection_entry) (d : db) :
  forallb (fun c => collection_storable c d) colls = true ->
  for_each (Ledger.store_collection inv) colls d
  = inr (tt, set_invoice_collections
               (tbl_insert_all (flat_map (LedgerPlan.collection_plan inv) colls)
                  (invoice_collections d)) d).
Proof.
  apply (for_each_stores invoice_collections set_invoice_collections
           (Ledger.store_collection inv) (LedgerPlan.collection_plan inv)
           collection_storable);
    try (intros; destruct d0; reflexivity); try reflexivity.
  intros; apply store_collection_stores; assumption.
Qed.

Lemma collections_loop_stored (inv : Z) (colls : list collection_entry)
  (d d' : db) (u : unit) :
  for_each (Ledger.store_collection inv) colls d = inr (u, d') ->
  forallb (fun c => collection_storable c d) colls = true
  /\ d' = set_invoice_collections
            (tbl_insert_all (flat_map (LedgerPlan.collection_plan inv) colls)
               (invoice_collections d)) d.
Proof.
  apply (for_each_stored invoice_collections set_invoice_collections
           (Ledger.store_collection inv) (LedgerPlan.collection_plan inv)
           collection_storable);
    try (intros; destruct d0; reflexivity); try reflexivity.
  - intros; apply store_collection_stores; assumption.
  - intros; apply store_collection_raises; assumption.
Qed.

Lemma dues_loop_stores (inv : Z) (dues : list due_entry) (d : db) :
  forallb (fun du => due_storable du d) dues = true ->
  for_each (Ledger.store_due inv) dues d
  = inr (tt, set_invoice_dues
               (tbl_insert_all (flat_map (LedgerPlan.due_plan inv) dues)
                  (invoice_dues d)) d).
Proof.
  apply (for_each_stores invoice_dues set_invoice_dues (Ledger.store_due inv)
           (LedgerPlan.due_plan inv) due_storable);
    try (intros; destruct d0; reflexivity); try reflexivity.
  intros; apply store_due_stores; assumption.
Qed.

Lemma dues_loop_stored (inv : Z) (dues : list due_entry) (d d' : db) (u : unit) :
  for_each (Ledger.store_due inv) dues d = inr (u, d') ->
  forallb (fun du => due_storable du d) dues = true
  /\ d' = set_invoice_dues
            (tbl_insert_all (flat_map (LedgerPlan.due_plan inv) dues)
               (invoice_dues d)) d.
Proof.
  apply (for_each_stored invoice_dues set_invoice_dues (Ledger.store_due inv)
           (LedgerPlan.due_plan inv) due_storable);
    try (intros; destruct d0; reflexivity); try reflexivity.
  - intros; apply store_due_stores; assumption.
  - intros; apply store_due_raises; assumption.
Qed.

Lemma movements_loop_stores (date_ : date) (rs : list movement_entry) (d : db) :
  forallb (fun r => movement_storable r d) rs = true ->
  for_each (Ledger.store_movement date_) rs d
  = inr (tt, set_inventory_movements
               (tbl_insert_all (flat_map (LedgerPlan.movement_plan date_) rs)
                  (inventory_movements d)) d).
Proof.
  apply (for_each_stores inventory_movements set_inventory_movements
           (Ledger.store_movement date_) (LedgerPlan.movement_plan date_)
           movement_storable);
    try (intros; destruct d0; reflexivity); try reflexivity.
  intros; apply store_movement_stores; assumption.
Qed.

Lemma movements_loop_stored (date_ : date) (rs : list movement_entry)
  (d d' : db) (u : unit) :
  for_each (Ledger.store_movement date_) rs d = inr (u, d') ->
  forallb (fun r => movement_storable r d) rs = true
  /\ d' = set_inventory_movements
            (tbl_insert_all (flat_map (LedgerPlan.movement_plan date_) rs)
               (inventory_movements d)) d.
Proof.
  apply (for_each_stored inventory_movements set_inventory_movements
           (Ledger.store_movement date_) (LedgerPlan.movement_plan date_)
           movement_storable);
    try (intros; destruct d0; reflexivity); try reflexivity.
  - intros; apply store_movement_stores; assumption.
  - intros; apply store_movement_raises; assumption.
Qed.

(** *** [create_invoice] as a whole *)

Lemma reconciles_not_nan (t c du : float) :
  Ledger.reconciles t c du = true ->
  PrimFloat.is_nan t = false /\ PrimFloat.is_nan c = false
  /\ PrimFloat.is_nan du = false.
Proof.
  unfold Ledger.reconciles. intros H.
  apply ltb_abs_not_nan in H. apply sub_not_nan in H. destruct H as [Ht H].
  apply add_not_nan in H. tauto.
Qed.

Lemma lines_total_storable (lines : list line) (d : db) (start : Z) :
  PrimFloat.is_nan (Ledger.lines_total lines) = false ->
  lines_reference_items lines d ->
  forallb (fun il => line_storable il d) (enumerate start lines) = true.
Proof.
  unfold Ledger.lines_total. intros H Href. apply py_sum_not_nan in H.
  revert start. induction Href as [|l lines Hl Href IH]; intros start; simpl.
  - reflexivity.
  - inversion H as [|x xs Hx Hxs]; subst.
    rewrite (IH Hxs). rewrite andb_true_r.
    unfold line_storable; simpl.
    destruct (truthy_str (l_item l)); simpl; [|reflexivity].
    apply mul_not_nan in Hx. destruct Hx as [Hup Hq].
    rewrite (get_float_or0_not_nan _ Hup), (get_float_or0_not_nan _ Hq), Hl;
      reflexivity.
Qed.

Lemma amounts_storable {A : Type} (amount : A -> option float) (xs : list A) :
  PrimFloat.is_nan (py_sum (map (fun x => get_float (amount x)) xs)) = false ->
  forallb
    (fun x => (get_float (amount x) <=? 0)%float
              || negb (PrimFloat.is_nan (get_float (amount x)))) xs = true.
Proof.
  intros H. apply py_sum_not_nan in H.
  induction xs as [|x xs IH]; simpl in *; [reflexivity|].
  inversion H as [|y ys Hy Hys]; subst.
  rewrite Hy, (IH Hys). simpl. rewrite orb_true_r. reflexivity.
Qed.

Lemma create_invoice_stores (date_ : date) (person_name : string)
  (lines : list line) (colls : list collection_entry) (dues : list due_entry)
  (notes : string) (d : db) :
  Ledger.reconciles (Ledger.lines_total lines) (Ledger.collections_total colls)
    (Ledger.dues_total dues) = true ->
  forallb (fun il => line_storable il d) (enumerate 1 lines) = true ->
  Ledger.create_invoice date_ person_name lines colls dues notes d
  = (LedgerPlan.saved_db date_ person_name lines colls dues notes d,
     inr (true,
          "Invoice #" ++ str_of_Z (last_id (invoices d) + 1) ++ " saved.",
          (last_id (invoices d) + 1)%Z)).
Proof.
  intros Hrec Hl.
  destruct (reconciles_not_nan _ _ _ Hrec) as (HT & HC & HD).
  pose proof (amounts_storable c_amount colls HC) as Hc.
  pose proof (amounts_storable d_amount dues HD) as Hd.
  unfold Ledger.create_invoice. rewrite Hrec. simpl negb. cbv iota.
  unfold with_conn, Ledger.create_invoice_body, insert_invoice.
  unfold bind at 1 2 3 4. unfold not_null. rewrite HT, HC, HD. unfold ret at 1 2 3.
  unfold tbl_insert. cbv beta iota zeta.
  unfold bind at 1. rewrite lines_loop_stores by exact Hl.
  unfold bind at 1. rewrite collections_loop_stores by exact Hc.
  unfold bind at 1. rewrite dues_loop_stores by exact Hd.
  unfold bind at 1. unfold LedgerPlan.saved_db, LedgerPlan.legacy_plan.
  destruct (float_ne0 (Ledger.collections_total colls)).
  - unfold insert_collection, bind, not_null. rewrite HC. unfold ret.
    destruct d; reflexivity.
  - unfold ret. destruct d; reflexivity.
Qed.

Lemma create_invoice_raises (date_ : date) (person_name : string)
  (lines : list line) (colls : list collection_entry) (dues : list due_entry)
  (notes : string) (d : db) :
  Ledger.reconciles (Ledger.lines_total lines) (Ledger.collections_total colls)
    (Ledger.dues_total dues) = true ->
  forallb (fun il => line_storable il d) (enumerate 1 lines) = false ->
  exists e,
    Ledger.create_invoice date_ person_name lines colls dues notes d
    = (d, inl e).
Proof.
  intros Hrec Hl.
  destruct (reconciles_not_nan _ _ _ Hrec) as (HT & HC & HD).
  unfold Ledger.create_invoice. rewrite Hrec. simpl negb. cbv iota.
  unfold with_conn, Ledger.create_invoice_body, insert_invoice.
  unfold bind at 1 2 3 4. unfold not_null. rewrite HT, HC, HD. unfold ret at 1 2 3.
  unfold tbl_insert. cbv beta iota zeta.
  unfold bind at 1.
  match goal with
  | |- context [for_each (Ledger.store_line ?i) ?l ?d1] =>
      destruct (for_each (Ledger.store_line i) l d1) as [e | [u d2]] eqn:E
  end.
  - exists e. reflexivity.
  - apply lines_loop_stored in E. destruct E as [E _].
    pose proof (eq_trans (eq_sym E) Hl) as X. discriminate X.
Qed.

Lemma create_invoice_refuses (date_ : date) (person_name : string)
  (lines : list line) (colls : list collection_entry) (dues : list due_entry)
  (notes : string) (d : db) :
  Ledger.reconciles (Ledger.lines_total lines) (Ledger.collections_total colls)
    (Ledger.dues_total dues) = false ->
  Ledger.create_invoice date_ person_name lines colls dues notes d
  = (d, inr (false,
             Ledger.mismatch_message (Ledger.lines_total lines)
               (Ledger.collections_total colls) (Ledger.dues_total dues),
             (-1)%Z)).
Proof.
  intros Hrec. unfold Ledger.create_invoice. rewrite Hrec. reflexivity.
Qed.

(** What a returned [ok = True] tells about the call. *)
Lemma create_invoice_saved (date_ : date) (person_name : string)
  (lines : list line) (colls : list collection_entry) (dues : list due_entry)
  (notes : string) (d d' : db) (msg : string) (inv : Z) :
  Ledger.create_invoice date_ person_name lines colls dues notes d
  = (d', inr (true, msg, inv)) ->
  Ledger.reconciles (Ledger.lines_total lines) (Ledger.collections_total colls)
    (Ledger.dues_total dues) = true
  /\ inv = (last_id (invoices d) + 1)%Z
  /\ msg = "Invoice #" ++ str_of_Z inv ++ " saved."
  /\ d' = LedgerPlan.saved_db date_ person_name lines colls dues notes d.
Proof.
  intros H.
  destruct (Ledger.reconciles (Ledger.lines_total lines)
              (Ledger.collections_total colls) (Ledger.dues_total dues)) eqn:Hrec.
  - destruct (forallb (fun il => line_storable il d) (enumerate 1 lines)) eqn:Hl.
    + rewrite (create_invoice_stores _ _ _ _ _ _ _ Hrec Hl) in H.
      inversion H; subst. auto.
    + destruct (create_invoice_raises date_ person_name _ colls dues notes _ Hrec Hl)
        as [e He].
      rewrite He in H. discriminate.
  - rewrite (create_invoice_refuses _ _ _ _ _ _ _ Hrec) in H. discriminate.
Qed.

Lemma create_invoice_saves (date_ : date) (person_name : string)
  (lines : list line) (colls : list collection_entry) (dues : list due_entry)
  (notes : string) (d : db) :
  Ledger.reconciles (Ledger.lines_total lines) (Ledger.collections_total colls)
    (Ledger.dues_total dues) = true ->
  lines_reference_items lines d ->
  Ledger.create_invoice date_ person_name lines colls dues notes d
  = (LedgerPlan.saved_db date_ person_name lines colls dues notes d,
     inr (true,
          "Invoice #" ++ str_of_Z (last_id (invoices d) + 1) ++ " saved.",
          (last_id (invoices d) + 1)%Z)).
Proof.
  intros Hrec Href.
  destruct (reconciles_not_nan _ _ _ Hrec) as (HT & HC & HD).
  apply create_invoice_stores; [exact Hrec|].
  apply lines_total_storable; assumption.
Qed.

(** *** Reading the planned rows *)

Lemma number_from_app {R : Type} (xs ys : list (Z -> R)) (start : Z) :
  number_from start (xs ++ ys)%list
  = (number_from start xs
     ++ number_from (start + Z.of_nat (List.length xs)) ys)%list.
Proof. unfold number_from. rewrite enumerate_app, map_app. reflexivity. Qed.

(** Rows planned one entry at a time, read through columns that do not
    depend on the id: the kept entries, in order. *)
Lemma planned_fields {R F A : Type} (fields : R -> F)
  (plan : A -> list (Z -> R)) (keep : A -> bool) (f : A -> F) :
  (forall x start,
     map fields (number_from start (plan x)) = if keep x then [f x] else []) ->
  forall xs start,
    map fields (number_from start (flat_map plan xs)) = map f (filter keep xs).
Proof.
  intros Hplan xs. induction xs as [|x xs IH]; intros start; simpl.
  - reflexivity.
  - rewrite number_from_app, map_app, Hplan, IH.
    destruct (keep x); reflexivity.
Qed.

Lemma line_plan_fields (inv : Z) (ils : list (Z * line)) (start : Z) :
  map line_fields (number_from start (flat_map (LedgerPlan.line_plan inv) ils))
  = map
      (fun il =>
         (inv, fst il, get_str (l_item (snd il)),
          get_float_or0 (l_unit_price (snd il)), get_float_or0 (l_qty (snd il)),
          get_str (l_units (snd il)),
          (if truthy_bool (l_highlight (snd il)) then 1 else 0)%Z))
      (filter (fun il => truthy_str (l_item (snd il))) ils).
Proof.
  apply planned_fields. intros il s. unfold LedgerPlan.line_plan.
  destruct (truthy_str (l_item (snd il))); reflexivity.
Qed.

Lemma plain_line_plan_fields (inv : Z) (ils : list (Z * line)) (start : Z) :
  map line_fields
    (number_from start (flat_map (LedgerPlan.plain_line_plan inv) ils))
  = map
      (fun il =>
         (inv, fst il, get_str (l_item (snd il)),
          get_float_or0 (l_unit_price (snd il)), get_float_or0 (l_qty (snd il)),
          get_str (l_units (snd il)), 0%Z))
      (filter (fun il => truthy_str (l_item (snd il))) ils).
Proof.
  apply planned_fields. intros il s. unfold LedgerPlan.plain_line_plan.
  destruct (truthy_str (l_item (snd il))); reflexivity.
Qed.

Lemma collection_plan_fields (inv : Z) (colls : list collection_entry)
  (start : Z) :
  map collection_fields
    (number_from start (flat_map (LedgerPlan.collection_plan inv) colls))
  = map
      (fun c => (inv, Ledger.coerce_method (c_method c), get_float (c_amount c)))
      (filter (fun c => negb (get_float (c_amount c) <=? 0)%float) colls).
Proof.
  apply planned_fields. intros c s. unfold LedgerPlan.collection_plan.
  destruct (get_float (c_amount c) <=? 0)%float; reflexivity.
Qed.

Lemma due_plan_fields (inv : Z) (dues : list due_entry) (start : Z) :
  map due_fields (number_from start (flat_map (LedgerPlan.due_plan inv) dues))
  = map (fun du => (inv, strip (d_shop_no du), get_float (d_amount du)))
      (filter (fun du => negb (get_float (d_amount du) <=? 0)%float) dues).
Proof.
  apply planned_fields. intros du s. unfold LedgerPlan.due_plan.
  destruct (get_float (d_amount du) <=? 0)%float; reflexivity.
Qed.

Lemma filter_eq_in {A : Type} (f g : A -> bool) (xs : list A) :
  Forall (fun x => f x = g x) xs -> filter f xs = filter g xs.
Proof.
  induction 1 as [|x xs Hx _ IH]; simpl; [reflexivity|].
  rewrite Hx, IH. reflexivity.
Qed.

(** Amounts whose sum is a number: "not [<= 0]" selects the positive
    ones. *)
Lemma filter_positive_amounts {A : Type} (amount : A -> option float)
  (xs : list A) :
  PrimFloat.is_nan (py_sum (map (fun x => get_float (amount x)) xs)) = false ->
  filter (fun x => negb (get_float (amount x) <=? 0)%float) xs
  = filter (fun x => positive (get_float (amount x))) xs.
Proof.
  intros H. apply py_sum_not_nan in H. apply filter_eq_in.
  induction xs as [|x xs IH]; simpl in *; constructor;
    inversion H; subst; auto using not_leb_zero_positive.
Qed.

(** ** The reconciliation check *)

(** C1.  Whenever [|total - (collection_total + due_total)| >= 0.005],
    [create_invoice] fails: it returns [ok = False] with invoice id [-1]
    and a message that carries the three computed figures (total,
    collections total, dues total), and the database it leaves is the one
    it found, so no row is written to any table. *)
Theorem create_invoice_mismatch_writes_nothing (date_ : date)
  (person_name : string) (lines : list line) (colls : list collection_entry)
  (dues : list due_entry) (notes : string) (d : db) :
  (0.005 <=? PrimFloat.abs
               (Ledger.lines_total lines
                - (Ledger.collections_total colls + Ledger.dues_total dues)))%float
  = true ->
  Ledger.create_invoice date_ person_name lines colls dues notes d
  = (d,
     inr (false,
          "Total (" ++ format_2f (Ledger.lines_total lines)
            ++ ") must equal Collections ("
            ++ format_2f (Ledger.collections_total colls)
            ++ ") + Dues (" ++ format_2f (Ledger.dues_total dues) ++ ").",
          (-1)%Z)).
Proof.
  intros H. apply leb_not_ltb in H.
  apply create_invoice_refuses. exact H.
Qed.

Lemma create_invoice_mismatch_writes_nothing_witness :
  Ledger.create_invoice sample_date "Bob" [sample_line "A" 10 10]
    [paid "UPI" 60] [owed "S1" 30] "" sample_db
  = (sample_db,
     inr (false, "Total (100.00) must equal Collections (60.00) + Dues (30.00).",
          (-1)%Z)).
Proof.
  exact (create_invoice_mismatch_writes_nothing sample_date "Bob"
           [sample_line "A" 10 10] [paid "UPI" 60] [owed "S1" 30] ""
           sample_db eq_refl).
Defined.

(** C2, as the code has it.  Whenever the collections total plus the dues
    total is within 0.005 of the line total, and every line that is
    stored names an existing item, [create_invoice] succeeds; the invoice
    row it appends stores the three computed figures, so that
    [|total_amount - (collection_amount + due_amount)| < 0.005] holds of
    the stored row. *)
Theorem create_invoice_reconciled_saves (date_ : date) (person_name : string)
  (lines : list line) (colls : list collection_entry) (dues : list due_entry)
  (notes : string) (d : db) :
  (PrimFloat.abs
     (Ledger.lines_total lines
      - (Ledger.collections_total colls + Ledger.dues_total dues)) <? 0.005)%float
  = true ->
  lines_reference_items lines d ->
  exists d' inv r,
    Ledger.create_invoice date_ person_name lines colls dues notes d
    = (d', inr (true, "Invoice #" ++ str_of_Z inv ++ " saved.", inv))
    /\ rows (invoices d') = (rows (invoices d) ++ [r])%list
    /\ inv_id r = inv
    /\ inv_total_amount r = Ledger.lines_total lines
    /\ inv_collection_amount r = Ledger.collections_total colls
    /\ inv_due_amount r = Ledger.dues_total dues
    /\ (PrimFloat.abs
          (inv_total_amount r - (inv_collection_amount r + inv_due_amount r))
        <? 0.005)%float = true.
Proof.
  intros Hrec Href.
  eexists _, _, _. split.
  - apply create_invoice_saves; [exact Hrec | exact Href].
  - repeat split; try reflexivity. exact Hrec.
Qed.

Lemma create_invoice_reconciled_saves_witness :
  exists d' inv r,
    Ledger.create_invoice sample_date "Bob" [sample_line "A" 10 2]
      [paid "Cash" 20] [] "" sample_db
    = (d', inr (true, "Invoice #" ++ str_of_Z inv ++ " saved.", inv))
    /\ rows (invoices d') = (rows (invoices sample_db) ++ [r])%list
    /\ inv_id r = inv
    /\ inv_total_amount r = Ledger.lines_total [sample_line "A" 10 2]
    /\ inv_collection_amount r = Ledger.collections_total [paid "Cash" 20]
    /\ inv_due_amount r = Ledger.dues_total []
    /\ (PrimFloat.abs
          (inv_total_amount r - (inv_collection_amount r + inv_due_amount r))
        <? 0.005)%float = true.
Proof.
  apply (create_invoice_reconciled_saves sample_date "Bob"
           [sample_line "A" 10 2] [paid "Cash" 20] [] "" sample_db).
  - reflexivity.
  - repeat constructor.
Defined.

(** C2 as stated fails: a collection of 20.004 against a total of 20 is
    within the tolerance, the invoice is saved, and the stored
    [collection_amount + due_amount] differs from the stored
    [total_amount]. *)
Lemma create_invoice_stores_inexact_figures :
  (PrimFloat.abs
     (Ledger.lines_total [sample_line "A" 10 2]
      - (Ledger.collections_total [paid "Cash" 20.004] + Ledger.dues_total []))
   <? 0.005)%float = true
  /\ exists d' r,
       Ledger.create_invoice sample_date "Bob" [sample_line "A" 10 2]
         [paid "Cash" 20.004] [] "" sample_db
       = (d', inr (true, "Invoice #1 saved.", 1%Z))
       /\ rows (invoices d') = [r]
       /\ inv_total_amount r = 20%float
       /\ (inv_collection_amount r + inv_due_amount r)%float = 20.004%float
       /\ (inv_collection_amount r + inv_due_amount r =? inv_total_amount r)%float
          = false.
Proof.
  split; [reflexivity|].
  eexists _, _. split; [vm_compute; reflexivity|].
  repeat split; reflexivity.
Qed.

(** What a returned [ok = False] tells about the call. *)
Lemma create_invoice_refused (date_ : date) (person_name : string)
  (lines : list line) (colls : list collection_entry) (dues : list due_entry)
  (notes : string) (d d' : db) (msg : string) (inv : Z) :
  Ledger.create_invoice date_ person_name lines colls dues notes d
  = (d', inr (false, msg, inv)) ->
  Ledger.reconciles (Ledger.lines_total lines) (Ledger.collections_total colls)
    (Ledger.dues_total dues) = false
  /\ msg = Ledger.mismatch_message (Ledger.lines_total lines)
             (Ledger.collections_total colls) (Ledger.dues_total dues)
  /\ d' = d.
Proof.
  intros H.
  destruct (Ledger.reconciles (Ledger.lines_total lines)
              (Ledger.collections_total colls) (Ledger.dues_total dues)) eqn:Hrec.
  - destruct (forallb (fun il => line_storable il d) (enumerate 1 lines)) eqn:Hl.
    + rewrite (create_invoice_stores _ _ _ _ _ _ _ Hrec Hl) in H. discriminate.
    + destruct (create_invoice_raises date_ person_name _ colls dues notes _ Hrec Hl)
        as [e He].
      rewrite He in H. discriminate.
  - rewrite (create_invoice_refuses _ _ _ _ _ _ _ Hrec) in H.
    inversion H; subst. auto.
Qed.

Lemma saved_db_invoice_rows (date_ : date) (person_name : string)
  (lines : list line) (colls : list collection_entry) (dues : list due_entry)
  (notes : string) (d : db) :
  rows (invoices (LedgerPlan.saved_db date_ person_name lines colls dues notes d))
  = (rows (invoices d)
     ++ [mk_invoice_row (last_id (invoices d) + 1) (isoformat date_)
           (strip person_name) (Ledger.lines_total lines)
           (Ledger.collections_total colls) (Ledger.dues_total dues) notes])%list.
Proof. reflexivity. Qed.

(** ** The figures *)

(** C4.  The total that [create_invoice] computes is the sum of
    [unit_price * qty] over all submitted lines, whether or not a line is
    later dropped for storage: it is the total named in the message of a
    refusal, and the [total_amount] of the invoice row of a success. *)
Theorem create_invoice_total_over_all_lines (date_ : date)
  (person_name : string) (lines : list line) (colls : list collection_entry)
  (dues : list due_entry) (notes : string) (d d' : db) (ok : bool)
  (msg : string) (inv : Z) :
  Ledger.create_invoice date_ person_name lines colls dues notes d
  = (d', inr (ok, msg, inv)) ->
  let total :=
    py_sum
      (map (fun l => (get_float (l_unit_price l) * get_float (l_qty l))%float)
         lines) in
  if ok
  then exists r,
         rows (invoices d') = (rows (invoices d) ++ [r])%list
         /\ inv_total_amount r = total
  else msg = "Total (" ++ format_2f total ++ ") must equal Collections ("
               ++ format_2f (Ledger.collections_total colls)
               ++ ") + Dues (" ++ format_2f (Ledger.dues_total dues) ++ ").".
Proof.
  intros H total. destruct ok.
  - apply create_invoice_saved in H. destruct H as (_ & _ & _ & ->).
    rewrite saved_db_invoice_rows. eexists. split; reflexivity.
  - apply create_invoice_refused in H. destruct H as (_ & -> & _). reflexivity.
Qed.

Lemma create_invoice_total_over_all_lines_witness :
  exists r,
    rows (invoices
            (fst (Ledger.create_invoice sample_date "Bob"
                    [sample_line "" 5 2; sample_line "A" 10 0; sample_line "A" 10 2]
                    [paid "Cash" 30] [] "" sample_db)))
    = (rows (invoices sample_db) ++ [r])%list
    /\ inv_total_amount r = 30%float.
Proof.
  exact (create_invoice_total_over_all_lines sample_date "Bob"
           [sample_line "" 5 2; sample_line "A" 10 0; sample_line "A" 10 2]
           [paid "Cash" 30] [] "" sample_db _ true _ _ eq_refl).
Defined.

(** C5, as the code has it.  The collections total that enters the
    reconciliation check and is stored as [collection_amount] is the sum
    of all the submitted collection amounts, and the dues total the sum
    of all the submitted due amounts: [create_invoice] leaves none out.
    When every submitted amount is positive these are the sums over the
    positive amounts. *)
Theorem create_invoice_totals_over_all_amounts (date_ : date)
  (person_name : string) (lines : list line) (colls : list collection_entry)
  (dues : list due_entry) (notes : string) (d d' : db) (ok : bool)
  (msg : string) (inv : Z) :
  Ledger.create_invoice date_ person_name lines colls dues notes d
  = (d', inr (ok, msg, inv)) ->
  let coll_amounts := map (fun c => get_float (c_amount c)) colls in
  let due_amounts := map (fun du => get_float (d_amount du)) dues in
  ok = (PrimFloat.abs
          (Ledger.lines_total lines - (py_sum coll_amounts + py_sum due_amounts))
        <? 0.005)%float
  /\ (ok = true ->
      exists r,
        rows (invoices d') = (rows (invoices d) ++ [r])%list
        /\ inv_collection_amount r = py_sum coll_amounts
        /\ inv_due_amount r = py_sum due_amounts)
  /\ (forallb positive coll_amounts = true ->
      py_sum coll_amounts = py_sum (filter positive coll_amounts))
  /\ (forallb positive due_amounts = true ->
      py_sum due_amounts = py_sum (filter positive due_amounts)).
Proof.
  intros H coll_amounts due_amounts.
  assert (Hall : forall xs, forallb positive xs = true -> filter positive xs = xs).
  { induction xs as [|x xs IH]; simpl; [reflexivity|].
    intros Hx. apply andb_true_iff in Hx. destruct Hx as [Hx Hxs].
    rewrite Hx, (IH Hxs). reflexivity. }
  split; [|split; [|split]].
  - destruct ok.
    + apply create_invoice_saved in H. destruct H as (Hrec & _). symmetry. exact Hrec.
    + apply create_invoice_refused in H. destruct H as (Hrec & _). symmetry. exact Hrec.
  - intros ->. apply create_invoice_saved in H. destruct H as (_ & _ & _ & ->).
    rewrite saved_db_invoice_rows. eexists. repeat split; reflexivity.
  - intros Hpos. rewrite (Hall _ Hpos). reflexivity.
  - intros Hpos. rewrite (Hall _ Hpos). reflexivity.
Qed.

Lemma create_invoice_totals_over_all_amounts_witness :
  exists r,
    rows (invoices
            (fst (Ledger.create_invoice sample_date "Bob" [sample_line "A" 10 2]
                    [paid "Cash" 5; paid "UPI" 7] [owed "S1" 8] "" sample_db)))
    = (rows (invoices sample_db) ++ [r])%list
    /\ inv_collection_amount r = 12%float
    /\ inv_due_amount r = 8%float
    /\ (12 = py_sum (filter positive [5; 7]))%float
    /\ (8 = py_sum (filter positive [8]))%float.
Proof.
  pose proof (create_invoice_totals_over_all_amounts sample_date "Bob"
                [sample_line "A" 10 2] [paid "Cash" 5; paid "UPI" 7]
                [owed "S1" 8] "" sample_db _ true _ _ eq_refl)
    as (_ & Hsaved & Hcolls & Hdues).
  destruct (Hsaved eq_refl) as (r & Hrows & Hc & Hd).
  exists r. split; [exact Hrows|]. split; [exact Hc|]. split; [exact Hd|].
  split; [exact (Hcolls eq_refl) | exact (Hdues eq_refl)].
Defined.

(** C5 as stated fails on a list with a non-positive amount: with
    collections of 30 and -10 against a line total of 20,
    [create_invoice] saves the invoice with [collection_amount = 20],
    the sum of both amounts, whereas the sum of the collection amounts
    without the non-positive one is 30, which the one collection row
    stored holds and which would not reconcile with a total of 20. *)
Lemma create_invoice_counts_negative_amounts :
  exists d' r,
    Ledger.create_invoice sample_date "Bob" [sample_line "A" 10 2]
      [paid "Cash" 30; paid "Cash" (-10)] [] "" sample_db
    = (d', inr (true, "Invoice #1 saved.", 1%Z))
    /\ rows (invoices d') = [r]
    /\ inv_total_amount r = 20%float
    /\ inv_collection_amount r = 20%float
    /\ map ic_amount (rows (invoice_collections d')) = [30%float]
    /\ (py_sum (filter positive [30; -10]) = 30)%float
    /\ (Ledger.reconciles 20 (py_sum (filter positive [30; -10])) 0 = false)%float.
Proof.
  eexists _, _. split; [vm_compute; reflexivity|].
  repeat split; reflexivity.
Qed.

(** ** The child rows *)

Lemma positive_not_leb (x : float) : positive x = true -> (x <=? 0)%float = false.
Proof.
  intros H. assert (Hn : PrimFloat.is_nan x = false).
  { unfold positive in H. rewrite FloatAxioms.ltb_spec in H.
    apply not_nan_Prim2SF. intros E. unfold SFltb in H.
    rewrite (SFcompare_antisym (Prim2SF x) (Prim2SF 0%float)) in H.
    rewrite E in H. simpl in H. discriminate. }
  apply not_leb_zero_positive in Hn. rewrite H in Hn.
  apply negb_true_iff. exact Hn.
Qed.

Lemma saved_db_child_rows (date_ : date) (person_name : string)
  (lines : list line) (colls : list collection_entry) (dues : list due_entry)
  (notes : string) (d : db) :
  Ledger.reconciles (Ledger.lines_total lines) (Ledger.collections_total colls)
    (Ledger.dues_total dues) = true ->
  let d' := LedgerPlan.saved_db date_ person_name lines colls dues notes d in
  let inv := (last_id (invoices d) + 1)%Z in
  exists new_lines new_colls new_dues,
    rows (invoice_lines d') = (rows (invoice_lines d) ++ new_lines)%list
    /\ map line_fields new_lines
       = map
           (fun il =>
              (inv, fst il, get_str (l_item (snd il)),
               get_float_or0 (l_unit_price (snd il)),
               get_float_or0 (l_qty (snd il)), get_str (l_units (snd il)),
               (if truthy_bool (l_highlight (snd il)) then 1 else 0)%Z))
           (filter (fun il => truthy_str (l_item (snd il))) (enumerate 1 lines))
    /\ rows (invoice_collections d')
       = (rows (invoice_collections d) ++ new_colls)%list
    /\ map collection_fields new_colls
       = map
           (fun c =>
              (inv, Ledger.coerce_method (c_method c), get_float (c_amount c)))
           (filter (fun c => positive (get_float (c_amount c))) colls)
    /\ rows (invoice_dues d') = (rows (invoice_dues d) ++ new_dues)%list
    /\ map due_fields new_dues
       = map (fun du => (inv, strip (d_shop_no du), get_float (d_amount du)))
           (filter (fun du => positive (get_float (d_amount du))) dues).
Proof.
  intros Hrec d' inv.
  destruct (reconciles_not_nan _ _ _ Hrec) as (_ & HC & HD).
  eexists _, _, _. unfold d', LedgerPlan.saved_db. cbn [invoice_lines invoice_collections invoice_dues].
  rewrite !tbl_insert_all_rows.
  repeat split.
  - apply line_plan_fields.
  - rewrite collection_plan_fields.
    rewrite (filter_positive_amounts c_amount colls HC). reflexivity.
  - rewrite due_plan_fields.
    rewrite (filter_positive_amounts d_amount dues HD). reflexivity.
Qed.

(** C6, as the code has it.  When [create_invoice] succeeds, the child
    rows it appends are exactly: one [invoice_lines] row per submitted
    line whose item is non-empty (a zero quantity does not exclude a
    line), carrying as [line_no] the line's position in the submitted
    list, counted from 1; one [invoice_collections] row per collection
    with a positive amount; one [invoice_dues] row per due with a positive
    amount (an empty shop does not exclude a due). *)
Theorem create_invoice_child_rows (date_ : date) (person_name : string)
  (lines : list line) (colls : list collection_entry) (dues : list due_entry)
  (notes : string) (d d' : db) (msg : string) (inv : Z) :
  Ledger.create_invoice date_ person_name lines colls dues notes d
  = (d', inr (true, msg, inv)) ->
  exists new_lines new_colls new_dues,
    rows (invoice_lines d') = (rows (invoice_lines d) ++ new_lines)%list
    /\ map line_fields new_lines
       = map
           (fun il =>
              (inv, fst il, get_str (l_item (snd il)),
               get_float_or0 (l_unit_price (snd il)),
               get_float_or0 (l_qty (snd il)), get_str (l_units (snd il)),
               (if truthy_bool (l_highlight (snd il)) then 1 else 0)%Z))
           (filter (fun il => truthy_str (l_item (snd il))) (enumerate 1 lines))
    /\ rows (invoice_collections d')
       = (rows (invoice_collections d) ++ new_colls)%list
    /\ map collection_fields new_colls
       = map
           (fun c =>
              (inv, Ledger.coerce_method (c_method c), get_float (c_amount c)))
           (filter (fun c => positive (get_float (c_amount c))) colls)
    /\ rows (invoice_dues d') = (rows (invoice_dues d) ++ new_dues)%list
    /\ map due_fields new_dues
       = map (fun du => (inv, strip (d_shop_no du), get_float (d_amount du)))
           (filter (fun du => positive (get_float (d_amount du))) dues).
Proof.
  intros H. apply create_invoice_saved in H.
  destruct H as (Hrec & -> & _ & ->).
  apply saved_db_child_rows. exact Hrec.
Qed.

Lemma create_invoice_child_rows_witness :
  exists new_lines new_colls new_dues,
    rows (invoice_lines
            (fst (Ledger.create_invoice sample_date "Bob"
                    [sample_line "" 5 0; sample_line "A" 10 0; sample_line "A" 10 2]
                    [paid "Cash" 0; paid "UPI" 5] [owed "" 15; owed "S1" 0] ""
                    sample_db)))
    = (rows (invoice_lines sample_db) ++ new_lines)%list
    /\ map line_fields new_lines
       = [(1%Z, 2%Z, "A", 10%float, 0%float, "UNITS", 0%Z);
          (1%Z, 3%Z, "A", 10%float, 2%float, "UNITS", 0%Z)]
    /\ rows (invoice_collections
               (fst (Ledger.create_invoice sample_date "Bob"
                       [sample_line "" 5 0; sample_line "A" 10 0;
                        sample_line "A" 10 2]
                       [paid "Cash" 0; paid "UPI" 5] [owed "" 15; owed "S1" 0] ""
                       sample_db)))
       = (rows (invoice_collections sample_db) ++ new_colls)%list
    /\ map collection_fields new_colls = [(1%Z, "UPI", 5%float)]
    /\ rows (invoice_dues
               (fst (Ledger.create_invoice sample_date "Bob"
                       [sample_line "" 5 0; sample_line "A" 10 0;
                        sample_line "A" 10 2]
                       [paid "Cash" 0; paid "UPI" 5] [owed "" 15; owed "S1" 0] ""
                       sample_db)))
       = (rows (invoice_dues sample_db) ++ new_dues)%list
    /\ map due_fields new_dues = [(1%Z, "", 15%float)].
Proof.
  exact (create_invoice_child_rows sample_date "Bob"
           [sample_line "" 5 0; sample_line "A" 10 0; sample_line "A" 10 2]
           [paid "Cash" 0; paid "UPI" 5] [owed "" 15; owed "S1" 0] ""
           sample_db _ _ _ eq_refl).
Defined.

(** C6 as stated fails: a line with item ["A"] and quantity zero is
    stored as an [invoice_lines] row, and a due of 20 with an empty shop
    is stored as an [invoice_dues] row, although the submitted lists hold
    one line that is non-empty with a non-zero quantity and no due with a
    non-empty shop. *)
Lemma create_invoice_keeps_zero_quantity_and_empty_shop :
  exists d',
    Ledger.create_invoice sample_date "Bob"
      [sample_line "A" 10 0; sample_line "A" 10 2] [] [owed "" 20] "" sample_db
    = (d', inr (true, "Invoice #1 saved.", 1%Z))
    /\ map il_qty (rows (invoice_lines d')) = [0%float; 2%float]
    /\ List.length
         (filter
            (fun l => truthy_str (l_item l)
                      && negb (PrimFloat.eqb (get_float (l_qty l)) 0))
            [sample_line "A" 10 0; sample_line "A" 10 2]) = 1%nat
    /\ map idue_shop_no (rows (invoice_dues d')) = [""]
    /\ List.length
         (filter
            (fun du => positive (get_float (d_amount du))
                       && negb (String.eqb (strip (d_shop_no du)) ""))
            [owed "" 20]) = 0%nat.
Proof.
  eexists. split; [vm_compute; reflexivity|].
  repeat split; reflexivity.
Qed.

(** *** Collection methods *)

Lemma coerce_method_idem (m : option string) :
  Ledger.coerce_method (Some (Ledger.coerce_method m)) = Ledger.coerce_method m.
Proof.
  destruct m as [s|]; simpl; [|reflexivity].
  destruct (String.eqb s "Cash" || String.eqb s "UPI") eqn:E; simpl;
    [rewrite E|]; reflexivity.
Qed.

Lemma coerce_method_out_of_set (m : option string) :
  m <> Some "Cash" -> m <> Some "UPI" -> Ledger.coerce_method m = "Cash".
Proof.
  intros HC HU. destruct m as [s|]; simpl; [|reflexivity].
  destruct (String.eqb_spec s "Cash"); [subst; congruence|].
  destruct (String.eqb_spec s "UPI"); [subst; congruence|]. reflexivity.
Qed.

Lemma for_each_map {A B : Type} (f : A -> B) (body : B -> stmt unit)
  (body' : A -> stmt unit) (xs : list A) (d : db) :
  (forall x d, body (f x) d = body' x d) ->
  for_each body (map f xs) d = for_each body' xs d.
Proof.
  intros H. revert d. induction xs as [|x xs IH]; intros d; simpl.
  - reflexivity.
  - unfold bind. rewrite H. destruct (body' x d) as [e | [u d1]]; auto.
Qed.

Lemma collections_total_coerced (colls : list collection_entry) :
  Ledger.collections_total (map with_coerced_method colls)
  = Ledger.collections_total colls.
Proof. unfold Ledger.collections_total. rewrite map_map. reflexivity. Qed.

Lemma create_invoice_coerced (date_ : date) (person_name : string)
  (lines : list line) (colls : list collection_entry) (dues : list due_entry)
  (notes : string) (d : db) :
  Ledger.create_invoice date_ person_name lines colls dues notes d
  = Ledger.create_invoice date_ person_name lines
      (map with_coerced_method colls) dues notes d.
Proof.
  unfold Ledger.create_invoice. rewrite collections_total_coerced.
  destruct (negb _); [reflexivity|].
  unfold with_conn, Ledger.create_invoice_body.
  unfold bind at 1 6.
  destruct (insert_invoice _ _ _ _ _ _ d) as [e | [inv d1]]; [reflexivity|].
  unfold bind at 1 5.
  destruct (for_each (Ledger.store_line inv) _ d1) as [e | [u d2]]; [reflexivity|].
  unfold bind at 1 4.
  rewrite (for_each_map with_coerced_method (Ledger.store_collection inv)
             (Ledger.store_collection inv)).
  - reflexivity.
  - intros c d0. unfold Ledger.store_collection, with_coerced_method.
    cbn [c_method c_amount]. rewrite coerce_method_idem. reflexivity.
Qed.

(** C7.  A collection entry whose method is not ["Cash"] or ["UPI"] is
    not rejected: the call behaves exactly as it does when the entry says
    ["Cash"], and when the invoice is saved and the entry's amount is
    positive, the entry is stored as an [invoice_collections] row of the
    new invoice with method ["Cash"] and that amount. *)
Theorem out_of_set_method_becomes_cash (date_ : date) (person_name : string)
  (lines : list line) (colls : list collection_entry) (dues : list due_entry)
  (notes : string) (d : db) :
  Ledger.create_invoice date_ person_name lines colls dues notes d
  = Ledger.create_invoice date_ person_name lines
      (map with_coerced_method colls) dues notes d
  /\ forall (c : collection_entry) (d' : db) (msg : string) (inv : Z),
       In c colls ->
       c_method c <> Some "Cash" ->
       c_method c <> Some "UPI" ->
       with_coerced_method c = mk_collection_entry (Some "Cash") (c_amount c)
       /\ (Ledger.create_invoice date_ person_name lines colls dues notes d
           = (d', inr (true, msg, inv)) ->
           positive (get_float (c_amount c)) = true ->
           exists new_colls r,
             rows (invoice_collections d')
             = (rows (invoice_collections d) ++ new_colls)%list
             /\ In r new_colls
             /\ collection_fields r = (inv, "Cash", get_float (c_amount c))).
Proof.
  split; [apply create_invoice_coerced|].
  intros c d' msg inv Hin HC HU.
  pose proof (coerce_method_out_of_set _ HC HU) as Hcash.
  split.
  - unfold with_coerced_method. rewrite Hcash. reflexivity.
  - intros H Hpos. apply create_invoice_saved in H.
    destruct H as (Hrec & -> & _ & ->).
    destruct (saved_db_child_rows date_ person_name lines colls dues notes d Hrec)
      as (nl & nc & nd & _ & _ & Hrows & Hfields & _).
    exists nc.
    assert (Hc : In (last_id (invoices d) + 1, "Cash", get_float (c_amount c))%Z
                   (map collection_fields nc)).
    { rewrite Hfields. rewrite <- Hcash. apply in_map_iff. exists c.
      split; [reflexivity|]. apply filter_In. split; assumption. }
    apply in_map_iff in Hc. destruct Hc as (r & Hr & Hinr).
    exists r. repeat split; assumption.
Qed.

Lemma out_of_set_method_becomes_cash_witness :
  exists new_colls r,
    rows (invoice_collections
            (fst (Ledger.create_invoice sample_date "Bob" [sample_line "A" 10 2]
                    [paid "Card" 20] [] "" sample_db)))
    = (rows (invoice_collections sample_db) ++ new_colls)%list
    /\ In r new_colls
    /\ collection_fields r = (1%Z, "Cash", 20%float).
Proof.
  refine (proj2
            (proj2 (out_of_set_method_becomes_cash sample_date "Bob"
                      [sample_line "A" 10 2] [paid "Card" 20] [] "" sample_db)
               (paid "Card" 20) _ _ _ _ _ _)
            eq_refl eq_refl).
  - left. reflexivity.
  - discriminate.
  - discriminate.
Defined.

(** ** The daily aggregate *)

(** C8.  When [create_invoice] succeeds, it appends one row to the legacy
    [collections] table if the computed collections total is non-zero,
    and none if it is zero; the row carries the invoice date, the
    collections total as its amount, and a note made of the new invoice
    id and the person name. *)
Theorem create_invoice_daily_aggregate (date_ : date) (person_name : string)
  (lines : list line) (colls : list collection_entry) (dues : list due_entry)
  (notes : string) (d d' : db) (msg : string) (inv : Z) :
  Ledger.create_invoice date_ person_name lines colls dues notes d
  = (d', inr (true, msg, inv)) ->
  ((Ledger.collections_total colls =? 0)%float = false ->
   exists r,
     rows (collections d') = (rows (collections d) ++ [r])%list
     /\ col_date r = isoformat date_
     /\ col_amount r = Ledger.collections_total colls
     /\ col_note r = "Invoice #" ++ str_of_Z inv ++ " - " ++ person_name)
  /\ ((Ledger.collections_total colls =? 0)%float = true ->
      rows (collections d') = rows (collections d)).
Proof.
  intros H. apply create_invoice_saved in H. destruct H as (_ & -> & _ & ->).
  unfold LedgerPlan.saved_db, LedgerPlan.legacy_plan, float_ne0.
  cbn [collections]. split; intros Hz; rewrite Hz; simpl.
  - eexists. repeat split; reflexivity.
  - reflexivity.
Qed.

Lemma create_invoice_daily_aggregate_witness :
  ((Ledger.collections_total [paid "Cash" 20] =? 0)%float = false ->
   exists r,
     rows (collections
             (fst (Ledger.create_invoice sample_date "Bob" [sample_line "A" 10 2]
                     [paid "Cash" 20] [] "" sample_db)))
     = (rows (collections sample_db) ++ [r])%list
     /\ col_date r = "2025-09-28"
     /\ col_amount r = 20%float
     /\ col_note r = "Invoice #1 - Bob")
  /\ ((Ledger.collections_total [paid "Cash" 20] =? 0)%float = true ->
      rows (collections
              (fst (Ledger.create_invoice sample_date "Bob" [sample_line "A" 10 2]
                      [paid "Cash" 20] [] "" sample_db)))
      = rows (collections sample_db)).
Proof.
  exact (create_invoice_daily_aggregate sample_date "Bob" [sample_line "A" 10 2]
           [paid "Cash" 20] [] "" sample_db _ _ _ eq_refl).
Defined.

(** ** Inventory movements *)

Lemma movement_plan_balanced (date_ : date) (rs : list movement_entry)
  (start : Z) :
  Forall movement_balanced
    (number_from start (flat_map (LedgerPlan.movement_plan date_) rs)).
Proof.
  revert start. induction rs as [|r rs IH]; intros start; simpl.
  - constructor.
  - rewrite number_from_app. apply Forall_app. split; [|apply IH].
    unfold LedgerPlan.movement_plan.
    destruct (truthy_str (m_item r)); [|constructor].
    constructor; [|constructor].
    unfold movement_balanced; simpl. repeat split; auto using eqb_refl_not_nan.
Qed.

Lemma movement_plan_fields (date_ : date) (rs : list movement_entry) (start : Z) :
  map movement_fields
    (number_from start (flat_map (LedgerPlan.movement_plan date_) rs))
  = map
      (fun r =>
         (isoformat date_, get_str (m_item r),
          get_float_or0 (m_opening_balance r), get_float_or0 (m_stock_in r),
          get_float_or0 (m_stock_out r),
          get_float_or0 (m_stock_returning_today r)))
      (filter (fun r => truthy_str (m_item r)) rs).
Proof.
  apply planned_fields. intros r s. unfold LedgerPlan.movement_plan.
  destruct (truthy_str (m_item r)); reflexivity.
Qed.

(** C9.  Every row that [add_inventory_movement] stores (one per entry
    with a non-empty item, holding the entry's four quantities) satisfies
    [closing_balance == opening_balance + stock_in - stock_out +
    stock_returning_today] and [stock_remaining == closing_balance]; and
    an entry with opening 50, in 10, out 5, returning 2 for a known item
    is stored with closing balance and stock remaining 57. *)
Theorem stored_movements_balanced :
  (forall (date_ : date) (rows_ : list movement_entry) (d d' : db) (u : unit),
      Ledger.add_inventory_movement date_ rows_ d = (d', inr u) ->
      exists new_rows,
        rows (inventory_movements d')
        = (rows (inventory_movements d) ++ new_rows)%list
        /\ map movement_fields new_rows
           = map
               (fun r =>
                  (isoformat date_, get_str (m_item r),
                   get_float_or0 (m_opening_balance r),
                   get_float_or0 (m_stock_in r), get_float_or0 (m_stock_out r),
                   get_float_or0 (m_stock_returning_today r)))
               (filter (fun r => truthy_str (m_item r)) rows_)
        /\ Forall movement_balanced new_rows)
  /\ (forall (date_ : date) (item : string) (d : db),
         truthy_str (Some item) = true ->
         item_exists item d = true ->
         exists d' r,
           Ledger.add_inventory_movement date_
             [mk_movement_entry (Some item) (Some 50%float) (Some 10%float)
                (Some 5%float) (Some 2%float)] d
           = (d', inr tt)
           /\ rows (inventory_movements d')
              = (rows (inventory_movements d) ++ [r])%list
           /\ mv_closing_balance r = 57%float
           /\ mv_stock_remaining r = 57%float).
Proof.
  split.
  - intros date_ rows_ d d' u H. unfold Ledger.add_inventory_movement, with_conn in H.
    destruct (for_each (Ledger.store_movement date_) rows_ d) as [e | [u' d1]] eqn:E;
      [discriminate|].
    inversion H; subst. apply movements_loop_stored in E. destruct E as [_ ->].
    cbn [inventory_movements set_inventory_movements].
    rewrite tbl_insert_all_rows. eexists. split; [reflexivity|]. split.
    + apply movement_plan_fields.
    + apply movement_plan_balanced.
  - intros date_ item d Hitem Hex.
    unfold Ledger.add_inventory_movement, with_conn.
    rewrite movements_loop_stores.
    + eexists _, _. split; [reflexivity|].
      cbn [inventory_movements set_inventory_movements].
      rewrite tbl_insert_all_rows. unfold LedgerPlan.movement_plan.
      cbn [flat_map m_item]. rewrite Hitem. split; [reflexivity|].
      split; reflexivity.
    + unfold movement_storable. cbn [forallb m_item get_str].
      rewrite Hex, orb_true_r. reflexivity.
Qed.

Lemma stored_movements_balanced_witness :
  (exists new_rows,
      rows (inventory_movements
              (fst (Ledger.add_inventory_movement sample_date
                      [mk_movement_entry (Some "A") (Some 7.5%float) None
                         (Some 0.25%float) None;
                       mk_movement_entry (Some "") (Some 1%float) None None None]
                      sample_db)))
      = (rows (inventory_movements sample_db) ++ new_rows)%list
      /\ map movement_fields new_rows
         = [("2025-09-28", "A", 7.5%float, 0%float, 0.25%float, 0%float)]
      /\ Forall movement_balanced new_rows)
  /\ (exists d' r,
         Ledger.add_inventory_movement sample_date
           [mk_movement_entry (Some "A") (Some 50%float) (Some 10%float)
              (Some 5%float) (Some 2%float)] sample_db
         = (d', inr tt)
         /\ rows (inventory_movements d')
            = (rows (inventory_movements sample_db) ++ [r])%list
         /\ mv_closing_balance r = 57%float
         /\ mv_stock_remaining r = 57%float).
Proof.
  split.
  - exact (proj1 stored_movements_balanced sample_date
             [mk_movement_entry (Some "A") (Some 7.5%float) None
                (Some 0.25%float) None;
              mk_movement_entry (Some "") (Some 1%float) None None None]
             sample_db _ tt eq_refl).
  - exact (proj2 stored_movements_balanced sample_date "A" sample_db
             eq_refl eq_refl).
Defined.

(** ** The earlier ledger *)

Lemma is_zero_Prim2SF (x : float) :
  PrimFloat.is_zero x = true -> exists s, Prim2SF x = S754_zero s.
Proof.
  unfold PrimFloat.is_zero. rewrite FloatAxioms.eqb_spec.
  change (Prim2SF PrimFloat.zero) with (S754_zero false). unfold SFeqb.
  destruct (Prim2SF x) as [s | s | | s m e]; simpl; intros H;
    try discriminate; try (destruct s; discriminate).
  exists s. reflexivity.
Qed.

Lemma float_or0_not_nan (x : float) :
  PrimFloat.is_nan (float_or0 x) = false -> PrimFloat.is_nan x = false.
Proof.
  unfold float_or0. destruct (PrimFloat.is_zero x) eqn:Hz; [|auto].
  intros _. destruct (is_zero_Prim2SF _ Hz) as [s Hs].
  apply not_nan_Prim2SF. rewrite Hs. discriminate.
Qed.

(** [total - (c or 0)] and [total - c] are equal floats under [==]. *)
Lemma sub_float_or0_eqb (t c : float) :
  PrimFloat.is_nan (t - float_or0 c) = false ->
  (t - float_or0 c =? t - c)%float = true.
Proof.
  unfold float_or0. destruct (PrimFloat.is_zero c) eqn:Hz.
  - intros Hn. destruct (is_zero_Prim2SF _ Hz) as [s Hs].
    apply sub_not_nan in Hn. destruct Hn as [Ht _].
    apply not_nan_Prim2SF in Ht.
    rewrite FloatAxioms.eqb_spec, !sub_spec, Hs.
    change (Prim2SF 0%float) with (S754_zero false).
    unfold SF64sub, SFsub, SFeqb.
    destruct (Prim2SF t) as [st | st | | st mt et]; try congruence.
    + destruct st, s; reflexivity.
    + destruct st; reflexivity.
    + rewrite SFcompare_refl by discriminate. reflexivity.
  - apply eqb_refl_not_nan.
Qed.

Lemma plain_create_invoice_stores (date_ : date) (person_name : string)
  (lines : list line) (collection_amount : float) (notes : string) (d : db) :
  PrimFloat.is_nan
    (PlainLedger.due_of (Ledger.lines_total lines) collection_amount) = false ->
  forallb (fun il => line_storable il d) (enumerate 1 lines) = true ->
  PlainLedger.create_invoice date_ person_name lines collection_amount notes d
  = (LedgerPlan.plain_saved_db date_ person_name lines collection_amount notes d,
     inr (last_id (invoices d) + 1)%Z).
Proof.
  intros HD Hl.
  destruct (sub_not_nan _ _ HD) as [HT HC]. apply float_or0_not_nan in HC.
  unfold PlainLedger.create_invoice, with_conn, insert_invoice.
  unfold bind at 1 2 3 4. unfold not_null. rewrite HT, HC, HD. unfold ret at 1 2 3.
  unfold tbl_insert. cbv beta iota zeta.
  unfold bind at 1. rewrite plain_lines_loop_stores by exact Hl.
  unfold bind at 1. unfold LedgerPlan.plain_saved_db, LedgerPlan.plain_legacy_plan.
  destruct (negb (PrimFloat.is_zero collection_amount) && float_ne0 collection_amount).
  - unfold insert_collection, bind, not_null. rewrite HC. unfold ret.
    destruct d; reflexivity.
  - unfold ret. destruct d; reflexivity.
Qed.

(** C10, as the code has it.  The earlier [create_invoice] makes no
    reconciliation check: whatever the collection amount, provided every
    line that is stored names an existing item and the due it derives is
    a number, it saves the invoice, and the row it appends stores the
    line total, the collection amount as given and
    [due_amount = total_amount - (collection_amount or 0)], which is
    [total_amount - collection_amount] up to the sign of a zero
    ([due_amount == total_amount - collection_amount]). *)
Theorem plain_create_invoice_saves (date_ : date) (person_name : string)
  (lines : list line) (collection_amount : float) (notes : string) (d : db) :
  lines_reference_items lines d ->
  PrimFloat.is_nan
    (Ledger.lines_total lines - float_or0 collection_amount)%float = false ->
  exists d' inv r,
    PlainLedger.create_invoice date_ person_name lines collection_amount notes d
    = (d', inr inv)
    /\ rows (invoices d') = (rows (invoices d) ++ [r])%list
    /\ inv_id r = inv
    /\ inv_total_amount r = Ledger.lines_total lines
    /\ inv_collection_amount r = collection_amount
    /\ inv_due_amount r
       = (inv_total_amount r - float_or0 (inv_collection_amount r))%float
    /\ (inv_due_amount r =? inv_total_amount r - inv_collection_amount r)%float
       = true.
Proof.
  intros Href HD.
  destruct (sub_not_nan _ _ HD) as [HT _].
  eexists _, _, _. split.
  - apply plain_create_invoice_stores; [exact HD|].
    apply lines_total_storable; assumption.
  - cbn [LedgerPlan.plain_saved_db invoices]. rewrite tbl_insert_all_rows.
    repeat split; try reflexivity.
    cbn [inv_due_amount inv_total_amount inv_collection_amount].
    apply sub_float_or0_eqb. exact HD.
Qed.

Lemma plain_create_invoice_saves_witness :
  exists d' inv r,
    PlainLedger.create_invoice sample_date "Bob" [sample_line "A" 10 2]
      75 "" sample_db
    = (d', inr inv)
    /\ rows (invoices d') = (rows (invoices sample_db) ++ [r])%list
    /\ inv_id r = inv
    /\ inv_total_amount r = Ledger.lines_total [sample_line "A" 10 2]
    /\ inv_collection_amount r = 75%float
    /\ inv_due_amount r
       = (inv_total_amount r - float_or0 (inv_collection_amount r))%float
    /\ (inv_due_amount r =? inv_total_amount r - inv_collection_amount r)%float
       = true.
Proof.
  apply (plain_create_invoice_saves sample_date "Bob" [sample_line "A" 10 2]
           75 "" sample_db).
  - repeat constructor.
  - reflexivity.
Defined.

(** C10 as stated fails twice over.  Against a total of 1.7 a collection
    of 0.4 is saved with a due of 1.2999999999999998, and the stored
    [collection_amount + due_amount] is not the stored [total_amount];
    and a line naming an item that the master table does not know is
    refused by the foreign key, nothing being saved. *)
Lemma plain_create_invoice_inexact_and_refusing :
  (exists d' r,
      PlainLedger.create_invoice sample_date "Bob" [sample_line "A" 1.7 1]
        0.4 "" sample_db
      = (d', inr 1%Z)
      /\ rows (invoices d') = [r]
      /\ inv_total_amount r = 1.7%float
      /\ inv_collection_amount r = 0.4%float
      /\ inv_due_amount r = 1.2999999999999998%float
      /\ (inv_collection_amount r + inv_due_amount r =? inv_total_amount r)%float
         = false)
  /\ PlainLedger.create_invoice sample_date "Bob" [sample_line "B" 10 2]
       20 "" sample_db
     = (sample_db, inl (IntegrityError "FOREIGN KEY constraint failed")).
Proof.
  split.
  - eexists _, _. split; [vm_compute; reflexivity|].
    repeat split; reflexivity.
  - vm_compute. reflexivity.
Qed.

(** ** Schema evolution *)

Section SchemaFacts.

Import Schema SchemaSpec.

Lemma same_name_refl (n : string) : same_name n n = true.
Proof. apply String.eqb_refl. Qed.

Lemma find_table_app_some (n : string) (c l : catalog) (t : sql_table) :
  find_table n c = Some t -> find_table n (c ++ l)%list = Some t.
Proof.
  induction c as [|t0 c IH]; simpl; [discriminate|].
  destruct (same_name (t_name t0) n); auto.
Qed.

Lemma find_table_app_none (n : string) (c l : catalog) :
  find_table n c = None -> find_table n (c ++ l)%list = find_table n l.
Proof.
  induction c as [|t0 c IH]; simpl; [reflexivity|].
  destruct (same_name (t_name t0) n); [discriminate | auto].
Qed.

Lemma has_table_app (c l : catalog) (n : string) :
  has_table c n = true -> has_table (c ++ l)%list n = true.
Proof.
  unfold has_table. destruct (find_table n c) as [t|] eqn:E; [|discriminate].
  rewrite (find_table_app_some _ _ l _ E). reflexivity.
Qed.

Lemma create_fixed (n : string) (cols : list column) (c : catalog) :
  has_table c n = true -> create_table_if_not_exists n cols c = c.
Proof.
  unfold has_table, create_table_if_not_exists.
  destruct (find_table n c); [reflexivity | discriminate].
Qed.

Lemma table_has_column_app (c l : catalog) (n k : string) :
  has_table c n = true ->
  table_has_column (c ++ l)%list n k = table_has_column c n k.
Proof.
  unfold has_table, table_has_column, table_info.
  destruct (find_table n c) as [t|] eqn:E; [|discriminate].
  rewrite (find_table_app_some _ _ l _ E). reflexivity.
Qed.

Lemma init_db_schema_create_all (c : catalog) :
  init_db_schema c = create_all base_tables c.
Proof. reflexivity. Qed.

Lemma create_all_spec (specs : list (string * list column)) (c : catalog) :
  exists added,
    create_all specs c = (c ++ added)%list
    /\ (forall s, In s specs -> has_table (c ++ added)%list (fst s) = true)
    /\ Forall (created_from specs c) added.
Proof.
  revert c. induction specs as [|s specs IH]; intros c; simpl.
  - exists []. rewrite app_nil_r. repeat split; [contradiction | constructor].
  - unfold create_table_if_not_exists at 1.
    destruct (find_table (fst s) c) as [t|] eqn:E.
    + destruct (IH c) as (added & Heq & Hhas & Hnew).
      exists added. split; [exact Heq|]. split.
      * intros s' [<-|Hin]; [|apply Hhas; exact Hin].
        apply has_table_app. unfold has_table. rewrite E. reflexivity.
      * eapply Forall_impl; [|exact Hnew].
        intros t' (s' & Hin & Ht & Hno). exists s'. simpl. auto.
    + destruct (IH (c ++ [mk_sql_table (fst s) (snd s) []])%list)
        as (added & Heq & Hhas & Hnew).
      exists (mk_sql_table (fst s) (snd s) [] :: added).
      change (create_all specs (c ++ [mk_sql_table (fst s) (snd s) []])%list
              = (c ++ mk_sql_table (fst s) (snd s) [] :: added)%list
              /\ (forall s',
                     s = s' \/ In s' specs ->
                     has_table (c ++ mk_sql_table (fst s) (snd s) [] :: added)%list
                       (fst s') = true)
              /\ Forall (created_from (s :: specs) c)
                   (mk_sql_table (fst s) (snd s) [] :: added)).
      rewrite Heq, <- app_assoc. simpl. split; [reflexivity|]. split.
      * intros s' [<-|Hin].
        -- unfold has_table. rewrite find_table_app_none by exact E.
           simpl. rewrite same_name_refl. reflexivity.
        -- specialize (Hhas s' Hin). rewrite <- app_assoc in Hhas. exact Hhas.
      * constructor.
        -- exists s. unfold has_table. rewrite E. simpl. auto.
        -- eapply Forall_impl; [|exact Hnew].
           intros t' (s' & Hin & Ht & Hno). exists s'. simpl.
           repeat split; auto.
           unfold has_table in *.
           destruct (find_table (fst s') c) as [t0|] eqn:E'; [|reflexivity].
           rewrite (find_table_app_some _ _ _ _ E') in Hno. discriminate.
Qed.

Lemma alter_first_app (n : string) (f : sql_table -> sql_table) (c l : catalog) :
  has_table c n = true ->
  alter_first n f (c ++ l)%list = (alter_first n f c ++ l)%list.
Proof.
  unfold has_table. induction c as [|t0 c IH]; simpl; [discriminate|].
  destruct (same_name (t_name t0) n); [reflexivity|].
  intros H. rewrite IH by exact H. reflexivity.
Qed.

Lemma has_table_alter_first (n m : string) (f : sql_table -> sql_table)
  (c : catalog) :
  (forall t, t_name (f t) = t_name t) ->
  has_table (alter_first n f c) m = has_table c m.
Proof.
  intros Hf. unfold has_table. induction c as [|t0 c IH]; simpl; [reflexivity|].
  destruct (same_name (t_name t0) n) eqn:E; simpl.
  - rewrite Hf. destruct (same_name (t_name t0) m); reflexivity.
  - destruct (same_name (t_name t0) m); [reflexivity | exact IH].
Qed.

Lemma find_table_alter_first_same (n : string) (f : sql_table -> sql_table)
  (c : catalog) (t : sql_table) :
  (forall t, t_name (f t) = t_name t) ->
  find_table n c = Some t ->
  find_table n (alter_first n f c) = Some (f t).
Proof.
  intros Hf. induction c as [|t0 c IH]; simpl; [discriminate|].
  destruct (same_name (t_name t0) n) eqn:E; simpl.
  - rewrite Hf, E. congruence.
  - rewrite E. exact IH.
Qed.

Lemma alter_first_Forall2 (n : string) (f : sql_table -> sql_table)
  (c : catalog) :
  Forall2 (fun t t' => t' = t \/ (same_name (t_name t) n = true /\ t' = f t))
    c (alter_first n f c).
Proof.
  induction c as [|t0 c IH]; simpl; [constructor|].
  destruct (same_name (t_name t0) n) eqn:E.
  - constructor; [right; auto|].
    clear. induction c; constructor; auto.
  - constructor; [left; reflexivity | exact IH].
Qed.

Lemma forallb_alter_first (P : sql_table -> bool) (n : string)
  (f : sql_table -> sql_table) (c : catalog) (t : sql_table) :
  find_table n c = Some t ->
  forallb P c = true -> (P t = true -> P (f t) = true) ->
  forallb P (alter_first n f c) = true.
Proof.
  induction c as [|t0 c IH]; simpl; [discriminate|].
  destruct (same_name (t_name t0) n); simpl.
  - intros [= ->] H Hf. apply andb_true_iff in H. destruct H as [Ht H].
    rewrite (Hf Ht). exact H.
  - intros Hfind H Hf. apply andb_true_iff in H. destruct H as [-> H].
    simpl. auto.
Qed.

Lemma distinct_names_snoc (names : list string) (n : string) :
  distinct_names (names ++ [n])%list
  = distinct_names names && negb (existsb (fun x => same_name x n) names).
Proof.
  induction names as [|x names IH]; simpl; [reflexivity|].
  rewrite existsb_app, IH. simpl. rewrite orb_false_r.
  destruct (existsb (same_name x) names), (same_name x n),
    (distinct_names names), (existsb (fun x0 => same_name x0 n) names);
    reflexivity.
Qed.

Lemma find_table_In (n : string) (c : catalog) (t : sql_table) :
  find_table n c = Some t -> In t c /\ same_name (t_name t) n = true.
Proof.
  induction c as [|t0 c IH]; simpl; [discriminate|].
  destruct (same_name (t_name t0) n) eqn:E.
  - intros [= ->]. auto.
  - intros H. destruct (IH H). auto.
Qed.

Lemma existsb_map {A B : Type} (f : A -> B) (p : B -> bool) (xs : list A) :
  existsb p (map f xs) = existsb (fun x => p (f x)) xs.
Proof.
  induction xs as [|x xs IH]; simpl; [reflexivity|]. rewrite IH. reflexivity.
Qed.

Lemma add_column_distinct (k : column) (dflt : cell) (t : sql_table) :
  existsb (fun k' => same_name (col_name k') (col_name k)) (t_columns t) = false ->
  distinct_columns t = true ->
  distinct_columns (add_column k dflt t) = true.
Proof.
  unfold distinct_columns, add_column. simpl. intros Hdup Ht.
  rewrite map_app. simpl. rewrite distinct_names_snoc, Ht, existsb_map, Hdup.
  reflexivity.
Qed.

Lemma add_column_has_column (k : column) (dflt : cell) (t : sql_table) :
  col_generated k = false ->
  existsb (fun k' => String.eqb (col_name k') (col_name k))
    (filter (fun k' => negb (col_generated k')) (t_columns (add_column k dflt t)))
  = true.
Proof.
  intros Hk. unfold add_column. simpl.
  rewrite filter_app, existsb_app. simpl. rewrite Hk. simpl.
  rewrite String.eqb_refl. simpl. apply orb_true_r.
Qed.

(** A freshly created [invoice_lines] has the [highlight] column. *)
Lemma created_invoice_lines (c added : catalog) (t : sql_table) :
  Forall (created_from base_tables c) added ->
  find_table "invoice_lines" added = Some t ->
  t_columns t = invoice_lines_columns.
Proof.
  intros Hnew Hfind. apply find_table_In in Hfind. destruct Hfind as [Hin Hname].
  rewrite Forall_forall in Hnew. destruct (Hnew _ Hin) as (s & Hs & -> & _).
  simpl in Hs, Hname.
  repeat (destruct Hs as [<-|Hs]; [first [discriminate Hname | reflexivity]|]).
  contradiction.
Qed.

Lemma created_distinct (c added : catalog) :
  Forall (created_from base_tables c) added ->
  forallb distinct_columns added = true.
Proof.
  intros Hnew. apply forallb_forall. intros t Hin.
  rewrite Forall_forall in Hnew. destruct (Hnew _ Hin) as (s & Hs & -> & _).
  simpl in Hs.
  repeat (destruct Hs as [<-|Hs]; [reflexivity|]). contradiction.
Qed.

Lemma kept_or_highlighted_preserved (c : catalog) (t t' : sql_table) :
  kept_or_highlighted c t t' -> preserved t t'.
Proof.
  intros [-> | (_ & _ & ->)]; unfold preserved.
  - split; [reflexivity|]. split; [exists []; symmetry; apply app_nil_r|].
    induction (t_rows t) as [|r rs IH]; constructor; [|exact IH].
    exists []. symmetry. apply app_nil_r.
  - split; [reflexivity|]. split; [eexists; reflexivity|]. simpl.
    induction (t_rows t) as [|r rs IH]; constructor; [|exact IH].
    eexists. reflexivity.
Qed.

Lemma Forall2_refl_left {A : Type} (R : A -> A -> Prop) (xs : list A) :
  (forall x, R x x) -> Forall2 R xs xs.
Proof. intros H. induction xs; constructor; auto. Qed.

(** What one successful start-up does to the catalog. *)
Lemma ensure_schema_structure (c c1 : catalog) :
  ensure_schema c = inr c1 ->
  exists kept added,
    c1 = (kept ++ added)%list
    /\ Forall2 (kept_or_highlighted c) c kept
    /\ Forall (created_from base_tables c) added
    /\ (forall s, In s base_tables -> has_table c1 (fst s) = true)
    /\ table_has_column c1 "invoice_lines" "highlight" = true
    /\ (forallb distinct_columns c = true -> forallb distinct_columns kept = true).
Proof.
  unfold ensure_schema, migrate_db. rewrite init_db_schema_create_all.
  destruct (create_all_spec base_tables c) as (added & Heq & Hhas & Hnew).
  rewrite Heq.
  assert (Hic : has_table (c ++ added)%list "invoice_collections" = true)
    by (apply (Hhas ("invoice_collections", invoice_collections_columns));
        simpl; tauto).
  assert (Hid : has_table (c ++ added)%list "invoice_dues" = true)
    by (apply (Hhas ("invoice_dues", invoice_dues_columns)); simpl; tauto).
  assert (Hil : has_table (c ++ added)%list "invoice_lines" = true)
    by (apply (Hhas ("invoice_lines", invoice_lines_columns)); simpl; tauto).
  destruct (table_has_column (c ++ added)%list "invoice_lines" "highlight")
    eqn:Hcol; simpl.
  - rewrite (create_fixed "invoice_collections") by exact Hic.
    rewrite (create_fixed "invoice_dues") by exact Hid.
    intros [= <-]. exists c, added. repeat split; auto.
    apply Forall2_refl_left. intros t. left. reflexivity.
  - unfold alter_table_add_column.
    destruct (find_table "invoice_lines" (c ++ added)%list) as [t|] eqn:Ef;
      [|unfold has_table in Hil; rewrite Ef in Hil; discriminate].
    destruct (existsb _ (t_columns t)) eqn:Edup; [discriminate|].
    assert (Hname : forall t0, t_name (add_column highlight_column (CInt 0) t0)
                               = t_name t0) by reflexivity.
    rewrite (create_fixed "invoice_collections")
      by (rewrite has_table_alter_first by exact Hname; exact Hic).
    rewrite (create_fixed "invoice_dues")
      by (rewrite has_table_alter_first by exact Hname; exact Hid).
    intros [= <-].
    destruct (find_table "invoice_lines" c) as [t0|] eqn:Ec.
    + assert (Hc : has_table c "invoice_lines" = true)
        by (unfold has_table; rewrite Ec; reflexivity).
      assert (t0 = t)
        by (rewrite (find_table_app_some _ _ added _ Ec) in Ef; congruence).
      subst t0.
      rewrite table_has_column_app in Hcol by exact Hc.
      exists (alter_first "invoice_lines" (add_column highlight_column (CInt 0)) c),
        added.
      split; [apply alter_first_app; exact Hc|]. split.
      { eapply Forall2_impl; [|apply alter_first_Forall2].
        intros a b [->|[Ha ->]]; [left; reflexivity|right; auto]. }
      split; [exact Hnew|]. split.
      { intros s Hs. rewrite has_table_alter_first by exact Hname. auto. }
      split.
      { unfold table_has_column, table_info.
        rewrite (find_table_alter_first_same _ _ _ _ Hname Ef).
        apply (add_column_has_column highlight_column). reflexivity. }
      { intros Hd. apply (forallb_alter_first _ _ _ _ _ Ec Hd).
        apply add_column_distinct. exact Edup. }
    + rewrite find_table_app_none in Ef by exact Ec.
      pose proof (created_invoice_lines _ _ _ Hnew Ef) as Hcols.
      unfold table_has_column, table_info in Hcol.
      rewrite find_table_app_none in Hcol by exact Ec.
      rewrite Ef, Hcols in Hcol. discriminate Hcol.
Qed.

Lemma ensure_schema_fixed (c : catalog) :
  (forall s, In s base_tables -> has_table c (fst s) = true) ->
  table_has_column c "invoice_lines" "highlight" = true ->
  ensure_schema c = inr c.
Proof.
  intros Hhas Hcol. unfold ensure_schema, init_db_schema.
  rewrite (create_fixed "items")
    by (apply (Hhas ("items", items_columns)); simpl; tauto).
  rewrite (create_fixed "inventory_movements")
    by (apply (Hhas ("inventory_movements", inventory_movements_columns));
        simpl; tauto).
  rewrite (create_fixed "invoices")
    by (apply (Hhas ("invoices", invoices_columns)); simpl; tauto).
  rewrite (create_fixed "invoice_lines")
    by (apply (Hhas ("invoice_lines", invoice_lines_columns)); simpl; tauto).
  rewrite (create_fixed "invoice_collections")
    by (apply (Hhas ("invoice_collections", invoice_collections_columns));
        simpl; tauto).
  rewrite (create_fixed "invoice_dues")
    by (apply (Hhas ("invoice_dues", invoice_dues_columns)); simpl; tauto).
  rewrite (create_fixed "collections")
    by (apply (Hhas ("collections", collections_columns)); simpl; tauto).
  unfold migrate_db. rewrite Hcol. simpl.
  rewrite (create_fixed "invoice_collections")
    by (apply (Hhas ("invoice_collections", invoice_collections_columns));
        simpl; tauto).
  rewrite (create_fixed "invoice_dues")
    by (apply (Hhas ("invoice_dues", invoice_dues_columns)); simpl; tauto).
  reflexivity.
Qed.

(** C3.  Once the schema set-up and migration routine ([init_db_schema]
    followed by [migrate_db]) has run on a database, running it any
    number of times [N >= 1] succeeds and yields the same catalog as
    running it once.  The routine is additive: every table that was there
    keeps its place and name, its columns and its rows, with at most the
    [highlight] column appended to [invoice_lines] when
    [table_has_column] did not find it, every existing row then reading
    the default [0]; what else the catalog holds afterwards are tables
    created for want of one of that name.  Tables without duplicate
    column names are left without duplicate column names. *)
Theorem ensure_schema_idempotent_additive (c c1 : catalog) :
  ensure_schema c = inr c1 ->
  (forall n : nat, (1 <= n)%nat -> ensure_schema_times n c = inr c1)
  /\ (exists kept added,
         c1 = (kept ++ added)%list
         /\ Forall2 (kept_or_highlighted c) c kept
         /\ Forall2 preserved c kept
         /\ Forall (created_from base_tables c) added)
  /\ (forallb distinct_columns c = true -> forallb distinct_columns c1 = true).
Proof.
  intros H.
  destruct (ensure_schema_structure _ _ H)
    as (kept & added & Hc1 & Hkept & Hnew & Hhas & Hcol & Hdist).
  pose proof (ensure_schema_fixed c1 Hhas Hcol) as Hfix.
  split; [|split].
  - intros n Hn. destruct n as [|n]; [inversion Hn|]. clear Hn.
    simpl. rewrite H. induction n as [|n IH]; simpl; [reflexivity|].
    rewrite Hfix. exact IH.
  - exists kept, added. repeat split; auto.
    eapply Forall2_impl; [|exact Hkept].
    intros a b. apply kept_or_highlighted_preserved.
  - intros Hd. subst c1. rewrite forallb_app, (Hdist Hd).
    apply (created_distinct c). exact Hnew.
Qed.

Lemma ensure_schema_idempotent_additive_witness :
  exists c1,
    ensure_schema old_catalog = inr c1
    /\ table_has_column old_catalog "invoice_lines" "highlight" = false
    /\ table_has_column c1 "invoice_lines" "highlight" = true
    /\ (forall n : nat, (1 <= n)%nat -> ensure_schema_times n old_catalog = inr c1)
    /\ (exists kept added,
           c1 = (kept ++ added)%list
           /\ Forall2 (kept_or_highlighted old_catalog) old_catalog kept
           /\ Forall2 preserved old_catalog kept
           /\ Forall (created_from base_tables old_catalog) added)
    /\ (forallb distinct_columns old_catalog = true ->
        forallb distinct_columns c1 = true).
Proof.
  eexists. split; [vm_compute; reflexivity|].
  split; [reflexivity|]. split; [reflexivity|].
  apply (ensure_schema_idempotent_additive old_catalog). vm_compute. reflexivity.
Defined.

End SchemaFacts.

(** ** Further properties of the ledger *)

(** A loop whose failing body always raises the same exception raises it
    as soon as one entry cannot be stored. *)
Section LoopErrors.

Context {R A : Type}.
Variable get : db -> table R.
Variable set : table R -> db -> db.
Variable body : A -> stmt unit.
Variable plan : A -> list (Z -> R).
Variable storable : A -> db -> bool.
Variable err : exn.

Hypothesis storable_set : forall x t d, storable x (set t d) = storable x d.
Hypothesis body_stores :
  forall x d,
    storable x d = true ->
    body x d = inr (tt, set (tbl_insert_all (plan x) (get d)) d).
Hypothesis body_raises : forall x d, storable x d = false -> body x d = inl err.

Lemma for_each_raises (xs : list A) (d : db) :
  forallb (fun x => storable x d) xs = false -> for_each body xs d = inl err.
Proof.
  revert d. induction xs as [|x xs IH]; intros d H; simpl in *; [discriminate|].
  unfold bind. destruct (storable x d) eqn:Hx.
  - rewrite (body_stores _ _ Hx). apply IH.
    rewrite <- H. simpl. apply forallb_eq. intros y. apply storable_set.
  - rewrite (body_raises _ _ Hx). reflexivity.
Qed.

End LoopErrors.

Lemma store_line_known (inv : Z) (il : Z * line) (d : db) :
  PrimFloat.is_nan (get_float_or0 (l_unit_price (snd il))) = false ->
  PrimFloat.is_nan (get_float_or0 (l_qty (snd il))) = false ->
  line_storable il d = names_known_item il d.
Proof.
  unfold line_storable, names_known_item. intros -> ->. reflexivity.
Qed.

Lemma lines_total_numbers (lines : list line) (start : Z) :
  PrimFloat.is_nan (Ledger.lines_total lines) = false ->
  Forall
    (fun il =>
       PrimFloat.is_nan (get_float_or0 (l_unit_price (snd il))) = false
       /\ PrimFloat.is_nan (get_float_or0 (l_qty (snd il))) = false)
    (enumerate start lines).
Proof.
  unfold Ledger.lines_total. intros H. apply py_sum_not_nan in H.
  revert start. induction lines as [|l lines IH]; intros start; simpl.
  - constructor.
  - inversion H as [|x xs Hx Hxs]; subst. constructor; [|apply IH; exact Hxs].
    apply mul_not_nan in Hx. destruct Hx as [Hup Hq]. simpl.
    split; apply get_float_or0_not_nan; assumption.
Qed.

Lemma forallb_eq_in {A : Type} (f g : A -> bool) (xs : list A) :
  Forall (fun x => f x = g x) xs -> forallb f xs = forallb g xs.
Proof.
  induction 1 as [|x xs Hx _ IH]; simpl; [reflexivity|]. rewrite Hx, IH.
  reflexivity.
Qed.

Lemma lines_storable_known (lines : list line) (start : Z) (d : db) :
  PrimFloat.is_nan (Ledger.lines_total lines) = false ->
  forallb (fun il => line_storable il d) (enumerate start lines)
  = forallb (fun il => names_known_item il d) (enumerate start lines).
Proof.
  intros H. apply forallb_eq_in.
  eapply Forall_impl; [|apply lines_total_numbers; exact H].
  intros il [Hup Hq]. apply store_line_known; assumption.
Qed.

Lemma known_items_enumerate (lines : list line) (start : Z) (d : db) :
  forallb (fun il => names_known_item il d) (enumerate start lines)
  = forallb
      (fun l => negb (truthy_str (l_item l)) || item_exists (get_str (l_item l)) d)
      lines.
Proof.
  revert start. induction lines as [|l lines IH]; intros start; simpl;
    [reflexivity|].
  rewrite IH. reflexivity.
Qed.

Lemma lines_loop_raises_fk (inv : Z) (ils : list (Z * line)) (d : db) :
  Forall
    (fun il =>
       PrimFloat.is_nan (get_float_or0 (l_unit_price (snd il))) = false
       /\ PrimFloat.is_nan (get_float_or0 (l_qty (snd il))) = false) ils ->
  forallb (fun il => names_known_item il d) ils = false ->
  for_each (Ledger.store_line inv) ils d = inl foreign_key_failed.
Proof.
  intros Hnum. revert d.
  induction Hnum as [|il ils [Hup Hq] _ IH]; intros d H; simpl in *;
    [discriminate|].
  unfold bind. destruct (names_known_item il d) eqn:Hk.
  - rewrite store_line_stores
      by (rewrite store_line_known by assumption; exact Hk).
    apply IH. exact H.
  - unfold names_known_item in Hk. apply orb_false_iff in Hk.
    destruct Hk as [Ht Hitem]. apply negb_false_iff in Ht.
    unfold Ledger.store_line. destruct il as [i l]. simpl in *.
    rewrite Ht. simpl. unfold insert_invoice_line. run_stmt.
    rewrite Hup; simpl. rewrite Hq; simpl. rewrite Hitem. reflexivity.
Qed.

(** X1.  When [create_invoice] raises.  Once the figures reconcile, the one
    thing that can stop the writes is a line with a non-empty item the
    master table does not hold: the call then raises the foreign-key
    [IntegrityError] and the transaction is rolled back, whichever lines,
    collections and dues came before.  Conversely an exception leaves
    [create_invoice] only in that case. *)
Theorem create_invoice_raises_iff_unknown_item (date_ : date)
  (person_name : string) (lines : list line) (colls : list collection_entry)
  (dues : list due_entry) (notes : string) (d d' : db) (e : exn) :
  Ledger.create_invoice date_ person_name lines colls dues notes d = (d', inl e)
  <->
  Ledger.reconciles (Ledger.lines_total lines) (Ledger.collections_total colls)
    (Ledger.dues_total dues) = true
  /\ forallb
       (fun l => negb (truthy_str (l_item l))
                 || item_exists (get_str (l_item l)) d) lines = false
  /\ d' = d
  /\ e = IntegrityError "FOREIGN KEY constraint failed".
Proof.
  destruct (Ledger.reconciles (Ledger.lines_total lines)
              (Ledger.collections_total colls) (Ledger.dues_total dues)) eqn:Hrec.
  - destruct (reconciles_not_nan _ _ _ Hrec) as (HT & HC & HD).
    rewrite <- (known_items_enumerate lines 1 d).
    destruct (forallb (fun il => names_known_item il d) (enumerate 1 lines)) eqn:Hk.
    + rewrite create_invoice_stores
        by (try rewrite lines_storable_known by exact HT; assumption).
      split; [discriminate | intros (_ & H & _); discriminate].
    + assert (Hraise :
                Ledger.create_invoice date_ person_name lines colls dues notes d
                = (d, inl foreign_key_failed)).
      { unfold Ledger.create_invoice. rewrite Hrec. simpl negb. cbv iota.
        unfold with_conn, Ledger.create_invoice_body, insert_invoice.
        unfold bind at 1 2 3 4. unfold not_null. rewrite HT, HC, HD.
        unfold ret at 1 2 3. unfold tbl_insert. cbv beta iota zeta.
        unfold bind at 1.
        rewrite lines_loop_raises_fk;
          [reflexivity | apply lines_total_numbers; exact HT | exact Hk]. }
      rewrite Hraise. unfold foreign_key_failed. split.
      * intros [= <- <-]. auto.
      * intros (_ & _ & -> & ->). reflexivity.
  - rewrite (create_invoice_refuses _ _ _ _ _ _ _ Hrec).
    split; [discriminate | intros (H & _); discriminate].
Qed.

Lemma create_invoice_raises_iff_unknown_item_witness :
  Ledger.create_invoice sample_date "Bob"
    [sample_line "A" 10 1; sample_line "B" 10 1] [paid "Cash" 20] [] ""
    sample_db
  = (sample_db, inl (IntegrityError "FOREIGN KEY constraint failed")).
Proof.
  apply (proj2 (create_invoice_raises_iff_unknown_item sample_date "Bob"
                  [sample_line "A" 10 1; sample_line "B" 10 1] [paid "Cash" 20]
                  [] "" sample_db sample_db
                  (IntegrityError "FOREIGN KEY constraint failed"))).
  repeat split; reflexivity.
Defined.

(** X2.  An invoice without lines, collections or dues is accepted: the
    figures are all zero and reconcile, so whatever the database holds,
    [create_invoice] saves an empty invoice row and nothing else, not
    even the daily aggregate. *)
Theorem create_invoice_accepts_empty_invoice (date_ : date)
  (person_name notes : string) (d : db) :
  exists d',
    Ledger.create_invoice date_ person_name [] [] [] notes d
    = (d', inr (true,
                "Invoice #" ++ str_of_Z (last_id (invoices d) + 1) ++ " saved.",
                (last_id (invoices d) + 1)%Z))
    /\ rows (invoices d')
       = (rows (invoices d)
          ++ [mk_invoice_row (last_id (invoices d) + 1) (isoformat date_)
                (strip person_name) 0 0 0 notes])%list
    /\ rows (invoice_lines d') = rows (invoice_lines d)
    /\ rows (invoice_collections d') = rows (invoice_collections d)
    /\ rows (invoice_dues d') = rows (invoice_dues d)
    /\ rows (collections d') = rows (collections d)
    /\ items d' = items d
    /\ inventory_movements d' = inventory_movements d.
Proof.
  eexists. split.
  - apply create_invoice_saves; [reflexivity | constructor].
  - repeat split; reflexivity.
Qed.

(** *** Ids *)

Lemma number_from_ids {R : Type} (id : R -> Z) (mks : list (Z -> R)) (start : Z) :
  Forall (fun mk => forall i, id (mk i) = i) mks ->
  map id (number_from start mks)
  = map fst (enumerate start mks).
Proof.
  intros H. revert start. induction H as [|mk mks Hmk _ IH]; intros start.
  - reflexivity.
  - unfold number_from in *. simpl. rewrite Hmk, IH. reflexivity.
Qed.

Lemma enumerate_fst_bounds {A : Type} (xs : list A) (start : Z) :
  NoDup (map fst (enumerate start xs))
  /\ Forall (fun i => (start <= i < start + Z.of_nat (List.length xs))%Z)
       (map fst (enumerate start xs)).
Proof.
  revert start. induction xs as [|x xs IH]; intros start; simpl.
  - split; constructor.
  - destruct (IH (start + 1)%Z) as [Hnd Hb]. split.
    + constructor; [|exact Hnd].
      intros Hin. rewrite Forall_forall in Hb. specialize (Hb _ Hin). lia.
    + constructor; [lia|].
      eapply Forall_impl; [|exact Hb]. intros i Hi. simpl in Hi. lia.
Qed.

(** Appending rows that take the ids they are offered keeps the ids of a
    table distinct and within the sequence. *)
Lemma tbl_insert_all_ids {R : Type} (id : R -> Z) (mks : list (Z -> R))
  (t : table R) :
  Forall (fun mk => forall i, id (mk i) = i) mks ->
  ids_in_sequence id t -> ids_in_sequence id (tbl_insert_all mks t).
Proof.
  intros Hmk [Hnd Hb]. unfold ids_in_sequence.
  destruct (tbl_insert_all_spec mks t) as [Hr Hl]. rewrite Hr, Hl.
  pose proof (number_from_ids id mks (last_id t + 1) Hmk) as Hids.
  destruct (enumerate_fst_bounds mks (last_id t + 1)) as [Hnd' Hb'].
  rewrite map_app, Hids. split.
  - apply NoDup_app; [exact Hnd | exact Hnd' |].
    intros i Hin Hin'. rewrite Forall_forall in Hb'. specialize (Hb' _ Hin').
    apply in_map_iff in Hin. destruct Hin as (r & <- & Hr').
    rewrite Forall_forall in Hb. specialize (Hb _ Hr'). lia.
  - apply Forall_app. split.
    + eapply Forall_impl; [|exact Hb]. intros r Hr'. simpl in Hr'. lia.
    + apply Forall_forall. intros r Hin.
      assert (Hi : In (id r) (map id (number_from (last_id t + 1) mks)))
        by (apply in_map; exact Hin).
      rewrite Hids in Hi. rewrite Forall_forall in Hb'. specialize (Hb' _ Hi). lia.
Qed.

Lemma Forall_flat_map_all {A B : Type} (P : B -> Prop) (f : A -> list B)
  (xs : list A) :
  (forall x, Forall P (f x)) -> Forall P (flat_map f xs).
Proof.
  intros H. induction xs as [|x xs IH]; simpl; [constructor|].
  apply Forall_app. auto.
Qed.

(** [create_invoice] either saves, leaving the planned database, or
    leaves the database as it found it. *)
Lemma create_invoice_cases (date_ : date) (person_name : string)
  (lines : list line) (colls : list collection_entry) (dues : list due_entry)
  (notes : string) (d : db) :
  (Ledger.reconciles (Ledger.lines_total lines) (Ledger.collections_total colls)
     (Ledger.dues_total dues) = true
   /\ Ledger.create_invoice date_ person_name lines colls dues notes d
      = (LedgerPlan.saved_db date_ person_name lines colls dues notes d,
         inr (true,
              "Invoice #" ++ str_of_Z (last_id (invoices d) + 1) ++ " saved.",
              (last_id (invoices d) + 1)%Z)))
  \/ (exists out,
        Ledger.create_invoice date_ person_name lines colls dues notes d = (d, out)
        /\ forall msg inv, out <> inr (true, msg, inv)).
Proof.
  destruct (Ledger.reconciles (Ledger.lines_total lines)
              (Ledger.collections_total colls) (Ledger.dues_total dues)) eqn:Hrec.
  - destruct (forallb (fun il => line_storable il d) (enumerate 1 lines)) eqn:Hl.
    + left. split; [reflexivity|]. apply create_invoice_stores; assumption.
    + right.
      destruct (create_invoice_raises date_ person_name _ colls dues notes _ Hrec Hl)
        as [e He].
      eexists. split; [exact He | discriminate].
  - right. eexists. split; [apply create_invoice_refuses; exact Hrec | discriminate].
Qed.

Lemma saved_db_ids (date_ : date) (person_name : string) (lines : list line)
  (colls : list collection_entry) (dues : list due_entry) (notes : string)
  (d : db) :
  ids_consistent d ->
  ids_consistent (LedgerPlan.saved_db date_ person_name lines colls dues notes d).
Proof.
  intros (Hi & Hl & Hc & Hd & Ha & Hm).
  unfold ids_consistent, LedgerPlan.saved_db.
  cbn [invoices invoice_lines invoice_collections invoice_dues collections
       inventory_movements].
  refine (conj _ (conj _ (conj _ (conj _ (conj _ Hm)))));
    apply tbl_insert_all_ids; try assumption.
  - repeat constructor.
  - apply Forall_flat_map_all. intros il. unfold LedgerPlan.line_plan.
    destruct (truthy_str _); repeat constructor.
  - apply Forall_flat_map_all. intros c. unfold LedgerPlan.collection_plan.
    destruct (_ <=? _)%float; repeat constructor.
  - apply Forall_flat_map_all. intros du. unfold LedgerPlan.due_plan.
    destruct (_ <=? _)%float; repeat constructor.
  - unfold LedgerPlan.legacy_plan. destruct (float_ne0 _); repeat constructor.
Qed.

(** X3.  Ids stay in sequence through [create_invoice], whatever its outcome,
    and the id of a saved invoice is new: larger than the id of every
    invoice in the table and than every id the table handed out before,
    those of deleted invoices included. *)
Theorem create_invoice_keeps_ids_in_sequence (date_ : date)
  (person_name : string) (lines : list line) (colls : list collection_entry)
  (dues : list due_entry) (notes : string) (d d' : db)
  (out : exn + (bool * string * Z)) :
  ids_consistent d ->
  Ledger.create_invoice date_ person_name lines colls dues notes d = (d', out) ->
  ids_consistent d'
  /\ forall msg inv,
       out = inr (true, msg, inv) ->
       (last_id (invoices d) < inv)%Z
       /\ last_id (invoices d') = inv
       /\ Forall (fun r => (inv_id r < inv)%Z) (rows (invoices d))
       /\ In inv (map inv_id (rows (invoices d'))).
Proof.
  intros Hids H.
  destruct (create_invoice_cases date_ person_name lines colls dues notes d)
    as [[_ Hs] | (out' & Hs & Hno)]; rewrite Hs in H; inversion H; subst.
  - split; [apply saved_db_ids; exact Hids|].
    intros msg inv [= <- <-]. split; [lia|]. split; [reflexivity|]. split.
    + destruct Hids as ((_ & Hb) & _).
      eapply Forall_impl; [|exact Hb]. intros r Hr. simpl in Hr. lia.
    + rewrite saved_db_invoice_rows, map_app. apply in_or_app. right.
      left. reflexivity.
  - split; [exact Hids|]. intros msg inv E. elim (Hno _ _ E).
Qed.

Lemma create_invoice_keeps_ids_in_sequence_witness :
  ids_consistent
    (fst (Ledger.create_invoice sample_date "Bob" [sample_line "A" 10 2]
            [paid "Cash" 20] [] "" sample_db))
  /\ forall msg inv,
       snd (Ledger.create_invoice sample_date "Bob" [sample_line "A" 10 2]
              [paid "Cash" 20] [] "" sample_db) = inr (true, msg, inv) ->
       (last_id (invoices sample_db) < inv)%Z
       /\ last_id
            (invoices
               (fst (Ledger.create_invoice sample_date "Bob"
                       [sample_line "A" 10 2] [paid "Cash" 20] [] "" sample_db)))
          = inv
       /\ Forall (fun r => (inv_id r < inv)%Z) (rows (invoices sample_db))
       /\ In inv
            (map inv_id
               (rows
                  (invoices
                     (fst (Ledger.create_invoice sample_date "Bob"
                             [sample_line "A" 10 2] [paid "Cash" 20] [] ""
                             sample_db))))).
Proof.
  apply (create_invoice_keeps_ids_in_sequence sample_date "Bob"
           [sample_line "A" 10 2] [paid "Cash" 20] [] "" sample_db).
  - unfold ids_consistent, ids_in_sequence. simpl. repeat split; constructor.
  - reflexivity.
Defined.

(** *** Referential integrity and amounts *)

Lemma Forall_of_map {A B F : Type} (g : A -> F) (f : B -> F) (P : F -> Prop)
  (xs : list A) (ys : list B) :
  map g xs = map f ys -> Forall (fun y => P (f y)) ys ->
  Forall (fun x => P (g x)) xs.
Proof.
  revert ys. induction xs as [|x xs IH]; intros ys Hmap Hys; [constructor|].
  destruct ys as [|y ys]; [discriminate|]. simpl in Hmap.
  inversion Hmap as [[Hx Hxs]]. inversion Hys; subst.
  constructor; [rewrite Hx; assumption | eapply IH; eassumption].
Qed.

Lemma Forall_filter_holds {A : Type} (f : A -> bool) (xs : list A) :
  Forall (fun x => f x = true) (filter f xs).
Proof. apply Forall_forall. intros x Hx. apply filter_In in Hx. tauto. Qed.

Lemma coerce_method_cash_or_upi (m : option string) :
  Ledger.coerce_method m = "Cash" \/ Ledger.coerce_method m = "UPI".
Proof.
  pose proof (coerce_method_in_enum m) as H. apply orb_true_iff in H.
  destruct H as [H | H]; apply String.eqb_eq in H; auto.
Qed.

(** X4.  Every child row belongs to an invoice, and [create_invoice] keeps it
    so: the rows it appends carry the id of the invoice row it has just
    inserted. *)
Theorem create_invoice_keeps_children_with_invoice (date_ : date)
  (person_name : string) (lines : list line) (colls : list collection_entry)
  (dues : list due_entry) (notes : string) (d d' : db)
  (out : exn + (bool * string * Z)) :
  children_have_invoice d ->
  Ledger.create_invoice date_ person_name lines colls dues notes d = (d', out) ->
  children_have_invoice d'.
Proof.
  intros Hch H.
  destruct (create_invoice_cases date_ person_name lines colls dues notes d)
    as [[Hrec Hs] | (out' & Hs & Hno)]; rewrite Hs in H; inversion H; subst;
    [|exact Hch].
  destruct (saved_db_child_rows date_ person_name lines colls dues notes d Hrec)
    as (nl & nc & nd & Hl & Hlf & Hc & Hcf & Hd & Hdf).
  destruct Hch as (Hcl & Hcc & Hcd).
  unfold children_have_invoice. rewrite saved_db_invoice_rows, Hl, Hc, Hd.
  rewrite map_app. simpl map.
  assert (Hold : forall i, In i (map inv_id (rows (invoices d))) ->
                           In i (map inv_id (rows (invoices d))
                                 ++ [(last_id (invoices d) + 1)%Z])%list)
    by (intros i Hi; apply in_or_app; left; exact Hi).
  assert (Hnew : In (last_id (invoices d) + 1)%Z
                   (map inv_id (rows (invoices d))
                    ++ [(last_id (invoices d) + 1)%Z])%list)
    by (apply in_or_app; right; left; reflexivity).
  repeat split; apply Forall_app; split;
    try (eapply Forall_impl; [|eassumption]; intros r Hr; apply Hold; exact Hr).
  - apply (Forall_of_map line_fields _
             (fun f => In (fst (fst (fst (fst (fst (fst f))))))
                         (map inv_id (rows (invoices d))
                          ++ [(last_id (invoices d) + 1)%Z])%list) _ _ Hlf).
    apply Forall_forall. intros il _. exact Hnew.
  - apply (Forall_of_map collection_fields _
             (fun f => In (fst (fst f))
                         (map inv_id (rows (invoices d))
                          ++ [(last_id (invoices d) + 1)%Z])%list) _ _ Hcf).
    apply Forall_forall. intros c _. exact Hnew.
  - apply (Forall_of_map due_fields _
             (fun f => In (fst (fst f))
                         (map inv_id (rows (invoices d))
                          ++ [(last_id (invoices d) + 1)%Z])%list) _ _ Hdf).
    apply Forall_forall. intros du _. exact Hnew.
Qed.

Lemma create_invoice_keeps_children_with_invoice_witness :
  children_have_invoice
    (fst (Ledger.create_invoice sample_date "Bob" [sample_line "A" 10 2]
            [paid "Cash" 5] [owed "S1" 15] "" sample_db)).
Proof.
  eapply (create_invoice_keeps_children_with_invoice sample_date "Bob"
            [sample_line "A" 10 2] [paid "Cash" 5] [owed "S1" 15] "" sample_db).
  - unfold children_have_invoice. simpl. repeat split; constructor.
  - reflexivity.
Defined.

(** X5.  No table constraint asks for it, yet every row [create_invoice]
    stores in [invoice_collections] has a positive amount and the method
    ["Cash"] or ["UPI"], and every row it stores in [invoice_dues] a
    positive amount; a database of which this is true stays so. *)
Theorem create_invoice_keeps_amounts_positive (date_ : date)
  (person_name : string) (lines : list line) (colls : list collection_entry)
  (dues : list due_entry) (notes : string) (d d' : db)
  (out : exn + (bool * string * Z)) :
  amounts_positive d ->
  Ledger.create_invoice date_ person_name lines colls dues notes d = (d', out) ->
  amounts_positive d'.
Proof.
  intros Hpos H.
  destruct (create_invoice_cases date_ person_name lines colls dues notes d)
    as [[Hrec Hs] | (out' & Hs & Hno)]; rewrite Hs in H; inversion H; subst;
    [|exact Hpos].
  destruct (saved_db_child_rows date_ person_name lines colls dues notes d Hrec)
    as (nl & nc & nd & _ & _ & Hc & Hcf & Hd & Hdf).
  destruct Hpos as (Hpc & Hpd).
  unfold amounts_positive. rewrite Hc, Hd. split; apply Forall_app; split;
    try assumption.
  - apply (Forall_of_map collection_fields _
             (fun f => positive (snd f) = true
                       /\ (snd (fst f) = "Cash" \/ snd (fst f) = "UPI")) _ _ Hcf).
    simpl. apply Forall_forall. intros c Hin. apply filter_In in Hin.
    split; [tauto | apply coerce_method_cash_or_upi].
  - apply (Forall_of_map due_fields _ (fun f => positive (snd f) = true) _ _ Hdf).
    simpl. apply Forall_forall. intros du Hin. apply filter_In in Hin. tauto.
Qed.

Lemma create_invoice_keeps_amounts_positive_witness :
  amounts_positive
    (fst (Ledger.create_invoice sample_date "Bob" [sample_line "A" 10 2]
            [paid "Card" 5; paid "UPI" 0] [owed "S1" 15; owed "S2" (-1)%float;
             owed "S3" 1] "" sample_db)).
Proof.
  eapply (create_invoice_keeps_amounts_positive sample_date "Bob"
            [sample_line "A" 10 2] [paid "Card" 5; paid "UPI" 0]
            [owed "S1" 15; owed "S2" (-1)%float; owed "S3" 1] "" sample_db).
  - unfold amounts_positive. simpl. split; constructor.
  - reflexivity.
Defined.

Lemma filter_all {A : Type} (f : A -> bool) (xs : list A) :
  forallb f xs = true -> filter f xs = xs.
Proof.
  induction xs as [|x xs IH]; simpl; [reflexivity|].
  intros H. apply andb_true_iff in H. destruct H as [Hx Hxs].
  rewrite Hx, (IH Hxs). reflexivity.
Qed.

Lemma saved_db_agrees_with_child_rows (date_ : date) (person_name : string)
  (lines : list line) (colls : list collection_entry) (dues : list due_entry)
  (notes : string) (d : db) :
  forallb (fun c => positive (get_float (c_amount c))) colls = true ->
  forallb (fun du => positive (get_float (d_amount du))) dues = true ->
  Ledger.reconciles (Ledger.lines_total lines) (Ledger.collections_total colls)
    (Ledger.dues_total dues) = true ->
  let d' := LedgerPlan.saved_db date_ person_name lines colls dues notes d in
  exists r new_colls new_dues,
    rows (invoices d') = (rows (invoices d) ++ [r])%list
    /\ rows (invoice_collections d')
       = (rows (invoice_collections d) ++ new_colls)%list
    /\ rows (invoice_dues d') = (rows (invoice_dues d) ++ new_dues)%list
    /\ inv_collection_amount r = py_sum (map ic_amount new_colls)
    /\ inv_due_amount r = py_sum (map idue_amount new_dues)
    /\ (PrimFloat.abs
          (inv_total_amount r
           - (py_sum (map ic_amount new_colls) + py_sum (map idue_amount new_dues)))
        <? 0.005)%float = true.
Proof.
  intros Hc Hd Hrec d'.
  destruct (saved_db_child_rows date_ person_name lines colls dues notes d Hrec)
    as (nl & nc & nd & _ & _ & Hcr & Hcf & Hdr & Hdf).
  rewrite (filter_all _ _ Hc) in Hcf. rewrite (filter_all _ _ Hd) in Hdf.
  assert (Hca : map ic_amount nc = map (fun c => get_float (c_amount c)) colls).
  { transitivity (map snd (map collection_fields nc)).
    - rewrite map_map. reflexivity.
    - rewrite Hcf, map_map. reflexivity. }
  assert (Hda : map idue_amount nd = map (fun du => get_float (d_amount du)) dues).
  { transitivity (map snd (map due_fields nd)).
    - rewrite map_map. reflexivity.
    - rewrite Hdf, map_map. reflexivity. }
  eexists _, nc, nd. unfold d'. rewrite saved_db_invoice_rows.
  split; [reflexivity|]. split; [exact Hcr|]. split; [exact Hdr|].
  rewrite Hca, Hda. cbn [inv_collection_amount inv_due_amount inv_total_amount].
  repeat split. exact Hrec.
Qed.

(** X6.  When every submitted amount is positive, a saved invoice agrees with
    its child rows: [collection_amount] is the sum of the amounts of the
    collection rows stored for it, [due_amount] the sum of the amounts of
    its due rows, and the stored total is within 0.005 of the two sums
    together. *)
Theorem saved_invoice_agrees_with_child_rows (date_ : date)
  (person_name : string) (lines : list line) (colls : list collection_entry)
  (dues : list due_entry) (notes : string) (d d' : db) (msg : string) (inv : Z) :
  forallb (fun c => positive (get_float (c_amount c))) colls = true ->
  forallb (fun du => positive (get_float (d_amount du))) dues = true ->
  Ledger.create_invoice date_ person_name lines colls dues notes d
  = (d', inr (true, msg, inv)) ->
  exists r new_colls new_dues,
    rows (invoices d') = (rows (invoices d) ++ [r])%list
    /\ rows (invoice_collections d')
       = (rows (invoice_collections d) ++ new_colls)%list
    /\ rows (invoice_dues d') = (rows (invoice_dues d) ++ new_dues)%list
    /\ inv_collection_amount r = py_sum (map ic_amount new_colls)
    /\ inv_due_amount r = py_sum (map idue_amount new_dues)
    /\ (PrimFloat.abs
          (inv_total_amount r
           - (py_sum (map ic_amount new_colls) + py_sum (map idue_amount new_dues)))
        <? 0.005)%float = true.
Proof.
  intros Hc Hd H. apply create_invoice_saved in H.
  destruct H as (Hrec & _ & _ & ->).
  apply saved_db_agrees_with_child_rows; assumption.
Qed.

Lemma saved_invoice_agrees_with_child_rows_witness :
  exists r new_colls new_dues,
    rows (invoices
            (fst (Ledger.create_invoice sample_date "Bob" [sample_line "A" 10 2]
                    [paid "Cash" 5; paid "UPI" 7] [owed "S1" 8] "" sample_db)))
    = (rows (invoices sample_db) ++ [r])%list
    /\ rows (invoice_collections
               (fst (Ledger.create_invoice sample_date "Bob"
                       [sample_line "A" 10 2] [paid "Cash" 5; paid "UPI" 7]
                       [owed "S1" 8] "" sample_db)))
       = (rows (invoice_collections sample_db) ++ new_colls)%list
    /\ rows (invoice_dues
               (fst (Ledger.create_invoice sample_date "Bob"
                       [sample_line "A" 10 2] [paid "Cash" 5; paid "UPI" 7]
                       [owed "S1" 8] "" sample_db)))
       = (rows (invoice_dues sample_db) ++ new_dues)%list
    /\ inv_collection_amount r = py_sum (map ic_amount new_colls)
    /\ inv_due_amount r = py_sum (map idue_amount new_dues)
    /\ (PrimFloat.abs
          (inv_total_amount r
           - (py_sum (map ic_amount new_colls) + py_sum (map idue_amount new_dues)))
        <? 0.005)%float = true.
Proof.
  exact (saved_invoice_agrees_with_child_rows sample_date "Bob"
           [sample_line "A" 10 2] [paid "Cash" 5; paid "UPI" 7] [owed "S1" 8] ""
           sample_db _ _ _ eq_refl eq_refl eq_refl).
Defined.

(** *** Inventory movements, all or nothing *)

Lemma store_movement_raises_fk (date_ : date) (r : movement_entry) (d : db) :
  movement_storable r d = false ->
  Ledger.store_movement date_ r d = inl foreign_key_failed.
Proof.
  unfold movement_storable, Ledger.store_movement.
  destruct (truthy_str (m_item r)); simpl; intros H; [|discriminate].
  unfold insert_inventory_movement. run_stmt. rewrite H. reflexivity.
Qed.

(** X7.  [add_inventory_movement] stores all the entries or none.  If every
    entry with a non-empty item names an item of the master table, one
    row per such entry is appended; if a single one does not, the call
    raises the foreign-key [IntegrityError] and the database is left as
    it was, the entries before the offending one included. *)
Theorem add_inventory_movement_all_or_nothing (date_ : date)
  (rows_ : list movement_entry) (d : db) :
  if forallb
       (fun r => negb (truthy_str (m_item r))
                 || item_exists (get_str (m_item r)) d) rows_
  then
    exists d',
      Ledger.add_inventory_movement date_ rows_ d = (d', inr tt)
      /\ List.length (rows (inventory_movements d'))
         = (List.length (rows (inventory_movements d))
            + List.length (filter (fun r => truthy_str (m_item r)) rows_))%nat
      /\ items d' = items d
      /\ invoices d' = invoices d
      /\ invoice_lines d' = invoice_lines d
  else
    Ledger.add_inventory_movement date_ rows_ d
    = (d, inl (IntegrityError "FOREIGN KEY constraint failed")).
Proof.
  change (fun r => negb (truthy_str (m_item r))
                   || item_exists (get_str (m_item r)) d)
    with (fun r => movement_storable r d).
  destruct (forallb (fun r => movement_storable r d) rows_) eqn:H.
  - unfold Ledger.add_inventory_movement, with_conn.
    rewrite movements_loop_stores by exact H.
    eexists. split; [reflexivity|].
    cbn [inventory_movements set_inventory_movements items invoices invoice_lines].
    rewrite tbl_insert_all_rows, length_app. repeat split.
    f_equal.
    rewrite <- (length_map movement_fields), movement_plan_fields, length_map.
    reflexivity.
  - unfold Ledger.add_inventory_movement, with_conn.
    rewrite (for_each_raises inventory_movements set_inventory_movements
               (Ledger.store_movement date_) (LedgerPlan.movement_plan date_)
               movement_storable foreign_key_failed); try reflexivity;
      try exact H.
    + intros; apply store_movement_stores; assumption.
    + intros; apply store_movement_raises_fk; assumption.
Qed.

(** *** The earlier ledger's rows *)

Lemma plain_create_invoice_returned (date_ : date) (person_name : string)
  (lines : list line) (collection_amount : float) (notes : string) (d d' : db)
  (inv : Z) :
  PlainLedger.create_invoice date_ person_name lines collection_amount notes d
  = (d', inr inv) ->
  inv = (last_id (invoices d) + 1)%Z
  /\ d' = LedgerPlan.plain_saved_db date_ person_name lines collection_amount
            notes d.
Proof.
  intros H.
  destruct (PrimFloat.is_nan
              (PlainLedger.due_of (Ledger.lines_total lines) collection_amount))
    eqn:HD.
  - exfalso. revert H.
    unfold PlainLedger.create_invoice, with_conn, insert_invoice.
    unfold bind at 1 2 3 4. unfold not_null.
    destruct (PrimFloat.is_nan (Ledger.lines_total lines));
      [unfold raise; discriminate|].
    destruct (PrimFloat.is_nan collection_amount); [unfold raise; discriminate|].
    rewrite HD. unfold raise; discriminate.
  - destruct (forallb (fun il => line_storable il d) (enumerate 1 lines)) eqn:Hl.
    + rewrite (plain_create_invoice_stores _ _ _ _ _ _ HD Hl) in H.
      inversion H; subst. auto.
    + exfalso. revert H.
      destruct (sub_not_nan _ _ HD) as [HT HC]. apply float_or0_not_nan in HC.
      unfold PlainLedger.create_invoice, with_conn, insert_invoice.
      unfold bind at 1 2 3 4. unfold not_null. rewrite HT, HC, HD.
      unfold ret at 1 2 3. unfold tbl_insert. cbv beta iota zeta.
      unfold bind at 1.
      match goal with
      | |- context [for_each (PlainLedger.store_line ?i) ?l ?d1] =>
          destruct (for_each (PlainLedger.store_line i) l d1) as [e | [u d2]] eqn:E
      end; [discriminate|].
      apply plain_lines_loop_stored in E. destruct E as [E _].
      pose proof (eq_trans (eq_sym E) Hl) as X. discriminate X.
Qed.

(** X8.  What the earlier [create_invoice] leaves when it returns: one line
    row per submitted line with a non-empty item, numbered by its place
    in the submitted list, with [highlight] at its default 0; no rows in
    [invoice_collections] or [invoice_dues]; and the daily aggregate row
    exactly when the collection amount is not zero.  A negative
    collection amount is taken as it is. *)
Theorem plain_create_invoice_rows (date_ : date) (person_name : string)
  (lines : list line) (collection_amount : float) (notes : string) (d d' : db)
  (inv : Z) :
  PlainLedger.create_invoice date_ person_name lines collection_amount notes d
  = (d', inr inv) ->
  (exists new_lines,
      rows (invoice_lines d') = (rows (invoice_lines d) ++ new_lines)%list
      /\ map line_fields new_lines
         = map
             (fun il =>
                (inv, fst il, get_str (l_item (snd il)),
                 get_float_or0 (l_unit_price (snd il)),
                 get_float_or0 (l_qty (snd il)), get_str (l_units (snd il)), 0%Z))
             (filter (fun il => truthy_str (l_item (snd il)))
                (enumerate 1 lines)))
  /\ invoice_collections d' = invoice_collections d
  /\ invoice_dues d' = invoice_dues d
  /\ rows (collections d')
     = (rows (collections d)
        ++ (if (collection_amount =? 0)%float then []
            else [mk_collection_row (last_id (collections d) + 1)
                    (isoformat date_) collection_amount
                    ("Invoice #" ++ str_of_Z inv ++ " - " ++ person_name)]))%list.
Proof.
  intros H. apply plain_create_invoice_returned in H. destruct H as [-> ->].
  unfold LedgerPlan.plain_saved_db.
  cbn [invoice_lines invoice_collections invoice_dues collections].
  rewrite !tbl_insert_all_rows. split; [|split; [|split]]; try reflexivity.
  - eexists. split; [reflexivity|]. apply plain_line_plan_fields.
  - unfold LedgerPlan.plain_legacy_plan, float_ne0, PrimFloat.is_zero.
    change PrimFloat.zero with 0%float.
    destruct (collection_amount =? 0)%float; reflexivity.
Qed.

Lemma plain_create_invoice_rows_witness :
  (exists new_lines,
      rows (invoice_lines
              (fst (PlainLedger.create_invoice sample_date "Bob"
                      [sample_line "" 1 1; sample_line "A" 10 2] (-5)%float ""
                      sample_db)))
      = (rows (invoice_lines sample_db) ++ new_lines)%list
      /\ map line_fields new_lines
         = [(1%Z, 2%Z, "A", 10%float, 2%float, "UNITS", 0%Z)])
  /\ invoice_collections
       (fst (PlainLedger.create_invoice sample_date "Bob"
               [sample_line "" 1 1; sample_line "A" 10 2] (-5)%float ""
               sample_db))
     = invoice_collections sample_db
  /\ invoice_dues
       (fst (PlainLedger.create_invoice sample_date "Bob"
               [sample_line "" 1 1; sample_line "A" 10 2] (-5)%float ""
               sample_db))
     = invoice_dues sample_db
  /\ rows (collections
             (fst (PlainLedger.create_invoice sample_date "Bob"
                     [sample_line "" 1 1; sample_line "A" 10 2] (-5)%float ""
                     sample_db)))
     = [mk_collection_row 1 "2025-09-28" (-5)%float "Invoice #1 - Bob"].
Proof.
  exact (plain_create_invoice_rows sample_date "Bob"
           [sample_line "" 1 1; sample_line "A" 10 2] (-5)%float "" sample_db
           _ _ eq_refl).
Defined.

(** *** The Save-Invoice handler *)

Lemma rstrip_idem (s : string) : rstrip (rstrip s) = rstrip s.
Proof.
  induction s as [|c s IH]; simpl; [reflexivity|].
  destruct (rstrip s) as [|c' t] eqn:E.
  - destruct (is_space c) eqn:Hc; simpl; [reflexivity|]. rewrite Hc. reflexivity.
  - simpl in *. rewrite IH. reflexivity.
Qed.

Lemma lstrip_fixed (s : string) :
  match s with
  | EmptyString => True
  | String c _ => is_space c = false
  end ->
  lstrip s = s.
Proof. destruct s as [|c s]; simpl; [reflexivity|]. intros ->. reflexivity. Qed.

Lemma lstrip_head (s : string) :
  match lstrip s with
  | EmptyString => True
  | String c _ => is_space c = false
  end.
Proof.
  induction s as [|c s IH]; simpl; [exact I|].
  destruct (is_space c) eqn:Hc; [exact IH | exact Hc].
Qed.

Lemma rstrip_head (s : string) :
  match s with
  | EmptyString => True
  | String c _ => is_space c = false
  end ->
  match rstrip s with
  | EmptyString => True
  | String c _ => is_space c = false
  end.
Proof.
  destruct s as [|c s]; simpl; [trivial|]. intros Hc.
  destruct (rstrip s); [rewrite Hc|]; exact Hc.
Qed.

(** Trimming a trimmed string changes nothing. *)
Lemma strip_idem (s : string) : strip (strip s) = strip s.
Proof.
  unfold strip.
  rewrite (lstrip_fixed (rstrip (lstrip s))).
  - apply rstrip_idem.
  - apply rstrip_head. apply lstrip_head.
Qed.

Lemma get_float_or0_stable (v : option float) :
  get_float_or0 (Some (get_float_or0 v)) = get_float_or0 v.
Proof.
  destruct v as [x|]; simpl; [|reflexivity].
  destruct (PrimFloat.is_zero x) eqn:Hz; simpl; [reflexivity|].
  rewrite Hz. reflexivity.
Qed.

(** What the handler hands to [create_invoice]. *)
Lemma prepared_lines_kept (edited : list line) :
  Forall
    (fun l =>
       truthy_str (l_item l) = true
       /\ strip (get_str (l_item l)) = get_str (l_item l)
       /\ (get_float (l_qty l) =? 0)%float = false
       /\ get_float_or0 (l_unit_price l) = get_float (l_unit_price l)
       /\ get_float_or0 (l_qty l) = get_float (l_qty l))
    (Billing.prepare_lines edited).
Proof.
  unfold Billing.prepare_lines. apply Forall_flat_map_all. intros r.
  destruct (truthy_str (Some (strip (get_str (l_item r))))) eqn:Ht;
    cbn [negb orb]; [|constructor].
  destruct (get_float_or0 (l_qty r) =? 0)%float eqn:Hq; constructor;
    [|constructor].
  cbn [l_item l_qty l_unit_price get_float get_str].
  repeat split; auto using strip_idem, get_float_or0_stable.
Qed.

Lemma prepared_collections_kept (coll_df : list collection_entry) :
  Forall
    (fun c =>
       (get_float (c_amount c) <=? 0)%float = false
       /\ c_method c = Some (Ledger.coerce_method (c_method c)))
    (Billing.prepare_collections coll_df).
Proof.
  unfold Billing.prepare_collections. apply Forall_flat_map_all. intros r.
  destruct (get_float_or0 (c_amount r) <=? 0)%float eqn:Ha; constructor;
    [|constructor].
  cbn [c_amount c_method get_float]. split; [exact Ha|].
  rewrite coerce_method_idem. reflexivity.
Qed.

Lemma prepared_dues_kept (dues_df : list due_cells) :
  Forall
    (fun du =>
       (get_float (d_amount du) <=? 0)%float = false
       /\ truthy_str (Some (d_shop_no du)) = true
       /\ strip (d_shop_no du) = d_shop_no du)
    (Billing.prepare_dues dues_df).
Proof.
  unfold Billing.prepare_dues. apply Forall_flat_map_all. intros r.
  destruct (get_float_or0 (dc_amount r) <=? 0)%float eqn:Ha;
    cbn [orb]; [constructor|].
  destruct (truthy_str (Some (strip (get_str (dc_shop_no r))))) eqn:Hs;
    cbn [negb]; constructor; [|constructor].
  cbn [d_amount d_shop_no get_float]. auto using strip_idem.
Qed.

Lemma save_invoice_success (bill_date : date) (person_name notes : string)
  (edited : list line) (coll_df : list collection_entry)
  (dues_df : list due_cells) (d d' : db) (msg : string) (inv : Z) :
  Billing.save_invoice bill_date person_name notes edited coll_df dues_df d
  = (d', inr (Billing.ShowSuccess msg inv)) ->
  truthy_str (Some (strip person_name)) = true
  /\ Ledger.create_invoice bill_date person_name (Billing.prepare_lines edited)
       (Billing.prepare_collections coll_df) (Billing.prepare_dues dues_df)
       notes d
     = (d', inr (true, msg, inv)).
Proof.
  unfold Billing.save_invoice.
  destruct (truthy_str (Some (strip person_name))); simpl; [|discriminate].
  destruct (Ledger.create_invoice _ _ _ _ _ _ d) as [d1 [e | [[ok m] i]]];
    [discriminate|].
  destruct ok; simpl; [|discriminate]. intros [= <- <- <-]. auto.
Qed.

(** X9.  The handler writes only when it reports success: a blank person
    name, figures that do not reconcile and an exception out of
    [create_invoice] all leave the database as it was. *)
Theorem save_invoice_writes_only_on_success (bill_date : date)
  (person_name notes : string) (edited : list line)
  (coll_df : list collection_entry) (dues_df : list due_cells) (d d' : db)
  (out : exn + Billing.shown) :
  Billing.save_invoice bill_date person_name notes edited coll_df dues_df d
  = (d', out) ->
  (forall msg inv, out <> inr (Billing.ShowSuccess msg inv)) ->
  d' = d.
Proof.
  unfold Billing.save_invoice.
  destruct (truthy_str (Some (strip person_name))); simpl;
    [|intros [= <- <-]; reflexivity].
  destruct (create_invoice_cases bill_date person_name
              (Billing.prepare_lines edited)
              (Billing.prepare_collections coll_df)
              (Billing.prepare_dues dues_df) notes d)
    as [[_ Hs] | (o & Hs & _)]; rewrite Hs.
  - simpl. intros [= <- <-] Hno. elim (Hno _ _ eq_refl).
  - destruct o as [e | [[ok m] i]]; [intros [= <- <-]; reflexivity|].
    destruct ok; simpl; intros [= <- <-]; reflexivity.
Qed.

Lemma save_invoice_writes_only_on_success_witness :
  fst (Billing.save_invoice sample_date "   " "" [sample_line "A" 10 2]
         [paid "Cash" 20] [] sample_db)
  = sample_db.
Proof.
  eapply (save_invoice_writes_only_on_success sample_date "   " ""
            [sample_line "A" 10 2] [paid "Cash" 20] [] sample_db).
  - reflexivity.
  - discriminate.
Defined.

Lemma Forall_enumerate {A : Type} (P : A -> Prop) (xs : list A) (start : Z) :
  Forall P xs -> Forall (fun ix => P (snd ix)) (enumerate start xs).
Proof.
  intros H. revert start. induction H; intros start; simpl; constructor; auto.
Qed.

Lemma enumerate_length {A : Type} (xs : list A) (start : Z) :
  List.length (enumerate start xs) = List.length xs.
Proof.
  revert start. induction xs as [|x xs IH]; intros start; simpl; auto.
Qed.

Lemma enumerate_numbers {A : Type} (xs : list A) (n : nat) :
  map fst (enumerate (Z.of_nat n) xs) = map Z.of_nat (seq n (List.length xs)).
Proof.
  revert n. induction xs as [|x xs IH]; intros n; simpl; [reflexivity|].
  f_equal. rewrite <- IH. do 2 f_equal. lia.
Qed.

Lemma map_eq_in {A B : Type} (f g : A -> B) (xs : list A) :
  Forall (fun x => f x = g x) xs -> map f xs = map g xs.
Proof.
  induction 1 as [|x xs Hx _ IH]; simpl; [reflexivity|]. rewrite Hx, IH.
  reflexivity.
Qed.

Lemma prepared_amounts_positive {A : Type} (amount : A -> option float)
  (xs : list A) :
  PrimFloat.is_nan (py_sum (map (fun x => get_float (amount x)) xs)) = false ->
  Forall (fun x => (get_float (amount x) <=? 0)%float = false) xs ->
  forallb (fun x => positive (get_float (amount x))) xs = true.
Proof.
  intros Hn Hk. apply py_sum_not_nan in Hn. apply forallb_forall. intros x Hin.
  rewrite Forall_forall in Hk. specialize (Hk _ Hin).
  rewrite Forall_forall in Hn.
  assert (Hx : PrimFloat.is_nan (get_float (amount x)) = false)
    by (apply Hn; apply in_map_iff; exists x; auto).
  rewrite <- (not_leb_zero_positive _ Hx), Hk. reflexivity.
Qed.

(** X10.  An invoice saved through the handler stores what the handler
    prepared, entry for entry: every prepared line as a row, numbered
    1, 2, ... without gaps, each with a non-empty trimmed item and a
    non-zero quantity; every prepared collection; every prepared due,
    each with a non-empty trimmed shop.  [create_invoice] drops none of
    them. *)
Theorem save_invoice_stores_prepared_rows (bill_date : date)
  (person_name notes : string) (edited : list line)
  (coll_df : list collection_entry) (dues_df : list due_cells) (d d' : db)
  (msg : string) (inv : Z) :
  Billing.save_invoice bill_date person_name notes edited coll_df dues_df d
  = (d', inr (Billing.ShowSuccess msg inv)) ->
  exists new_lines new_colls new_dues,
    rows (invoice_lines d') = (rows (invoice_lines d) ++ new_lines)%list
    /\ map line_fields new_lines
       = map
           (fun il =>
              (inv, fst il, get_str (l_item (snd il)),
               get_float (l_unit_price (snd il)), get_float (l_qty (snd il)),
               get_str (l_units (snd il)),
               (if truthy_bool (l_highlight (snd il)) then 1 else 0)%Z))
           (enumerate 1 (Billing.prepare_lines edited))
    /\ map il_line_no new_lines
       = map Z.of_nat (seq 1 (List.length new_lines))
    /\ Forall
         (fun r => il_item r <> "" /\ strip (il_item r) = il_item r
                   /\ (il_qty r =? 0)%float = false) new_lines
    /\ rows (invoice_collections d')
       = (rows (invoice_collections d) ++ new_colls)%list
    /\ map collection_fields new_colls
       = map
           (fun c =>
              (inv, Ledger.coerce_method (c_method c), get_float (c_amount c)))
           (Billing.prepare_collections coll_df)
    /\ rows (invoice_dues d') = (rows (invoice_dues d) ++ new_dues)%list
    /\ map due_fields new_dues
       = map (fun du => (inv, d_shop_no du, get_float (d_amount du)))
           (Billing.prepare_dues dues_df)
    /\ Forall (fun r => idue_shop_no r <> "") new_dues.
Proof.
  intros H. apply save_invoice_success in H. destruct H as [_ H].
  apply create_invoice_saved in H. destruct H as (Hrec & Hinv & _ & ->).
  destruct (reconciles_not_nan _ _ _ Hrec) as (_ & HC & HD).
  destruct (saved_db_child_rows bill_date person_name _ _ _ notes d Hrec)
    as (nl & nc & nd & Hl & Hlf & Hc & Hcf & Hd & Hdf).
  rewrite <- Hinv in Hlf, Hcf, Hdf.
  pose proof (prepared_lines_kept edited) as Hpl.
  pose proof (prepared_collections_kept coll_df) as Hpc.
  pose proof (prepared_dues_kept dues_df) as Hpd.
  rewrite filter_all in Hlf.
  2:{ apply forallb_forall. intros il Hin.
      pose proof (Forall_enumerate _ _ 1 Hpl) as He.
      rewrite Forall_forall in He. apply (He _ Hin). }
  rewrite filter_all in Hcf.
  2:{ apply (prepared_amounts_positive c_amount); [exact HC|].
      eapply Forall_impl; [|exact Hpc]. intros c Hk. apply Hk. }
  rewrite filter_all in Hdf.
  2:{ apply (prepared_amounts_positive d_amount); [exact HD|].
      eapply Forall_impl; [|exact Hpd]. intros du Hk. apply Hk. }
  assert (Hlf' :
            map line_fields nl
            = map
                (fun il =>
                   (inv, fst il, get_str (l_item (snd il)),
                    get_float (l_unit_price (snd il)), get_float (l_qty (snd il)),
                    get_str (l_units (snd il)),
                    (if truthy_bool (l_highlight (snd il)) then 1 else 0)%Z))
                (enumerate 1 (Billing.prepare_lines edited))).
  { rewrite Hlf. apply map_eq_in.
    eapply Forall_impl; [|apply (Forall_enumerate _ _ 1 Hpl)].
    intros il (_ & _ & _ & -> & ->). reflexivity. }
  assert (Hdf' :
            map due_fields nd
            = map (fun du => (inv, d_shop_no du, get_float (d_amount du)))
                (Billing.prepare_dues dues_df)).
  { rewrite Hdf. apply map_eq_in.
    eapply Forall_impl; [|exact Hpd]. intros du (_ & _ & ->). reflexivity. }
  exists nl, nc, nd.
  split; [exact Hl|]. split; [exact Hlf'|]. split; [|split].
  - transitivity (map (fun f => snd (fst (fst (fst (fst (fst f))))))
                    (map line_fields nl)).
    + rewrite map_map. reflexivity.
    + rewrite <- (length_map line_fields nl), Hlf', map_map, length_map.
      cbn [fst snd]. rewrite enumerate_length.
      apply (enumerate_numbers (Billing.prepare_lines edited) 1).
  - apply (Forall_of_map line_fields _
             (fun f =>
                snd (fst (fst (fst (fst f)))) <> ""
                /\ strip (snd (fst (fst (fst (fst f)))))
                   = snd (fst (fst (fst (fst f))))
                /\ (snd (fst (fst f)) =? 0)%float = false) _ _ Hlf').
    cbn [fst snd]. eapply Forall_impl; [|apply (Forall_enumerate _ _ 1 Hpl)].
    intros il (Ht & Hs & Hq & _). repeat split; try assumption.
    destruct (l_item (snd il)) as [s|]; simpl in *; [|discriminate].
    intros ->. discriminate.
  - split; [exact Hc|]. split; [exact Hcf|]. split; [exact Hd|].
    split; [exact Hdf'|].
    apply (Forall_of_map due_fields _ (fun f => snd (fst f) <> "") _ _ Hdf').
    cbn [fst snd]. eapply Forall_impl; [|exact Hpd].
    intros du (_ & Ht & _). simpl in Ht. intros E. rewrite E in Ht. discriminate.
Qed.

Lemma save_invoice_stores_prepared_rows_witness :
  exists new_lines new_colls new_dues,
    rows (invoice_lines
            (fst (Billing.save_invoice sample_date "Bob" ""
                    [sample_line "A" 10 0; sample_line "  " 3 1;
                     sample_line " A " 0 2; sample_line "A" 10 1]
                    [paid "Card" 6; paid "UPI" 0]
                    [mk_due_cells (Some " S1 ") (Some 4%float);
                     mk_due_cells None (Some 9%float)]
                    sample_db)))
    = (rows (invoice_lines sample_db) ++ new_lines)%list
    /\ map line_fields new_lines
       = [(1%Z, 1%Z, "A", 0%float, 2%float, "UNITS", 0%Z);
          (1%Z, 2%Z, "A", 10%float, 1%float, "UNITS", 0%Z)]
    /\ map il_line_no new_lines = map Z.of_nat (seq 1 (List.length new_lines))
    /\ Forall
         (fun r => il_item r <> "" /\ strip (il_item r) = il_item r
                   /\ (il_qty r =? 0)%float = false) new_lines
    /\ rows (invoice_collections
               (fst (Billing.save_invoice sample_date "Bob" ""
                       [sample_line "A" 10 0; sample_line "  " 3 1;
                        sample_line " A " 0 2; sample_line "A" 10 1]
                       [paid "Card" 6; paid "UPI" 0]
                       [mk_due_cells (Some " S1 ") (Some 4%float);
                        mk_due_cells None (Some 9%float)]
                       sample_db)))
       = (rows (invoice_collections sample_db) ++ new_colls)%list
    /\ map collection_fields new_colls = [(1%Z, "Cash", 6%float)]
    /\ rows (invoice_dues
               (fst (Billing.save_invoice sample_date "Bob" ""
                       [sample_line "A" 10 0; sample_line "  " 3 1;
                        sample_line " A " 0 2; sample_line "A" 10 1]
                       [paid "Card" 6; paid "UPI" 0]
                       [mk_due_cells (Some " S1 ") (Some 4%float);
                        mk_due_cells None (Some 9%float)]
                       sample_db)))
       = (rows (invoice_dues sample_db) ++ new_dues)%list
    /\ map due_fields new_dues = [(1%Z, "S1", 4%float)]
    /\ Forall (fun r => idue_shop_no r <> "") new_dues.
Proof.
  exact (save_invoice_stores_prepared_rows sample_date "Bob" ""
           [sample_line "A" 10 0; sample_line "  " 3 1; sample_line " A " 0 2;
            sample_line "A" 10 1]
           [paid "Card" 6; paid "UPI" 0]
           [mk_due_cells (Some " S1 ") (Some 4%float);
            mk_due_cells None (Some 9%float)]
           sample_db _ _ _ eq_refl).
Defined.

(** X11.  Every invoice saved through the handler agrees with its child rows:
    its [collection_amount] is the sum of the amounts of the collection
    rows stored for it, its [due_amount] the sum of the amounts of its due
    rows, and its [total_amount] is within 0.005 of the two sums
    together. *)
Theorem save_invoice_agrees_with_child_rows (bill_date : date)
  (person_name notes : string) (edited : list line)
  (coll_df : list collection_entry) (dues_df : list due_cells) (d d' : db)
  (msg : string) (inv : Z) :
  Billing.save_invoice bill_date person_name notes edited coll_df dues_df d
  = (d', inr (Billing.ShowSuccess msg inv)) ->
  exists r new_colls new_dues,
    rows (invoices d') = (rows (invoices d) ++ [r])%list
    /\ inv_id r = inv
    /\ rows (invoice_collections d')
       = (rows (invoice_collections d) ++ new_colls)%list
    /\ rows (invoice_dues d') = (rows (invoice_dues d) ++ new_dues)%list
    /\ inv_collection_amount r = py_sum (map ic_amount new_colls)
    /\ inv_due_amount r = py_sum (map idue_amount new_dues)
    /\ (PrimFloat.abs
          (inv_total_amount r
           - (py_sum (map ic_amount new_colls) + py_sum (map idue_amount new_dues)))
        <? 0.005)%float = true.
Proof.
  intros H. apply save_invoice_success in H. destruct H as [_ H].
  apply create_invoice_saved in H. destruct H as (Hrec & -> & _ & ->).
  destruct (reconciles_not_nan _ _ _ Hrec) as (_ & HC & HD).
  destruct (saved_db_agrees_with_child_rows bill_date person_name
              (Billing.prepare_lines edited)
              (Billing.prepare_collections coll_df)
              (Billing.prepare_dues dues_df) notes d)
    as (r & nc & nd & Hr & Hc & Hd & Hca & Hda & Hsum).
  - apply (prepared_amounts_positive c_amount); [exact HC|].
    eapply Forall_impl; [|apply prepared_collections_kept]. intros c Hk. apply Hk.
  - apply (prepared_amounts_positive d_amount); [exact HD|].
    eapply Forall_impl; [|apply prepared_dues_kept]. intros du Hk. apply Hk.
  - exact Hrec.
  - exists r, nc, nd. rewrite saved_db_invoice_rows in Hr.
    apply app_inv_head in Hr. inversion Hr; subst r.
    split; [apply saved_db_invoice_rows|]. split; [reflexivity|].
    repeat split; assumption.
Qed.

Lemma save_invoice_agrees_with_child_rows_witness :
  exists r new_colls new_dues,
    rows (invoices
            (fst (Billing.save_invoice sample_date "Bob" ""
                    [sample_line "A" 10 2] [paid "Cash" 5; paid "UPI" (-3)%float]
                    [mk_due_cells (Some "S1") (Some 15%float);
                     mk_due_cells (Some " ") (Some 2%float)] sample_db)))
    = (rows (invoices sample_db) ++ [r])%list
    /\ inv_id r = 1%Z
    /\ rows (invoice_collections
               (fst (Billing.save_invoice sample_date "Bob" ""
                       [sample_line "A" 10 2]
                       [paid "Cash" 5; paid "UPI" (-3)%float]
                       [mk_due_cells (Some "S1") (Some 15%float);
                        mk_due_cells (Some " ") (Some 2%float)] sample_db)))
       = (rows (invoice_collections sample_db) ++ new_colls)%list
    /\ rows (invoice_dues
               (fst (Billing.save_invoice sample_date "Bob" ""
                       [sample_line "A" 10 2]
                       [paid "Cash" 5; paid "UPI" (-3)%float]
                       [mk_due_cells (Some "S1") (Some 15%float);
                        mk_due_cells (Some " ") (Some 2%float)] sample_db)))
       = (rows (invoice_dues sample_db) ++ new_dues)%list
    /\ inv_collection_amount r = py_sum (map ic_amount new_colls)
    /\ inv_due_amount r = py_sum (map idue_amount new_dues)
    /\ (PrimFloat.abs
          (inv_total_amount r
           - (py_sum (map ic_amount new_colls) + py_sum (map idue_amount new_dues)))
        <? 0.005)%float = true.
Proof.
  exact (save_invoice_agrees_with_child_rows sample_date "Bob" ""
           [sample_line "A" 10 2] [paid "Cash" 5; paid "UPI" (-3)%float]
           [mk_due_cells (Some "S1") (Some 15%float);
            mk_due_cells (Some " ") (Some 2%float)] sample_db _ _ _ eq_refl).
Defined.

(** ** Master data *)

Lemma find_upsert_row_same (name : string) (rate : float) (l : list item_row) :
  option_map it_rate
    (find (fun r => String.eqb (it_item r) name) (upsert_row name rate l))
  = Some rate.
Proof.
  induction l as [|r l IH]; simpl.
  - rewrite String.eqb_refl. reflexivity.
  - destruct (String.eqb (it_item r) name) eqn:E; simpl; rewrite E;
      [reflexivity | exact IH].
Qed.

Lemma find_upsert_row_other (name other : string) (rate : float)
  (l : list item_row) :
  other <> name ->
  find (fun r => String.eqb (it_item r) other) (upsert_row name rate l)
  = find (fun r => String.eqb (it_item r) other) l.
Proof.
  intros Hne. induction l as [|r l IH]; simpl.
  - destruct (String.eqb_spec name other); [congruence | reflexivity].
  - destruct (String.eqb_spec (it_item r) name) as [E|E]; simpl.
    + destruct (String.eqb_spec (it_item r) other); [congruence | reflexivity].
    + rewrite IH. reflexivity.
Qed.

Lemma upsert_row_names (name : string) (rate : float) (l : list item_row) :
  map it_item (upsert_row name rate l)
  = if existsb (fun r => String.eqb (it_item r) name) l
    then map it_item l
    else (map it_item l ++ [name])%list.
Proof.
  induction l as [|r l IH]; simpl; [reflexivity|].
  destruct (String.eqb (it_item r) name) eqn:E; simpl; [reflexivity|].
  rewrite IH. destruct (existsb _ l); reflexivity.
Qed.

Lemma existsb_item_In (name : string) (l : list item_row) :
  existsb (fun r => String.eqb (it_item r) name) l = false ->
  ~ In name (map it_item l).
Proof.
  induction l as [|r l IH]; simpl; [tauto|].
  intros H. apply orb_false_iff in H. destruct H as [Hr Hl].
  intros [E | Hin]; [|exact (IH Hl Hin)].
  rewrite E, String.eqb_refl in Hr. discriminate.
Qed.

(** X14.  [upsert_item] with a rate that is a number always succeeds.  The
    master table then holds that rate under the trimmed name; the rate of
    every other name is as before; the rows that were there keep their
    places, and one row is added at the end exactly when the trimmed name
    was not there; names stay unique; no other table is touched. *)
Theorem upsert_item_sets_rate (item : string) (rate : float) (d : db) :
  PrimFloat.is_nan rate = false ->
  exists d',
    upsert_item item rate d = (d', inr tt)
    /\ rate_of (strip item) d' = Some rate
    /\ (forall other, other <> strip item -> rate_of other d' = rate_of other d)
    /\ map it_item (items d')
       = (if item_exists (strip item) d then map it_item (items d)
          else map it_item (items d) ++ [strip item])%list
    /\ (items_unique d -> items_unique d')
    /\ d' = set_items (items d') d.
Proof.
  intros Hn. unfold upsert_item, with_conn, insert_or_update_item.
  run_stmt. rewrite Hn. simpl. eexists. split; [reflexivity|].
  unfold rate_of, items_unique, item_exists. cbn [items set_items].
  split; [apply find_upsert_row_same|]. split.
  - intros other Hne. rewrite find_upsert_row_other by exact Hne. reflexivity.
  - split; [apply upsert_row_names|]. split; [|reflexivity].
    intros Hu. rewrite upsert_row_names.
    destruct (existsb (fun r => String.eqb (it_item r) (strip item)) (items d))
      eqn:E; [exact Hu|].
    apply NoDup_app; [exact Hu | repeat constructor; simpl; tauto |].
    intros x Hin [<-|[]]. exact (existsb_item_In _ _ E Hin).
Qed.

Lemma upsert_item_sets_rate_witness :
  exists d',
    upsert_item " B " 12 sample_db = (d', inr tt)
    /\ rate_of (strip " B ") d' = Some 12%float
    /\ (forall other, other <> strip " B " ->
        rate_of other d' = rate_of other sample_db)
    /\ map it_item (items d')
       = (if item_exists (strip " B ") sample_db
          then map it_item (items sample_db)
          else map it_item (items sample_db) ++ [strip " B "])%list
    /\ (items_unique sample_db -> items_unique d')
    /\ d' = set_items (items d') sample_db.
Proof.
  apply (upsert_item_sets_rate " B " 12 sample_db). reflexivity.
Defined.

Lemma upsert_row_twice (name : string) (r1 r2 : float) (l : list item_row) :
  upsert_row name r2 (upsert_row name r1 l) = upsert_row name r2 l.
Proof.
  induction l as [|r l IH]; simpl.
  - rewrite String.eqb_refl. reflexivity.
  - destruct (String.eqb (it_item r) name) eqn:E; simpl; rewrite E;
      [reflexivity | rewrite IH; reflexivity].
Qed.

Lemma filter_absent_item (name : string) (l : list item_row) :
  ~ In name (map it_item l) ->
  filter (fun r => String.eqb (it_item r) name) l = [].
Proof.
  induction l as [|r l IH]; simpl; [reflexivity|]. intros Hnot.
  destruct (String.eqb_spec (it_item r) name) as [E|E]; [tauto|].
  apply IH. tauto.
Qed.

(** X15.  The last write wins: saving an item twice leaves the database that
    the second save alone would leave, with one row for the name.  In
    particular saving the same rate again changes nothing. *)
Theorem upsert_item_last_write_wins (item : string) (r1 r2 : float) (d : db) :
  PrimFloat.is_nan r1 = false ->
  PrimFloat.is_nan r2 = false ->
  upsert_item item r2 (fst (upsert_item item r1 d)) = upsert_item item r2 d
  /\ upsert_item item r2 (fst (upsert_item item r2 d)) = upsert_item item r2 d
  /\ (items_unique d ->
      List.length
        (filter (fun r => String.eqb (it_item r) (strip item))
           (items (fst (upsert_item item r2 (fst (upsert_item item r1 d))))))
      = 1%nat).
Proof.
  intros H1 H2.
  assert (Hu : forall r, PrimFloat.is_nan r = false ->
                         upsert_item item r d
                         = (set_items (upsert_row (strip item) r (items d)) d,
                            inr tt)).
  { intros r Hr. unfold upsert_item, with_conn, insert_or_update_item.
    run_stmt. rewrite Hr. reflexivity. }
  assert (Htw : forall r, PrimFloat.is_nan r = false ->
                          upsert_item item r2 (fst (upsert_item item r d))
                          = upsert_item item r2 d).
  { intros r Hr. rewrite (Hu r Hr), (Hu r2 H2). cbn [fst].
    unfold upsert_item, with_conn, insert_or_update_item. run_stmt.
    rewrite H2. simpl. rewrite upsert_row_twice. reflexivity. }
  split; [apply Htw; exact H1|]. split; [apply Htw; exact H2|].
  intros Hun. rewrite (Htw r1 H1), (Hu r2 H2). cbn [fst items set_items].
  unfold items_unique in Hun. clear Hu Htw.
  induction (items d) as [|r l IH]; simpl.
  - rewrite String.eqb_refl. reflexivity.
  - inversion Hun as [|x xs Hnotin Hnd]; subst.
    destruct (String.eqb (it_item r) (strip item)) eqn:E; simpl; rewrite E.
    + simpl. f_equal. apply String.eqb_eq in E. rewrite <- E.
      rewrite filter_absent_item by exact Hnotin. reflexivity.
    + apply IH. exact Hnd.
Qed.

Lemma upsert_item_last_write_wins_witness :
  upsert_item "Widget" 12 (fst (upsert_item "Widget" 10 sample_db))
  = upsert_item "Widget" 12 sample_db
  /\ upsert_item "Widget" 12 (fst (upsert_item "Widget" 12 sample_db))
     = upsert_item "Widget" 12 sample_db
  /\ (items_unique sample_db ->
      List.length
        (filter (fun r => String.eqb (it_item r) (strip "Widget"))
           (items (fst (upsert_item "Widget" 12
                          (fst (upsert_item "Widget" 10 sample_db))))))
      = 1%nat).
Proof.
  apply (upsert_item_last_write_wins "Widget" 10 12 sample_db); reflexivity.
Defined.

Lemma import_rows_upserts (sheet : list (string * float)) (d : db) :
  forallb (fun r => negb (PrimFloat.is_nan (snd r))) sheet = true ->
  import_rows sheet d = inr (tt, set_items (upsert_rows sheet (items d)) d).
Proof.
  unfold import_rows, upsert_rows.
  revert d. induction sheet as [|x sheet IH]; intros d H;
    cbn [for_each fold_left forallb] in *.
  - unfold ret. destruct d; reflexivity.
  - apply andb_true_iff in H. destruct H as [Hx Hs]. apply negb_true_iff in Hx.
    unfold bind at 1. unfold insert_or_update_item at 1, bind at 1, not_null.
    rewrite Hx. unfold ret at 1. rewrite IH by exact Hs.
    cbn [items set_items]. reflexivity.
Qed.

Lemma last_rate_acc (name : string) (sheet : list (string * float))
  (acc : option float) :
  fold_left
    (fun acc r => if String.eqb (strip (fst r)) name then Some (snd r) else acc)
    sheet acc
  = match last_rate name sheet with
    | Some r => Some r
    | None => acc
    end.
Proof.
  unfold last_rate. revert acc.
  induction sheet as [|y sheet IH]; intros acc; simpl; [reflexivity|].
  rewrite IH. rewrite (IH (if String.eqb (strip (fst y)) name then _ else None)).
  destruct (fold_left _ sheet None); [reflexivity|].
  destruct (String.eqb (strip (fst y)) name); reflexivity.
Qed.

Lemma upsert_rows_rate (name : string) (sheet : list (string * float))
  (l : list item_row) :
  option_map it_rate
    (find (fun r => String.eqb (it_item r) name) (upsert_rows sheet l))
  = match last_rate name sheet with
    | Some r => Some r
    | None => option_map it_rate (find (fun r => String.eqb (it_item r) name) l)
    end.
Proof.
  revert l. induction sheet as [|x sheet IH]; intros l; simpl; [reflexivity|].
  unfold upsert_rows in *. simpl. rewrite IH.
  unfold last_rate at 2. simpl. rewrite last_rate_acc.
  destruct (last_rate name sheet); [reflexivity|].
  destruct (String.eqb_spec (strip (fst x)) name) as [E|E].
  - rewrite E. apply find_upsert_row_same.
  - rewrite find_upsert_row_other by congruence. reflexivity.
Qed.

Lemma upsert_row_unique (name : string) (rate : float) (l : list item_row) :
  NoDup (map it_item l) -> NoDup (map it_item (upsert_row name rate l)).
Proof.
  intros Hu. rewrite upsert_row_names.
  destruct (existsb (fun r => String.eqb (it_item r) name) l) eqn:E; [exact Hu|].
  apply NoDup_app; [exact Hu | repeat constructor; simpl; tauto |].
  intros x Hin [<-|[]]. exact (existsb_item_In _ _ E Hin).
Qed.

Lemma upsert_rows_unique (sheet : list (string * float)) (l : list item_row) :
  NoDup (map it_item l) -> NoDup (map it_item (upsert_rows sheet l)).
Proof.
  revert l. induction sheet as [|x sheet IH]; intros l Hu; [exact Hu|].
  unfold upsert_rows in *. simpl. apply IH. apply upsert_row_unique. exact Hu.
Qed.

(** X16.  Importing a sheet whose rates are numbers leaves, for every name, the
    rate the sheet lists last under that (trimmed) name, and the rate the
    master table had for a name the sheet does not list; names stay
    unique and no other table is touched. *)
Theorem import_now_last_rate_wins (sheet : list (string * float)) (d : db) :
  forallb (fun r => negb (PrimFloat.is_nan (snd r))) sheet = true ->
  exists d',
    import_now sheet d = (d', inr tt)
    /\ (forall name,
          rate_of name d'
          = match last_rate name sheet with
            | Some r => Some r
            | None => rate_of name d
            end)
    /\ (items_unique d -> items_unique d')
    /\ d' = set_items (items d') d.
Proof.
  intros H. unfold import_now, with_conn. rewrite import_rows_upserts by exact H.
  eexists. split; [reflexivity|]. unfold rate_of, items_unique.
  cbn [items set_items]. split; [intros name; apply upsert_rows_rate|].
  split; [apply upsert_rows_unique | reflexivity].
Qed.

Lemma import_now_last_rate_wins_witness :
  exists d',
    import_now [("A", 11%float); (" B", 5%float); ("B ", 6%float)] sample_db
    = (d', inr tt)
    /\ (forall name,
          rate_of name d'
          = match last_rate name [("A", 11%float); (" B", 5%float); ("B ", 6%float)]
            with
            | Some r => Some r
            | None => rate_of name sample_db
            end)
    /\ (items_unique sample_db -> items_unique d')
    /\ d' = set_items (items d') sample_db.
Proof.
  apply (import_now_last_rate_wins
           [("A", 11%float); (" B", 5%float); ("B ", 6%float)] sample_db).
  reflexivity.
Defined.

(** X17.  [ensure_seed_items] never touches a master table that has rows.  On
    an empty master table it loads the sheet when the workbook exists and
    has rows, after which every name has the rate listed last for it and
    no name occurs twice; without a workbook, or with an empty sheet, the
    database stays as it was. *)
Theorem ensure_seed_items_seeds_only_empty_table (xlsm_exists : bool)
  (sheet : list (string * float)) (d : db) :
  (items d <> [] -> ensure_seed_items xlsm_exists sheet d = (d, inr SeedQuiet))
  /\ (items d = [] -> xlsm_exists = false ->
      ensure_seed_items xlsm_exists sheet d = (d, inr SeedNoItems))
  /\ (items d = [] -> xlsm_exists = true -> sheet = [] ->
      ensure_seed_items xlsm_exists sheet d = (d, inr SeedQuiet))
  /\ (items d = [] -> xlsm_exists = true -> sheet <> [] ->
      forallb (fun r => negb (PrimFloat.is_nan (snd r))) sheet = true ->
      exists d',
        ensure_seed_items xlsm_exists sheet d
        = (d', inr (SeedLoaded (List.length sheet)))
        /\ (forall name, rate_of name d' = last_rate name sheet)
        /\ items_unique d'
        /\ d' = set_items (items d') d).
Proof.
  unfold ensure_seed_items, with_conn. repeat split.
  - intros Hne. destruct (items d) as [|r l]; [congruence|]. reflexivity.
  - intros -> ->. reflexivity.
  - intros -> -> ->. reflexivity.
  - intros Hd -> Hs Hn. rewrite Hd. simpl.
    destruct sheet as [|x sheet]; [congruence|]. cbn [List.length Nat.eqb negb].
    unfold bind. change (for_each _ (x :: sheet)) with (import_rows (x :: sheet)).
    rewrite import_rows_upserts by exact Hn. unfold ret.
    eexists. split; [reflexivity|]. unfold rate_of, items_unique.
    cbn [items set_items]. rewrite Hd. split.
    + intros name. rewrite upsert_rows_rate. simpl.
      destruct (last_rate name (x :: sheet)); reflexivity.
    + split; [apply upsert_rows_unique; constructor | reflexivity].
Qed.

Lemma ensure_seed_items_seeds_only_empty_table_witness :
  exists d',
    ensure_seed_items true [("A", 11%float); ("A", 12%float)] empty_db
    = (d', inr (SeedLoaded 2))
    /\ (forall name,
          rate_of name d' = last_rate name [("A", 11%float); ("A", 12%float)])
    /\ items_unique d'
    /\ d' = set_items (items d') empty_db.
Proof.
  apply (proj2 (proj2 (proj2
           (ensure_seed_items_seeds_only_empty_table true
              [("A", 11%float); ("A", 12%float)] empty_db))));
    try reflexivity.
  discriminate.
Defined.

(** ** Deleting an invoice *)

Lemma NoDup_map_filter {A B : Type} (f : A -> B) (p : A -> bool) (xs : list A) :
  NoDup (map f xs) -> NoDup (map f (filter p xs)).
Proof.
  induction xs as [|x xs IH]; simpl; [auto|]. intros H.
  inversion H as [|y ys Hnot Hnd]; subst.
  destruct (p x); simpl; [|auto]. constructor; [|auto].
  intros Hin. apply Hnot. apply in_map_iff in Hin.
  destruct Hin as (z & Hz & Hin). apply filter_In in Hin.
  apply in_map_iff. exists z. tauto.
Qed.

Lemma Forall_filter_keeps {A : Type} (P : A -> Prop) (p : A -> bool)
  (xs : list A) :
  Forall P xs -> Forall P (filter p xs).
Proof.
  intros H. apply Forall_forall. intros x Hin. apply filter_In in Hin.
  rewrite Forall_forall in H. apply H. tauto.
Qed.

Lemma delete_where_ids {R : Type} (id : R -> Z) (gone : R -> bool) (t : table R) :
  ids_in_sequence id t -> ids_in_sequence id (delete_where gone t).
Proof.
  intros [Hnd Hb]. split; simpl.
  - apply NoDup_map_filter. exact Hnd.
  - apply Forall_filter_keeps. exact Hb.
Qed.

(** X18.  Deleting an invoice removes its row and, by the cascade, every line,
    collection and due that carries its id, and nothing else: the rows of
    other invoices stay in place, the daily aggregate in [collections]
    stays, and the id counters stay, so the id is not handed out again.
    No child row is left without its invoice. *)
Theorem delete_invoice_cascades (id : Z) (d : db) :
  exists d',
    delete_invoice id d = (d', inr tt)
    /\ rows (invoices d')
       = filter (fun r => negb (Z.eqb (inv_id r) id)) (rows (invoices d))
    /\ rows (invoice_lines d')
       = filter (fun r => negb (Z.eqb (il_invoice_id r) id))
           (rows (invoice_lines d))
    /\ rows (invoice_collections d')
       = filter (fun r => negb (Z.eqb (ic_invoice_id r) id))
           (rows (invoice_collections d))
    /\ rows (invoice_dues d')
       = filter (fun r => negb (Z.eqb (idue_invoice_id r) id))
           (rows (invoice_dues d))
    /\ ~ In id (map inv_id (rows (invoices d')))
    /\ collections d' = collections d
    /\ items d' = items d
    /\ inventory_movements d' = inventory_movements d
    /\ last_id (invoices d') = last_id (invoices d)
    /\ (children_have_invoice d -> children_have_invoice d')
    /\ (ids_consistent d -> ids_consistent d').
Proof.
  eexists. split; [reflexivity|].
  cbn [invoices invoice_lines invoice_collections invoice_dues collections items
       inventory_movements delete_where rows last_id].
  repeat (split; [reflexivity|]). split; [|repeat (split; [reflexivity|]); split].
  - intros Hin. apply in_map_iff in Hin. destruct Hin as (r & Hr & Hin).
    apply filter_In in Hin. destruct Hin as [_ Hk].
    rewrite <- Hr, Z.eqb_refl in Hk. discriminate.
  - intros (Hl & Hc & Hd).
    assert (Hkeep : forall i, i <> id ->
                      In i (map inv_id (rows (invoices d))) ->
                      In i (map inv_id
                              (filter (fun r => negb (Z.eqb (inv_id r) id))
                                 (rows (invoices d))))).
    { intros i Hne Hin. apply in_map_iff in Hin. destruct Hin as (r & Hr & Hin).
      apply in_map_iff. exists r. split; [exact Hr|]. apply filter_In.
      split; [exact Hin|]. apply negb_true_iff. apply Z.eqb_neq. congruence. }
    unfold children_have_invoice. cbn [invoices invoice_lines invoice_collections
      invoice_dues delete_where rows].
    repeat split; apply Forall_forall; intros r Hin; apply filter_In in Hin;
      destruct Hin as [Hin Hk]; apply negb_true_iff in Hk; apply Z.eqb_neq in Hk;
      apply Hkeep; try exact Hk.
    + rewrite Forall_forall in Hl. apply Hl. exact Hin.
    + rewrite Forall_forall in Hc. apply Hc. exact Hin.
    + rewrite Forall_forall in Hd. apply Hd. exact Hin.
  - intros (Hi & Hl & Hc & Hd & Ha & Hm). unfold ids_consistent.
    cbn [invoices invoice_lines invoice_collections invoice_dues collections
         inventory_movements].
    refine (conj _ (conj _ (conj _ (conj _ (conj Ha Hm)))));
      apply delete_where_ids; assumption.
Qed.

Lemma delete_where_none {R : Type} (gone : R -> bool) (t : table R) :
  Forall (fun r => gone r = false) (rows t) -> delete_where gone t = t.
Proof.
  intros H. unfold delete_where. rewrite filter_all.
  - destruct t; reflexivity.
  - apply forallb_forall. intros r Hin. rewrite Forall_forall in H.
    rewrite (H _ Hin). reflexivity.
Qed.

(** X19.  Deleting an id that no invoice has changes nothing ("Deleted invoice
    ... (if existed)"), provided every child row belongs to an invoice of
    the table. *)
Theorem delete_invoice_unknown_id (id : Z) (d : db) :
  children_have_invoice d ->
  ~ In id (map inv_id (rows (invoices d))) ->
  delete_invoice id d = (d, inr tt).
Proof.
  intros (Hl & Hc & Hd) Hnot. unfold delete_invoice, with_conn, delete_from_invoices.
  rewrite !delete_where_none; [destruct d; reflexivity | | | |].
  - eapply Forall_impl; [|exact Hd]. intros r Hin. apply Z.eqb_neq. congruence.
  - eapply Forall_impl; [|exact Hc]. intros r Hin. apply Z.eqb_neq. congruence.
  - eapply Forall_impl; [|exact Hl]. intros r Hin. apply Z.eqb_neq. congruence.
  - apply Forall_forall. intros r Hin. apply Z.eqb_neq. intros E. apply Hnot.
    rewrite <- E. apply in_map. exact Hin.
Qed.

Lemma delete_invoice_unknown_id_witness :
  let d1 :=
    fst (Ledger.create_invoice sample_date "Bob" [sample_line "A" 10 2]
           [paid "Cash" 5] [owed "S1" 15] "" sample_db) in
  map inv_id (rows (invoices d1)) = [1%Z]
  /\ List.length (rows (invoice_lines d1)) = 1%nat
  /\ delete_invoice 7 d1 = (d1, inr tt).
Proof.
  split; [reflexivity|]. split; [reflexivity|].
  apply (delete_invoice_unknown_id 7).
  - unfold children_have_invoice.
    repeat split; repeat constructor; vm_compute; left; reflexivity.
  - vm_compute. intros [H | []]. discriminate H.
Defined.

Lemma filter_app_new {R : Type} (key : R -> Z) (id : Z) (old new : list R) :
  Forall (fun r => key r <> id) old ->
  Forall (fun r => key r = id) new ->
  filter (fun r => negb (Z.eqb (key r) id)) (old ++ new)%list = old.
Proof.
  intros Ho Hn. rewrite filter_app.
  rewrite (filter_all _ old).
  - replace (filter _ new) with (@nil R); [apply app_nil_r|].
    symmetry. induction Hn as [|r new Hr _ IH]; simpl; [reflexivity|].
    rewrite Hr, Z.eqb_refl. simpl. exact IH.
  - apply forallb_forall. intros r Hin. rewrite Forall_forall in Ho.
    apply negb_true_iff. apply Z.eqb_neq. apply Ho. exact Hin.
Qed.

Lemma planned_rows_invoice {R F : Type} (fields : R -> F) (key : R -> Z)
  (first : F -> Z) (inv : Z) (new : list R) {A : Type} (f : A -> F)
  (xs : list A) :
  (forall r, key r = first (fields r)) ->
  (forall x, first (f x) = inv) ->
  map fields new = map f xs ->
  Forall (fun r => key r = inv) new.
Proof.
  intros Hkey Hf Hmap.
  apply (Forall_of_map fields f (fun v => first v = inv)) in Hmap.
  - eapply Forall_impl; [|exact Hmap]. intros r Hr. simpl in Hr.
    rewrite Hkey. exact Hr.
  - apply Forall_forall. intros x _. apply Hf.
Qed.

(** X20.  Saving an invoice and then deleting it gives back the rows of
    [invoices], [invoice_lines], [invoice_collections] and [invoice_dues]
    as they were before the save.  Two traces remain: the daily aggregate
    row in [collections], which no cascade reaches, and the id counter, so
    the next invoice gets a later id. *)
Theorem delete_invoice_undoes_create_invoice (date_ : date)
  (person_name : string) (lines : list line) (colls : list collection_entry)
  (dues : list due_entry) (notes : string) (d d1 : db) (msg : string) (inv : Z) :
  ids_in_sequence inv_id (invoices d) ->
  children_have_invoice d ->
  Ledger.create_invoice date_ person_name lines colls dues notes d
  = (d1, inr (true, msg, inv)) ->
  exists d2,
    delete_invoice inv d1 = (d2, inr tt)
    /\ rows (invoices d2) = rows (invoices d)
    /\ rows (invoice_lines d2) = rows (invoice_lines d)
    /\ rows (invoice_collections d2) = rows (invoice_collections d)
    /\ rows (invoice_dues d2) = rows (invoice_dues d)
    /\ collections d2 = collections d1
    /\ last_id (invoices d2) = inv
    /\ (last_id (invoices d) < inv)%Z.
Proof.
  intros [_ Hb] (Hl & Hc & Hd) H. apply create_invoice_saved in H.
  destruct H as (Hrec & Hinv & _ & ->).
  destruct (saved_db_child_rows date_ person_name lines colls dues notes d Hrec)
    as (nl & nc & nd & Hlr & Hlf & Hcr & Hcf & Hdr & Hdf).
  assert (Hold : forall i, In i (map inv_id (rows (invoices d))) -> i <> inv).
  { intros i Hin. apply in_map_iff in Hin. destruct Hin as (r & <- & Hin).
    rewrite Forall_forall in Hb. specialize (Hb _ Hin). lia. }
  eexists. split; [reflexivity|].
  cbn [invoices invoice_lines invoice_collections invoice_dues collections
       delete_where rows last_id].
  rewrite saved_db_invoice_rows, Hlr, Hcr, Hdr.
  split; [|split; [|split; [|split; [|split; [reflexivity|split]]]]].
  - apply filter_app_new.
    + apply Forall_forall. intros r Hin. apply Hold. apply in_map. exact Hin.
    + constructor; [symmetry; exact Hinv | constructor].
  - apply filter_app_new.
    + eapply Forall_impl; [|exact Hl]. intros r Hin. apply Hold. exact Hin.
    + rewrite Hinv.
      eapply (planned_rows_invoice line_fields il_invoice_id
                (fun f => fst (fst (fst (fst (fst (fst f)))))));
        [reflexivity | | exact Hlf]; intros; reflexivity.
  - apply filter_app_new.
    + eapply Forall_impl; [|exact Hc]. intros r Hin. apply Hold. exact Hin.
    + rewrite Hinv.
      eapply (planned_rows_invoice collection_fields ic_invoice_id
                (fun f => fst (fst f)));
        [reflexivity | | exact Hcf]; intros; reflexivity.
  - apply filter_app_new.
    + eapply Forall_impl; [|exact Hd]. intros r Hin. apply Hold. exact Hin.
    + rewrite Hinv.
      eapply (planned_rows_invoice due_fields idue_invoice_id
                (fun f => fst (fst f)));
        [reflexivity | | exact Hdf]; intros; reflexivity.
  - simpl. symmetry. exact Hinv.
  - lia.
Qed.

Lemma delete_invoice_undoes_create_invoice_witness :
  exists d2,
    delete_invoice 1
      (fst (Ledger.create_invoice sample_date "Bob" [sample_line "A" 10 2]
              [paid "Cash" 5] [owed "S1" 15] "" sample_db))
    = (d2, inr tt)
    /\ rows (invoices d2) = rows (invoices sample_db)
    /\ rows (invoice_lines d2) = rows (invoice_lines sample_db)
    /\ rows (invoice_collections d2) = rows (invoice_collections sample_db)
    /\ rows (invoice_dues d2) = rows (invoice_dues sample_db)
    /\ collections d2
       = collections
           (fst (Ledger.create_invoice sample_date "Bob" [sample_line "A" 10 2]
                   [paid "Cash" 5] [owed "S1" 15] "" sample_db))
    /\ last_id (invoices d2) = 1%Z
    /\ (last_id (invoices sample_db) < 1)%Z.
Proof.
  eapply (delete_invoice_undoes_create_invoice sample_date "Bob"
            [sample_line "A" 10 2] [paid "Cash" 5] [owed "S1" 15] "" sample_db).
  - split; constructor.
  - unfold children_have_invoice. simpl. repeat split; constructor.
  - reflexivity.
Defined.

(** ** More on schema evolution *)

Section SchemaErrors.

Import Schema SchemaSpec.

Lemma has_table_find (c : catalog) (n : string) :
  has_table c n = true <-> exists t, find_table n c = Some t.
Proof.
  unfold has_table. destruct (find_table n c) as [t|]; split.
  - eauto.
  - reflexivity.
  - discriminate.
  - intros [t H]. discriminate.
Qed.

Lemma migrate_db_raises_iff_shared (c : catalog) (e : ddl_error) :
  migrate_db c = inl e
  <->
  (find_table "invoice_lines" c = None /\ e = NoSuchTable "invoice_lines")
  \/ (exists t,
        find_table "invoice_lines" c = Some t
        /\ table_has_column c "invoice_lines" "highlight" = false
        /\ existsb (fun k => same_name (col_name k) "highlight") (t_columns t)
           = true
        /\ e = DuplicateColumnName "highlight").
Proof.
  unfold migrate_db, alter_table_add_column.
  destruct (table_has_column c "invoice_lines" "highlight") eqn:Hcol; simpl.
  - split; [discriminate|].
    intros [[Hnone _] | (t & _ & H & _)]; [|discriminate].
    unfold table_has_column, table_info in Hcol. rewrite Hnone in Hcol.
    discriminate.
  - destruct (find_table "invoice_lines" c) as [t|] eqn:Ef.
    + change (col_name highlight_column) with "highlight".
      destruct (existsb (fun k => same_name (col_name k) "highlight")
                  (t_columns t)) eqn:Edup.
      * split.
        -- intros [= <-]. right. exists t. auto.
        -- intros [[H _] | (t' & _ & _ & _ & ->)]; [discriminate | reflexivity].
      * split; [discriminate|].
        intros [[H _] | (t' & Ht & _ & H & _)]; [discriminate|].
        inversion Ht; subst. congruence.
    + split.
      * intros [= <-]. left. auto.
      * intros [[_ ->] | (t & H & _)]; [reflexivity | discriminate].
Qed.

(** X21.  When [migrate_db] raises.  On its own it needs the table
    [invoice_lines]: without it the [ALTER TABLE] fails.  With the table
    there, it fails only if [table_has_column] does not find [highlight]
    although the table has a column of that name as SQLite compares
    names: one spelt in another letter case, or a generated one, which
    [PRAGMA table_info] does not list. *)
Theorem migrate_db_raises_iff (c : catalog) (e : ddl_error) :
  migrate_db c = inl e
  <->
  (find_table "invoice_lines" c = None /\ e = NoSuchTable "invoice_lines")
  \/ (exists t,
        find_table "invoice_lines" c = Some t
        /\ table_has_column c "invoice_lines" "highlight" = false
        /\ existsb (fun k => same_name (col_name k) "highlight") (t_columns t)
           = true
        /\ e = DuplicateColumnName "highlight").
Proof. apply migrate_db_raises_iff_shared. Qed.

Lemma migrate_db_raises_iff_witness :
  migrate_db [] = inl (NoSuchTable "invoice_lines")
  /\ migrate_db
       [mk_sql_table "invoice_lines"
          (old_invoice_lines_columns
           ++ [mk_column "Highlight" "INTEGER DEFAULT 0" false])%list []]
     = inl (DuplicateColumnName "highlight").
Proof.
  split.
  - apply (proj2 (migrate_db_raises_iff [] _)). left. split; reflexivity.
  - apply (proj2 (migrate_db_raises_iff _ _)). right.
    eexists. repeat split; reflexivity.
Defined.

(** X22.  After [init_db_schema] the table is there, so the start-up sequence
    never fails for want of it: [init_db_schema(); migrate_db()] raises
    exactly when the database came with an [invoice_lines] table in which
    [table_has_column] misses a column that SQLite calls [highlight], and
    then with the duplicate-column error. *)
Theorem ensure_schema_raises_iff (c : catalog) (e : ddl_error) :
  ensure_schema c = inl e
  <->
  exists t,
    find_table "invoice_lines" c = Some t
    /\ table_has_column c "invoice_lines" "highlight" = false
    /\ existsb (fun k => same_name (col_name k) "highlight") (t_columns t) = true
    /\ e = DuplicateColumnName "highlight".
Proof.
  unfold ensure_schema. rewrite migrate_db_raises_iff_shared.
  rewrite init_db_schema_create_all.
  destruct (create_all_spec base_tables c) as (added & Heq & Hhas & Hnew).
  rewrite Heq.
  assert (Hil : has_table (c ++ added)%list "invoice_lines" = true)
    by (apply (Hhas ("invoice_lines", invoice_lines_columns)); simpl; tauto).
  destruct (find_table "invoice_lines" c) as [t0|] eqn:Ec.
  - assert (Hc : has_table c "invoice_lines" = true)
      by (unfold has_table; rewrite Ec; reflexivity).
    rewrite (find_table_app_some _ _ added _ Ec).
    rewrite table_has_column_app by exact Hc. split.
    + intros [[H _] | H]; [discriminate | exact H].
    + intros H. right. exact H.
  - split.
    + intros [[H _] | (t & Ht & Hcol & _)].
      * apply has_table_find in Hil. destruct Hil as [t Ht]. congruence.
      * rewrite find_table_app_none in Ht by exact Ec.
        pose proof (created_invoice_lines _ _ _ Hnew Ht) as Hcols.
        unfold table_has_column, table_info in Hcol.
        rewrite find_table_app_none in Hcol by exact Ec.
        rewrite Ht, Hcols in Hcol. discriminate Hcol.
    + intros (t & Ht & _). discriminate.
Qed.

Lemma ensure_schema_raises_iff_witness :
  ensure_schema
    [mk_sql_table "invoice_lines"
       (old_invoice_lines_columns
        ++ [mk_column "highlight" "INTEGER" true])%list []]
  = inl (DuplicateColumnName "highlight").
Proof.
  apply (proj2 (ensure_schema_raises_iff _ _)).
  eexists. repeat split; reflexivity.
Defined.

End SchemaErrors.

Section SchemaUpgrade.

Import Schema SchemaSpec.

(** X23.  [init_db_schema] only appends: the tables that are there stay as
    they are, in place, and the ones it adds are empty tables created for
    want of one of that name; afterwards all seven tables exist, and
    running it again changes nothing. *)
Theorem init_db_schema_appends_once (c : catalog) :
  exists added,
    init_db_schema c = (c ++ added)%list
    /\ Forall (created_from base_tables c) added
    /\ (forall s, In s base_tables ->
                  has_table (init_db_schema c) (fst s) = true)
    /\ init_db_schema (init_db_schema c) = init_db_schema c.
Proof.
  rewrite init_db_schema_create_all.
  destruct (create_all_spec base_tables c) as (added & Heq & Hhas & Hnew).
  exists added. rewrite Heq. repeat split; try assumption.
  unfold init_db_schema.
  rewrite (create_fixed "items")
    by (apply (Hhas ("items", items_columns)); simpl; tauto).
  rewrite (create_fixed "inventory_movements")
    by (apply (Hhas ("inventory_movements", inventory_movements_columns));
        simpl; tauto).
  rewrite (create_fixed "invoices")
    by (apply (Hhas ("invoices", invoices_columns)); simpl; tauto).
  rewrite (create_fixed "invoice_lines")
    by (apply (Hhas ("invoice_lines", invoice_lines_columns)); simpl; tauto).
  rewrite (create_fixed "invoice_collections")
    by (apply (Hhas ("invoice_collections", invoice_collections_columns));
        simpl; tauto).
  rewrite (create_fixed "invoice_dues")
    by (apply (Hhas ("invoice_dues", invoice_dues_columns)); simpl; tauto).
  rewrite (create_fixed "collections")
    by (apply (Hhas ("collections", collections_columns)); simpl; tauto).
  reflexivity.
Qed.

Lemma create_keeps_found (n m : string) (cols : list column) (c : catalog)
  (t : sql_table) :
  find_table m c = Some t ->
  find_table m (create_table_if_not_exists n cols c) = Some t.
Proof.
  intros H. unfold create_table_if_not_exists.
  destruct (find_table n c); [exact H | apply find_table_app_some; exact H].
Qed.

Lemma create_finds_new (n : string) (cols : list column) (c : catalog) :
  find_table n c = None ->
  find_table n (create_table_if_not_exists n cols c)
  = Some (mk_sql_table n cols []).
Proof.
  intros H. unfold create_table_if_not_exists. rewrite H.
  rewrite find_table_app_none by exact H. simpl. rewrite same_name_refl.
  reflexivity.
Qed.

Lemma create_other_none (n m : string) (cols : list column) (c : catalog) :
  same_name n m = false ->
  find_table m c = None ->
  find_table m (create_table_if_not_exists n cols c) = None.
Proof.
  intros Hne H. unfold create_table_if_not_exists.
  destruct (find_table n c); [exact H|].
  rewrite find_table_app_none by exact H. simpl. rewrite Hne. reflexivity.
Qed.

(** X24.  A database of the earlier application upgrades cleanly.  Where that
    application's [init_db] created [invoice_lines], the table has the
    old columns; and on any database whose [invoice_lines] has the old
    columns, whatever rows it holds, the new start-up succeeds and leaves
    that table with [highlight] appended as its last column, every
    existing row reading 0 in it, and the tables [invoice_collections]
    and [invoice_dues] present. *)
Theorem old_database_upgrades (c : catalog) :
  (find_table "invoice_lines" c = None ->
   find_table "invoice_lines" (plain_init_db c)
   = Some (mk_sql_table "invoice_lines" old_invoice_lines_columns []))
  /\ (forall t,
        find_table "invoice_lines" c = Some t ->
        t_columns t = old_invoice_lines_columns ->
        exists c1,
          ensure_schema c = inr c1
          /\ find_table "invoice_lines" c1
             = Some (mk_sql_table (t_name t)
                       (old_invoice_lines_columns ++ [highlight_column])%list
                       (map (fun r => r ++ [CInt 0])%list (t_rows t)))
          /\ has_table c1 "invoice_collections" = true
          /\ has_table c1 "invoice_dues" = true).
Proof.
  split.
  - intros Hnone. unfold plain_init_db.
    apply create_keeps_found. apply create_finds_new.
    repeat (apply create_other_none; [reflexivity|]). exact Hnone.
  - intros t Hfind Hcols.
    unfold ensure_schema. rewrite init_db_schema_create_all.
    destruct (create_all_spec base_tables c) as (added & Heq & Hhas & _).
    rewrite Heq.
    assert (Hc : has_table c "invoice_lines" = true)
      by (unfold has_table; rewrite Hfind; reflexivity).
    assert (Hname : forall t0, t_name (add_column highlight_column (CInt 0) t0)
                               = t_name t0) by reflexivity.
    pose proof (find_table_app_some _ _ added _ Hfind) as Hfind'.
    unfold migrate_db.
    rewrite table_has_column_app by exact Hc.
    unfold table_has_column at 1, table_info. rewrite Hfind, Hcols.
    cbn [filter existsb negb col_generated old_invoice_lines_columns plain
         generated col_name String.eqb Ascii.eqb Bool.eqb orb].
    unfold alter_table_add_column. rewrite Hfind', Hcols.
    replace (existsb _ old_invoice_lines_columns) with false by reflexivity.
    rewrite (create_fixed "invoice_collections")
      by (rewrite has_table_alter_first by exact Hname;
          apply (Hhas ("invoice_collections", invoice_collections_columns));
          simpl; tauto).
    rewrite (create_fixed "invoice_dues")
      by (rewrite has_table_alter_first by exact Hname;
          apply (Hhas ("invoice_dues", invoice_dues_columns)); simpl; tauto).
    eexists. split; [reflexivity|]. split; [|split].
    + rewrite (find_table_alter_first_same _ _ _ _ Hname Hfind').
      unfold add_column. rewrite Hcols. reflexivity.
    + rewrite has_table_alter_first by exact Hname.
      apply (Hhas ("invoice_collections", invoice_collections_columns)).
      simpl. tauto.
    + rewrite has_table_alter_first by exact Hname.
      apply (Hhas ("invoice_dues", invoice_dues_columns)). simpl. tauto.
Qed.

Lemma old_database_upgrades_witness :
  exists c1,
    ensure_schema old_catalog = inr c1
    /\ find_table "invoice_lines" c1
       = Some (mk_sql_table "invoice_lines"
                 (old_invoice_lines_columns ++ [highlight_column])%list
                 [[CInt 1; CInt 1; CInt 1; CText "A"; CReal 10%float;
                   CReal 2%float; CText "UNITS"; CReal 20%float; CInt 0]])
    /\ has_table c1 "invoice_collections" = true
    /\ has_table c1 "invoice_dues" = true.
Proof.
  exact (proj2 (old_database_upgrades old_catalog) _ eq_refl eq_refl).
Defined.


End SchemaUpgrade.

(** ** The Save-Movements handler *)

Section SaveMovements.

Import Inventory.

Lemma prepare_movements_kept (inv_edit : list movement_entry) :
  prepare_movements inv_edit = map movement_of_row (kept_rows inv_edit).
Proof.
  unfold prepare_movements, kept_rows.
  induction inv_edit as [|r rs IH]; [reflexivity|].
  cbn [flat_map filter].
  destruct (truthy_str (Some (strip (get_str (m_item r))))); cbn [negb].
  - cbn [app map]. rewrite IH. reflexivity.
  - exact IH.
Qed.

Lemma kept_rows_named (inv_edit : list movement_entry) :
  forallb (fun r => truthy_str (m_item r))
    (map movement_of_row (kept_rows inv_edit)) = true.
Proof.
  unfold kept_rows. induction inv_edit as [|r rs IH]; [reflexivity|].
  cbn [filter].
  destruct (truthy_str (Some (strip (get_str (m_item r))))) eqn:Ht; [|exact IH].
  cbn [map forallb movement_of_row m_item]. rewrite Ht. exact IH.
Qed.

Lemma kept_rows_storable (d : db) (kept : list movement_entry) :
  forallb (fun r => truthy_str (m_item r)) (map movement_of_row kept) = true ->
  forallb (fun r => movement_storable r d) (map movement_of_row kept)
  = forallb (fun r => item_exists (strip (get_str (m_item r))) d) kept.
Proof.
  induction kept as [|r rs IH]; [reflexivity|].
  cbn [map forallb]. intros H. apply andb_true_iff in H. destruct H as [Hr Hrs].
  rewrite (IH Hrs). unfold movement_storable at 1. rewrite Hr. reflexivity.
Qed.

(** X12.  The Save-Movements handler.  Of the grid rows it keeps those whose
    trimmed item is non-empty.  With none kept it shows an error and
    writes nothing.  Otherwise, if every kept row names an item of the
    master table, it appends one movement per kept row, in grid order,
    with the trimmed item, the four quantities and both balances by the
    formula, reports their number, and touches no other table; and if a
    kept row names an unknown item, the foreign-key error escapes and
    nothing is written. *)
Theorem save_movements_cases (date_val : date)
  (inv_edit : list movement_entry) (d : db) :
  match kept_rows inv_edit with
  | [] =>
      save_movements date_val inv_edit d
      = (d, inr (ShowError "Add at least one item row."))
  | kept =>
      if forallb (fun r => item_exists (strip (get_str (m_item r))) d) kept
      then
        exists d' new_rows,
          save_movements date_val inv_edit d
          = (d', inr (ShowSuccess
                        ("Saved " ++ str_of_Z (Z.of_nat (List.length kept))
                         ++ " movement rows for " ++ isoformat date_val ++ ".")))
          /\ rows (inventory_movements d')
             = (rows (inventory_movements d) ++ new_rows)%list
          /\ map movement_fields new_rows
             = map
                 (fun r =>
                    (isoformat date_val, strip (get_str (m_item r)),
                     get_float_or0 (m_opening_balance r),
                     get_float_or0 (m_stock_in r),
                     get_float_or0 (m_stock_out r),
                     get_float_or0 (m_stock_returning_today r)))
                 kept
          /\ Forall movement_balanced new_rows
          /\ items d' = items d
          /\ invoices d' = invoices d
          /\ invoice_lines d' = invoice_lines d
          /\ invoice_collections d' = invoice_collections d
          /\ invoice_dues d' = invoice_dues d
          /\ collections d' = collections d
      else
        save_movements date_val inv_edit d = (d, inl foreign_key_failed)
  end.
Proof.
  unfold save_movements. rewrite prepare_movements_kept.
  pose proof (kept_rows_named inv_edit) as Hnamed.
  destruct (kept_rows inv_edit) as [|r kept] eqn:Ek; [reflexivity|].
  rewrite length_map. cbn [List.length Nat.eqb].
  rewrite <- (kept_rows_storable d (r :: kept) Hnamed).
  destruct (forallb (fun r0 => movement_storable r0 d)
              (map movement_of_row (r :: kept))) eqn:H.
  - unfold Ledger.add_inventory_movement, with_conn.
    rewrite movements_loop_stores by exact H.
    eexists _, _. split; [reflexivity|].
    cbn [inventory_movements set_inventory_movements items invoices
         invoice_lines invoice_collections invoice_dues collections].
    rewrite tbl_insert_all_rows. split; [reflexivity|]. split.
    + rewrite movement_plan_fields, (filter_all _ _ Hnamed), map_map.
      apply map_ext. intros a. unfold movement_of_row.
      cbn [m_item m_opening_balance m_stock_in m_stock_out
           m_stock_returning_today get_str].
      rewrite !get_float_or0_stable. reflexivity.
    + split; [apply movement_plan_balanced|]. repeat split.
  - unfold Ledger.add_inventory_movement, with_conn.
    rewrite (for_each_raises inventory_movements set_inventory_movements
               (Ledger.store_movement date_val)
               (LedgerPlan.movement_plan date_val)
               movement_storable foreign_key_failed); try reflexivity;
      try exact H.
    + intros; apply store_movement_stores; assumption.
    + intros; apply store_movement_raises_fk; assumption.
Qed.

End SaveMovements.

(** ** Prices filled in from the master table *)

Lemma autofill_price_idem (d : db) (row : line) :
  Billing.autofill_price d (Billing.autofill_price d row)
  = Billing.autofill_price d row.
Proof.
  destruct (truthy_str (Some (strip (get_str (l_item row))))
            && Billing.price_unset (l_unit_price row)) eqn:Hc.
  - destruct (rate_of (strip (get_str (l_item row))) d) as [rate|] eqn:Hr.
    + assert (E : Billing.autofill_price d row
                  = mk_line (l_item row) (Some rate) (l_qty row) (l_units row)
                      (l_highlight row))
        by (unfold Billing.autofill_price; rewrite Hc, Hr; reflexivity).
      rewrite E. unfold Billing.autofill_price.
      cbn [l_item l_unit_price l_qty l_units l_highlight]. rewrite Hr.
      destruct (truthy_str (Some (strip (get_str (l_item row))))
                && Billing.price_unset (Some rate)); reflexivity.
    + assert (E : Billing.autofill_price d row = row)
        by (unfold Billing.autofill_price; rewrite Hc, Hr; reflexivity).
      rewrite !E. reflexivity.
  - assert (E : Billing.autofill_price d row = row)
      by (unfold Billing.autofill_price; rewrite Hc; reflexivity).
    rewrite !E. reflexivity.
Qed.

(** X13.  [autofill_prices] touches nothing but empty or zero prices of rows
    whose trimmed item is in the master table, which take the item's
    rate: a price that was entered stays, as do the items, quantities,
    units and marks of all rows and their number; and a second pass
    changes nothing more. *)
Theorem autofill_prices_fills_unset_only (d : db) (df : list line) :
  Billing.autofill_prices d (Billing.autofill_prices d df)
  = Billing.autofill_prices d df
  /\ map (fun r => (l_item r, l_qty r, l_units r, l_highlight r))
       (Billing.autofill_prices d df)
     = map (fun r => (l_item r, l_qty r, l_units r, l_highlight r)) df
  /\ Forall2
       (fun row out =>
          (Billing.price_unset (l_unit_price row) = false -> out = row)
          /\ (truthy_str (Some (strip (get_str (l_item row)))) = false ->
              out = row)
          /\ (rate_of (strip (get_str (l_item row))) d = None -> out = row)
          /\ (forall rate,
                Billing.price_unset (l_unit_price row) = true ->
                truthy_str (Some (strip (get_str (l_item row)))) = true ->
                rate_of (strip (get_str (l_item row))) d = Some rate ->
                l_unit_price out = Some rate))
       df (Billing.autofill_prices d df).
Proof.
  unfold Billing.autofill_prices. split; [|split].
  - rewrite map_map. apply map_ext. intros row. apply autofill_price_idem.
  - rewrite map_map. apply map_ext. intros row. unfold Billing.autofill_price.
    destruct (truthy_str (Some (strip (get_str (l_item row))))
              && Billing.price_unset (l_unit_price row)); [|reflexivity].
    destruct (rate_of (strip (get_str (l_item row))) d); reflexivity.
  - induction df as [|row df IH]; [constructor|].
    cbn [map]. constructor; [|exact IH].
    unfold Billing.autofill_price.
    destruct (truthy_str (Some (strip (get_str (l_item row))))) eqn:Ht;
      destruct (Billing.price_unset (l_unit_price row)) eqn:Hp;
      destruct (rate_of (strip (get_str (l_item row))) d) as [rate|] eqn:Hr;
      cbn [andb]; repeat split; intros; try reflexivity; try discriminate.
    cbn [l_unit_price]. congruence.
Qed.

Example autofill_prices_sample :
  Billing.autofill_prices sample_db
    [sample_line " A " 0 2; sample_line "A" 12 1; sample_line "B" 0 1]
  = [sample_line " A " 10 2; sample_line "A" 12 1; sample_line "B" 0 1].
Proof. reflexivity. Qed.
